(** * Quantum circuits as diagrams, and their translation to gate lists

    A shallow embedding of [circuit.py] (module [circuit] below) and of
    [discopy/tk.py] (module [tk] below), followed by the properties
    established about them.

    Conventions of the embedding:
    - a Python call that may raise is a function into [Py.M], which is
      [result _ Py.exn]; the exception classes are the constructors of
      [Py.exn];
    - a generator is the list of the values it yields together with the way
      it ends ([Py.gen_end]);
    - wire counts ([PRO]) are [nat], offsets and register indices are [Z],
      phases of rotations are exact rationals [Q];
    - complex numbers, their arithmetic and the transcendental functions of
      numpy are the fields of the class [Numeric]: every definition and
      theorem is parametric in them. *)

From Stdlib Require Import ZArith QArith List String Bool Lia.
From stdpp Require Import base option list gmap strings pretty.
Import ListNotations.

#[local] Open Scope string_scope.
#[local] Open Scope nat_scope.

(** Python's integers.  (The gates [circuit.S] and [circuit.Z] take the
    names of the successor and of the integers inside their module.) *)
Abbreviation int := BinNums.Z (only parsing).

(** ** The Python runtime *)

Module Py.

Inductive exn : Type :=
| NameError (name : string)
| AttributeError (attr : string)
| NotImplementedError
| IndexError
| TypeError
| ValueError
| AxiomError
| InterchangerError.

Definition M (A : Type) : Type := result A exn.

Definition ret {A} (a : A) : M A := Ok a.
Definition raise {A} (e : exn) : M A := Error e.

Definition bind {A B} (m : M A) (k : A -> M B) : M B :=
  match m with
  | Ok a => k a
  | Error e => Error e
  end.

(** How a generator ends: it is exhausted, an exception escapes from it,
    or the loop of the model was given too little fuel. *)
Inductive gen_end : Type :=
| StopIteration
| Raises (e : exn)
| OutOfFuel.

(** [l[i]] for a non-negative index [i]. *)
Definition getitem {A} (l : list A) (i : nat) : M A :=
  match l !! i with
  | Some a => Ok a
  | None => Error IndexError
  end.

(** [range(a, b)] over the integers. *)
Definition range (a b : Z) : list Z :=
  map (fun k => (a + Z.of_nat k)%Z) (seq 0 (Z.to_nat (b - a))).

End Py.

Notation "'let*' x ':=' m 'in' k" := (Py.bind m (fun x => k))
  (at level 10, x pattern, m at level 100, k at level 200).

(** ** The numeric backend

    numpy's complex floating-point numbers are kept abstract.  The fields
    are the operations and the constants that [circuit.py] mentions. *)

Class Numeric : Type := {
  num : Type;
  zero : num;
  one : num;
  add : num -> num -> num;
  mul : num -> num -> num;
  num_eqb : num -> num -> bool;  (* == *)
  neg_one : num;                 (* -1 *)
  imag : num;                    (* 1j *)
  neg_imag : num;                (* -1j *)
  inv_sqrt2 : num;               (* 1 / np.sqrt(2) *)
  exp_i_pi_4 : num;              (* np.exp(1j * np.pi / 4) *)
  np_sqrt : int -> num;            (* np.sqrt *)
  rz_array : Q -> list num;      (* the closed form of Rz.array *)
  rx_array : Q -> list num;      (* the closed form of Rx.array *)
  str_float : Q -> string;       (* str of a float *)
}.

(** The arithmetic facts about 0 and 1 that evaluating basis states uses;
    they hold of the integers and of IEEE floating point alike. *)
Class BitArith (N : Numeric) : Prop := {
  mul_0_0 : mul zero zero = zero;
  mul_0_1 : mul zero one = zero;
  mul_1_0 : mul one zero = zero;
  mul_1_1 : mul one one = one;
  add_0_0 : add zero zero = zero;
  add_0_1 : add zero one = one;
  add_1_0 : add one zero = one;
}.

(** The integers as a numeric backend, for running the definitions.  The
    irrational and complex constants have no integer value: they are given
    distinct placeholders. *)
Definition Z_numeric : Numeric := {|
  num := Z;
  zero := 0%Z;
  one := 1%Z;
  add := Z.add;
  mul := Z.mul;
  num_eqb := Z.eqb;
  neg_one := (-1)%Z;
  imag := 1000%Z;
  neg_imag := (-1000)%Z;
  inv_sqrt2 := 707%Z;
  exp_i_pi_4 := 1707%Z;
  np_sqrt := Z.sqrt;
  rz_array := fun _ => [1%Z; 0%Z; 0%Z; 1%Z];
  rx_array := fun _ => [1%Z; 0%Z; 0%Z; 1%Z];
  str_float := fun q => pretty (Qnum q) ++ "/" ++ pretty (Zpos (Qden q));
|}.

(** ** The module [random]

    The generator behind [rand.seed], [rand.random] and [rand.choice] is
    kept abstract: a state, and for each call the value it returns and the
    next state.  [rand_choice n] is the position that [rand.choice] picks in
    a sequence of length [n]. *)

Record RandomSource : Type := {
  rng : Type;
  rand_seed : int -> rng;
  rand_random : rng -> Q * rng;
  rand_choice : nat -> rng -> nat * rng;
}.

(** ** pytket *)

Module pytket.

(** Modelled from the spec: the physical-circuit SDK is external; it is a
    register-based circuit object with named instruction methods and an
    ordered command iterator.  A command records the name of its
    operation, its parameters, and the indices of its qubits and bits. *)
Record Command : Type := mkCommand {
  op_type : string;
  op_params : list Q;
  qubits : list int;
  bits : list int;
}.

Record Circuit : Type := mkCircuit {
  n_qubits : nat;
  n_bits : nat;
  commands : list Command;
}.

(** [tk.Circuit(n_qubits, n_bits)] *)
Definition Circuit_init (n_qubits n_bits : nat) : Circuit :=
  mkCircuit n_qubits n_bits [].

(** The instruction methods that the translations name.  (pytket has
    more; an instruction outside this list is refused by the reverse
    translations in any case.) *)
Definition methods : list string :=
  ["SWAP"; "CX"; "H"; "S"; "T"; "X"; "Y"; "Z"; "Rx"; "Rz"; "CRz";
   "Measure"].

Definition hasattr (name : string) : bool :=
  existsb (String.eqb name) methods.

(** Calling the method [name] of [self] with the parameters, then the
    qubits, then the bits: the command is added after those already
    there. *)
Definition call (self : Circuit) (name : string) (params : list Q)
    (qubits bits : list int) : Py.M Circuit :=
  if hasattr name
  then Py.ret (mkCircuit (n_qubits self) (n_bits self)
                 (commands self ++ [mkCommand name params qubits bits]))
  else Py.raise (Py.AttributeError name).

Definition get_commands (self : Circuit) : list Command := commands self.

End pytket.

(** ** [circuit.py] *)

Module circuit.
Section circuit.
Context {N : Numeric}.

(** [class PRO(Ty)]: the unary type [Ty(1, ..., 1)] of length [n]. *)
Definition PRO : Type := nat.

(** [PRO.tensor] *)
Definition PRO_tensor (self other : PRO) : PRO := self + other.

(** [PRO.__getitem__] with a slice [start:stop]. *)
Definition PRO_slice (self : PRO) (start stop : nat) : PRO :=
  Nat.min stop self - start.

(** The box classes of the module: [Gate] with its subclasses [Rz] and
    [Rx], [Ket] and [Bra].  [array] is the flattened [_array] attribute,
    absent when the constructor was given none; [_dagger] is [False],
    [True] or [None]. *)
Inductive Box : Type :=
| Gate (name : string) (n_qubits : nat) (array : option (list num))
       (data : option string) (_dagger : option bool)
| Ket (bitstring : list int)
| Bra (bitstring : list int)
| Rz (phase : Q)
| Rx (phase : Q).

(** [class Circuit(Diagram)]: [Circuit(dom, cod, gates, offsets)].  The
    constructor of the absent base class is not modelled: a circuit is the
    record of its four arguments. *)
Record Circuit : Type := mkCircuit {
  dom : PRO;
  cod : PRO;
  boxes : list Box;
  offsets : list int;
}.

(** [Circuit.gates] *)
Definition gates (self : Circuit) : list Box := boxes self.

(** The domain that each class passes to [Box.__init__]. *)
Definition box_dom (b : Box) : PRO :=
  match b with
  | Gate _ n _ _ _ => n
  | Ket _ => 0
  | Bra bitstring => length bitstring
  | Rz _ | Rx _ => 1
  end.

(** The codomain that each class passes to [Box.__init__]. *)
Definition box_cod (b : Box) : PRO :=
  match b with
  | Gate _ n _ _ _ => n
  | Ket bitstring => length bitstring
  | Bra _ => 0
  | Rz _ | Rx _ => 1
  end.

(** [', '.join(map(str, bitstring))] *)
Definition join_bits (bitstring : list int) : string :=
  String.concat ", " (map pretty bitstring).

(** The [name] attribute (a property for [Rz] and [Rx]). *)
Definition name (b : Box) : string :=
  match b with
  | Gate name _ _ _ _ => name
  | Ket bitstring => "Ket(" ++ join_bits bitstring ++ ")"
  | Bra bitstring => "Bra(" ++ join_bits bitstring ++ ")"
  | Rz phase => "Rz(" ++ str_float phase ++ ")"
  | Rx phase => "Rx(" ++ str_float phase ++ ")"
  end.

(** A box is at the same time a one-layer circuit:
    [Circuit.__init__(self, dom, cod, [self], [0])]. *)
Definition as_circuit (b : Box) : Circuit :=
  mkCircuit (box_dom b) (box_cod b) [b] [0%Z].

(** [class Id(Circuit)] *)
Definition Id (n_qubits : nat) : Circuit :=
  mkCircuit n_qubits n_qubits [] [].

(** [Gate.__init__]: the array, when given, is reshaped to
    [2 * n_qubits * (2, ) or 1], which numpy refuses unless it has
    [4 ^ n_qubits] entries. *)
Definition Gate_init (name : string) (n_qubits : nat)
    (array : option (list num)) (data : option string)
    (_dagger : option bool) : Py.M Box :=
  match array with
  | Some a =>
      if length a =? 4 ^ n_qubits
      then Py.ret (Gate name n_qubits (Some a) data _dagger)
      else Py.raise Py.ValueError
  | None => Py.ret (Gate name n_qubits None data _dagger)
  end.

(** *** The diagram algebra of the base class

    [Diagram.then], [Diagram.tensor] and [Diagram.__getitem__] belong to
    the absent module [discopy.rigidcat]. *)

(** Modelled from the spec: the base class [Diagram] is missing; composing
    two circuits requires the codomain width of the first to equal the
    domain width of the second, and concatenates the layers. *)
Definition Diagram_then (self other : Circuit) : Py.M Circuit :=
  if cod self =? dom other
  then Py.ret (mkCircuit (dom self) (cod other)
                 (boxes self ++ boxes other) (offsets self ++ offsets other))
  else Py.raise Py.AxiomError.

(** Modelled from the spec: the base class [Diagram] is missing; tensoring
    is always legal and shifts the second operand's offsets by the first
    operand's codomain width. *)
Definition Diagram_tensor (self other : Circuit) : Circuit :=
  mkCircuit (PRO_tensor (dom self) (dom other))
            (PRO_tensor (cod self) (cod other))
            (boxes self ++ boxes other)
            (offsets self
               ++ map (fun n => (n + Z.of_nat (cod self))%Z) (offsets other)).

(** The width of the wires below the first [i] layers. *)
Definition width_at (self : Circuit) (i : nat) : PRO :=
  fold_left (fun w b => w - box_dom b + box_cod b)
            (firstn i (boxes self)) (dom self).

(** Modelled from the spec: the base class [Diagram] is missing; the
    slice [self[start:stop]] keeps the layers [start], ..., [stop - 1]
    between the widths found at these two positions. *)
Definition Diagram_slice (self : Circuit) (start stop : nat) : Circuit :=
  mkCircuit (width_at self start) (width_at self stop)
            (firstn (stop - start) (skipn start (boxes self)))
            (firstn (stop - start) (skipn start (offsets self))).

(** What Python's [self @ other] and [self >> other] are applied to: an
    instance of a box class, or a circuit that is no box. *)
Inductive Obj : Type :=
| OfBox (b : Box)
| OfCircuit (c : Circuit).

Definition circuit_of (o : Obj) : Circuit :=
  match o with
  | OfBox b => as_circuit b
  | OfCircuit c => c
  end.

(** [Ket.tensor], [Bra.tensor], and [Diagram.tensor] for the other
    classes, selected by the class of [self]. *)
Definition tensor (self other : Obj) : Obj :=
  match self with
  | OfBox (Ket bitstring) =>
      match other with
      | OfBox (Ket bitstring') => OfBox (Ket (bitstring ++ bitstring'))
      | _ => OfCircuit (Diagram_tensor (circuit_of self) (circuit_of other))
      end
  | OfBox (Bra bitstring) =>
      match other with
      | OfBox (Bra bitstring') => OfBox (Bra (bitstring ++ bitstring'))
      | _ => OfCircuit (Diagram_tensor (circuit_of self) (circuit_of other))
      end
  | _ => OfCircuit (Diagram_tensor (circuit_of self) (circuit_of other))
  end.

(** [self >> other] *)
Definition then_ (self other : Obj) : Py.M Obj :=
  let* c := Diagram_then (circuit_of self) (circuit_of other) in
  Py.ret (OfCircuit c).

(** *** The gates of the module *)

(** [sqrt(real)] *)
Definition sqrt (real : int) : Box :=
  Gate ("sqrt(" ++ pretty real ++ ")") 0 (Some [np_sqrt real]) None None.

Definition SWAP : Box :=
  Gate "SWAP" 2 (Some [one; zero; zero; zero;
                       zero; zero; one; zero;
                       zero; one; zero; zero;
                       zero; zero; zero; one]) None None.

Definition CX : Box :=
  Gate "CX" 2 (Some [one; zero; zero; zero;
                     zero; one; zero; zero;
                     zero; zero; zero; one;
                     zero; zero; one; zero]) None None.

Definition H : Box :=
  Gate "H" 1 (Some (map (mul inv_sqrt2) [one; one; one; neg_one])) None None.

Definition S : Box :=
  Gate "S" 1 (Some [one; zero; zero; imag]) None (Some false).

Definition T : Box :=
  Gate "T" 1 (Some [one; zero; zero; exp_i_pi_4]) None (Some false).

Definition X : Box :=
  Gate "X" 1 (Some [zero; one; one; zero]) None None.

Definition Y : Box :=
  Gate "Y" 1 (Some [zero; neg_imag; imag; zero]) None (Some false).

Definition Z : Box :=
  Gate "Z" 1 (Some [one; zero; zero; neg_one]) None None.

(** *** Matrices

    [Matrix] and [MatrixFunctor] belong to the absent module
    [discopy.matrix]. *)

(** [Dim(d1, ..., dn)]; [Dim(1)] is the empty list. *)
Definition Dim : Type := list nat.

Definition Dim_size (d : Dim) : nat := fold_right Nat.mul 1 d.

(** Modelled from the spec: the numeric backend is missing; a matrix is
    constructed from a shape and a flat numeric buffer.  The buffer is kept
    as [Dim_size dom] rows of [Dim_size cod] entries. *)
Record Matrix : Type := mkMatrix {
  m_dom : Dim;
  m_cod : Dim;
  m_array : list (list num);
}.

Definition Matrix_init (dom cod : Dim) (buffer : list num) : Py.M Matrix :=
  let rows := Dim_size dom in
  let cols := Dim_size cod in
  if length buffer =? rows * cols
  then Py.ret (mkMatrix dom cod
                 (map (fun i => firstn cols (skipn (i * cols) buffer))
                      (seq 0 rows)))
  else Py.raise Py.ValueError.

(** [Matrix.array.flatten()] *)
Definition flatten (m : Matrix) : list num := concat (m_array m).

Definition Matrix_id (d : Dim) : Matrix :=
  let n := Dim_size d in
  mkMatrix d d
    (map (fun i => map (fun j => if i =? j then one else zero) (seq 0 n))
         (seq 0 n)).

Definition dot (u v : list num) : num :=
  fold_left add (map (fun p => mul p.1 p.2) (combine u v)) zero.

Definition column (j : nat) (rows : list (list num)) : list num :=
  map (fun r => nth j r zero) rows.

(** Modelled from the spec: the numeric backend is missing; composition
    contracts the codomain indices of the first matrix with the domain
    indices of the second. *)
Definition Matrix_then (self other : Matrix) : Py.M Matrix :=
  if bool_decide (m_cod self = m_dom other)
  then Py.ret (mkMatrix (m_dom self) (m_cod other)
                 (map (fun row =>
                         map (fun j => dot row (column j (m_array other)))
                             (seq 0 (Dim_size (m_cod other))))
                      (m_array self)))
  else Py.raise Py.AxiomError.

(** Modelled from the spec: the numeric backend is missing; tensor is the
    outer product, with the domain indices of both operands first. *)
Definition Matrix_tensor (self other : Matrix) : Matrix :=
  mkMatrix (m_dom self ++ m_dom other)%list (m_cod self ++ m_cod other)%list
    (flat_map (fun ra =>
                 map (fun rb => flat_map (fun a => map (mul a) rb) ra)
                     (m_array other))
              (m_array self)).

(** [Matrix(Dim(2), Dim(1), [0, 1] if bit else [1, 0])] *)
Definition basis (bit : int) : Matrix :=
  mkMatrix [2] []
    (if (bit =? 0)%Z then [[one]; [zero]] else [[zero]; [one]]).

(** [Ket.array] *)
Definition Ket_array (bitstring : list int) : list num :=
  flatten (fold_left (fun matrix bit => Matrix_tensor matrix (basis bit))
                     bitstring (mkMatrix [] [] [[one]])).

(** The [array] property of the box classes, as a flat buffer; for a
    [Gate] built without an array the attribute [_array] is missing. *)
Definition array (b : Box) : Py.M (list num) :=
  match b with
  | Gate _ _ (Some a) _ _ => Py.ret a
  | Gate _ _ None _ _ => Py.raise (Py.AttributeError "_array")
  | Ket bitstring => Py.ret (Ket_array bitstring)
  | Bra bitstring => Py.ret (Ket_array bitstring)
  | Rz phase => Py.ret (rz_array phase)
  | Rx phase => Py.ret (rx_array phase)
  end.

(** The object map [{Ty(1): 2}] of the functor in [Circuit.eval]. *)
Definition eval_ob (n : PRO) : Dim := repeat 2 n.

(** The arrow map [Quiver(lambda g: g.array)] of the functor in
    [Circuit.eval], as a matrix of the mapped shape. *)
Definition eval_ar (g : Box) : Py.M Matrix :=
  let* a := array g in
  Matrix_init (eval_ob (box_dom g)) (eval_ob (box_cod g)) a.

(** Modelled from the spec: [MatrixFunctor] is missing; a functor maps the
    identity to the identity of the mapped width, a composite to the
    composite of the mapped layers, and a layer (a box between two identity
    blocks) to the tensor of the mapped parts. *)
Fixpoint eval_layers (layers : list (Box * int)) (scan : PRO) (m : Matrix)
    : Py.M Matrix :=
  match layers with
  | [] => Py.ret m
  | (box, off) :: rest =>
      let left := Z.to_nat off in
      let right := scan - left - box_dom box in
      let* b := eval_ar box in
      let layer :=
        Matrix_tensor (Matrix_tensor (Matrix_id (eval_ob left)) b)
                      (Matrix_id (eval_ob right)) in
      let* m' := Matrix_then m layer in
      eval_layers rest (left + box_cod box + right) m'
  end.

(** [Circuit.eval] *)
Definition eval (self : Circuit) : Py.M Matrix :=
  eval_layers (combine (boxes self) (offsets self)) (dom self)
              (Matrix_id (eval_ob (dom self))).

(** *** Daggers *)

(** [Gate.dagger], [Ket.dagger], [Bra.dagger], [Rz.dagger], [Rx.dagger] *)
Definition dagger (b : Box) : Py.M Box :=
  match b with
  | Gate name n_qubits _ data _dagger =>
      let* a := array b in
      Gate_init name n_qubits (Some a) data
        (match _dagger with
         | None => None
         | Some d => Some (negb d)
         end)
  | Ket bitstring => Py.ret (Bra bitstring)
  | Bra bitstring => Py.ret (Ket bitstring)
  | Rz phase => Py.ret (Rz (- phase)%Q)
  | Rx phase => Py.ret (Rx (- phase)%Q)
  end.

(** *** Normalization *)

(** The rewriting operations of the absent base class that [normalize]
    calls: [Diagram.foliation] (the list of the slices) and
    [Diagram.interchange], which returns a new diagram or raises
    [InterchangerError].  [swap_layer] stands for the body of the
    [except] clause of [move_ket]. *)
Class DiagramBase : Type := {
  foliation : Circuit -> Py.M (list Circuit);
  interchange : Circuit -> int -> int -> Py.M Circuit;
  swap_layer : Circuit -> int -> Py.M (Circuit * int);
}.

Context {D : DiagramBase}.

(** The names bound at the top level of the module, by its imports, its
    classes, its function and its gates, with the box they denote if
    any. *)
Definition globals : list (string * option Box) :=
  [("rand", None); ("messages", None); ("Quiver", None); ("Ob", None);
   ("Ty", None); ("Box", None); ("Diagram", None); ("RigidFunctor", None);
   ("np", None); ("Dim", None); ("Matrix", None); ("MatrixFunctor", None);
   ("PRO", None); ("Circuit", None); ("Id", None); ("Gate", None);
   ("Ket", None); ("Bra", None); ("Rz", None); ("Rx", None);
   ("CircuitFunctor", None); ("sqrt", None);
   ("SWAP", Some SWAP); ("CX", Some CX); ("H", Some H); ("S", Some S);
   ("T", Some T); ("X", Some X); ("Y", Some Y); ("Z", Some Z)].

(** Reading a name that is not a local variable. *)
Definition global (x : string) : Py.M (option Box) :=
  match find (fun p => String.eqb x p.1) globals with
  | Some p => Py.ret p.2
  | None => Py.raise (Py.NameError x)
  end.

(** What [normalize] yields: a pair of a diagram and a scalar in its first
    loop, a diagram in its second. *)
Inductive yielded : Type :=
| Pair (diagram : Circuit) (scalar : num)
| Single (diagram : Circuit).

(** The loop [for i, box in enumerate(diagram.boxes)] of
    [remove_scalars]; [l] are the boxes still to visit and [i] is the index
    of the first of them. *)
Fixpoint remove_scalars_from (diagram : Circuit) (l : list Box) (i : nat)
    : Py.M (Circuit * option num) :=
  match l with
  | [] => Py.ret (diagram, None)
  | box :: l' =>
      if (box_dom box =? 0) && (box_cod box =? 0)
      then
        let* d := Diagram_then
                    (Diagram_slice diagram 0 i)
                    (Diagram_slice diagram (i + 1)
                       (length (boxes diagram))) in
        let* a := array box in
        let* number := Py.getitem a 0 in
        Py.ret (d, Some number)
      else remove_scalars_from diagram l' (Datatypes.S i)
  end.

(** [remove_scalars], local to [normalize] *)
Definition remove_scalars (diagram : Circuit)
    : Py.M (Circuit * option num) :=
  remove_scalars_from diagram (boxes diagram) 0.

(** [move_ket], local to [normalize].  The diagram that [interchange]
    returns is dropped.  When [interchange] raises, the [except] clause
    reads the name [InterchangerError]. *)
Definition move_ket (diagram : Circuit) (i : int)
    : Py.M (Circuit * int) :=
  match interchange diagram i (i - 1)%Z with
  | Ok _ => Py.ret (diagram, (i - 1)%Z)
  | Error e =>
      let* _ := global "InterchangerError" in
      match e with
      | Py.InterchangerError => swap_layer diagram i
      | _ => Py.raise e
      end
  end.

(** The first loop of [normalize]: [while True] around
    [remove_scalars]. *)
Fixpoint scalars_loop (fuel : nat) (diagram : Circuit) (scalar : num)
    : list yielded * result Circuit Py.gen_end :=
  match fuel with
  | O => ([], Error Py.OutOfFuel)
  | Datatypes.S fuel' =>
      match remove_scalars diagram with
      | Error e => ([], Error (Py.Raises e))
      | Ok (diagram', None) => ([], Ok diagram')
      | Ok (diagram', Some number) =>
          let scalar' := mul scalar number in
          let (ys, r) := scalars_loop fuel' diagram' scalar' in
          (Pair diagram' scalar' :: ys, r)
      end
  end.

(** [slices[1:].flatten()] *)
Definition flatten_tail (diagram : Circuit) (slices : list Circuit)
    : Circuit :=
  let start := match slices with
               | [] => cod diagram
               | s :: _ => cod s
               end in
  mkCircuit start (cod diagram)
            (concat (map boxes (tail slices)))
            (concat (map offsets (tail slices))).

(** The second loop of [normalize]: [while i < len(_diagram)].  The name
    [box] is no local variable of [normalize]. *)
Fixpoint kets_loop (fuel : nat) (slices : list Circuit)
    (_diagram : Circuit) (i : int) : list yielded * Py.gen_end :=
  if (i <? Z.of_nat (length (boxes _diagram)))%Z
  then
    match fuel with
    | O => ([], Py.OutOfFuel)
    | Datatypes.S fuel' =>
        match global "box" with
        | Error e => ([], Py.Raises e)
        | Ok (Some (Ket _)) =>
            match
              (let* r := move_ket _diagram i in
               let* first := Py.getitem slices 0 in
               let* y := Diagram_then first r.1 in
               Py.ret (r, y))
            with
            | Error e => ([], Py.Raises e)
            | Ok (r, y) =>
                let (ys, e) := kets_loop fuel' slices r.1 r.2 in
                (Single y :: ys, e)
            end
        | Ok _ => kets_loop fuel' slices _diagram (i + 1)%Z
        end
    end
  else ([], Py.StopIteration).

(** [Circuit.normalize], a generator.  The first loop removes one box at
    each turn: the fuel it is given always suffices
    ([scalars_loop_scalars]).  [fuel] bounds the turns of the second
    loop. *)
Definition normalize (fuel : nat) (self : Circuit)
    : list yielded * Py.gen_end :=
  let (ys, r) :=
    scalars_loop (Datatypes.S (length (boxes self))) self one in
  match r with
  | Error e => (ys, e)
  | Ok diagram =>
      match foliation diagram with
      | Error e => (ys, Py.Raises e)
      | Ok slices =>
          let (ys', e) :=
            kets_loop fuel slices (flatten_tail diagram slices) 0%Z in
          ((ys ++ ys')%list, e)
      end
  end.

(** *** Translation to and from pytket *)

(** The loop [for gate, off in zip(self.gates, self.offsets)] of
    [Circuit.to_tk]. *)
Fixpoint to_tk_loop (layers : list (Box * int))
    (tk_circuit : pytket.Circuit) : Py.M pytket.Circuit :=
  match layers with
  | [] => Py.ret tk_circuit
  | (gate, off) :: rest =>
      let qubits :=
        map (fun i => (off + Z.of_nat i)%Z) (seq 0 (box_dom gate)) in
      let* tk_circuit' :=
        match gate with
        | Rx phase => pytket.call tk_circuit "Rx" [phase] qubits []
        | Rz phase => pytket.call tk_circuit "Rz" [phase] qubits []
        | _ => pytket.call tk_circuit (name gate) [] qubits []
        end in
      to_tk_loop rest tk_circuit'
  end.

(** [Circuit.to_tk] *)
Definition to_tk (self : Circuit) : Py.M pytket.Circuit :=
  to_tk_loop (combine (gates self) (offsets self))
             (pytket.Circuit_init (dom self) 0).

(** [gates_from_tk], local to [Circuit.from_tk] *)
Definition gates_from_tk (tk_gate : pytket.Command) : Py.M Box :=
  let name' := pytket.op_type tk_gate in
  if String.eqb name' "Rx"
  then let* p := Py.getitem (pytket.op_params tk_gate) 0 in Py.ret (Rx p)
  else if String.eqb name' "Rz"
  then let* p := Py.getitem (pytket.op_params tk_gate) 0 in Py.ret (Rz p)
  else
    match find (fun gate => String.eqb name' (name gate))
               [SWAP; CX; H; S; T; X; Y; Z] with
    | Some gate => Py.ret gate
    | None => Py.raise Py.NotImplementedError
    end.

(** The loop of [Circuit.from_tk] over [tk_gate.qubits[1:]], which adds
    SWAP gates in front of a gate on non-adjacent qubits; [rest] are the
    qubits still to visit and [i] is the index of the first of them. *)
Fixpoint swaps_loop (rest : list int) (i : int) (i_0 : int)
    (gates : list Box) (offsets : list int)
    : int * list Box * list int :=
  match rest with
  | [] => (i_0, gates, offsets)
  | qubit :: rest' =>
      if (qubit =? i_0 + i + 1)%Z
      then (i_0, gates, offsets)
      else if (qubit <? i_0 + i + 1)%Z
      then
        let js := Py.range qubit (i_0 + i)%Z in
        swaps_loop rest' (i + 1)%Z
          (if (qubit <=? i_0)%Z then (i_0 - 1)%Z else i_0)
          (gates ++ map (fun _ => SWAP) js)%list
          (offsets ++ js)%list
      else
        let js := Py.range 0 (qubit - i_0 + i - 1)%Z in
        swaps_loop rest' (i + 1)%Z i_0
          (gates ++ map (fun _ => SWAP) js)%list
          (offsets ++ map (fun j => (qubit - j - 1)%Z) js)%list
  end.

(** The loop [for tk_gate in tk_circuit.get_commands()] of
    [Circuit.from_tk]. *)
Fixpoint from_tk_loop (tk_gates : list pytket.Command)
    (gates : list Box) (offsets : list int)
    : Py.M (list Box * list int) :=
  match tk_gates with
  | [] => Py.ret (gates, offsets)
  | tk_gate :: tk_gates' =>
      let* i_0 := Py.getitem (pytket.qubits tk_gate) 0 in
      let '(i_0', gates', offsets') :=
        swaps_loop (tail (pytket.qubits tk_gate)) 0%Z i_0 gates offsets in
      let* gate := gates_from_tk tk_gate in
      from_tk_loop tk_gates' (gates' ++ [gate])%list
                   (offsets' ++ [i_0'])%list
  end.

(** [Circuit.from_tk] *)
Definition from_tk (tk_circuit : pytket.Circuit) : Py.M Circuit :=
  let* r := from_tk_loop (pytket.get_commands tk_circuit) [] [] in
  Py.ret (mkCircuit (pytket.n_qubits tk_circuit)
                    (pytket.n_qubits tk_circuit) r.1 r.2).

(** *** Random circuits *)

(** An element of a gateset: the class [Rx], the class [Rz], or a gate. *)
Inductive gateset_item : Type :=
| ClassRx
| ClassRz
| AGate (g : Box).

(** [g is Rx or g is Rz or len(g.dom) == 1] *)
Definition fits_one_qubit (g : gateset_item) : bool :=
  match g with
  | ClassRx | ClassRz => true
  | AGate g => box_dom g =? 1
  end.

Section random.
Variable R : RandomSource.

(** [rand.choice(seq)] *)
Definition choice {A} (seq : list A) (st : rng R) : Py.M A * rng R :=
  match seq with
  | [] => (Py.raise Py.IndexError, st)
  | _ => let (k, st') := rand_choice R (length seq) st in
         (Py.getitem seq k, st')
  end.

(** The loop [while n_affected < n_qubits] of [Circuit.random]; the
    result is [None] when the fuel runs out. *)
Fixpoint random_line (fuel : nat) (n_qubits : nat)
    (gateset : option (list gateset_item)) (line : Circuit)
    (n_affected : nat) (st : rng R) : option (Py.M Circuit) * rng R :=
  if n_affected <? n_qubits
  then
    match fuel with
    | O => (None, st)
    | Datatypes.S fuel' =>
        match gateset with
        | None => (Some (Py.raise Py.TypeError), st)
        | Some gs =>
            let candidates :=
              if 1 <? n_qubits - n_affected then gs
              else List.filter fits_one_qubit gs in
            match choice candidates st with
            | (Error e, st') => (Some (Error e), st')
            | (Ok item, st') =>
                let (gate, st'') :=
                  match item with
                  | ClassRx => let (p, s) := rand_random R st' in (Rx p, s)
                  | ClassRz => let (p, s) := rand_random R st' in (Rz p, s)
                  | AGate g => (g, st')
                  end in
                random_line fuel' n_qubits gateset
                  (Diagram_tensor line (as_circuit gate))
                  (n_affected + box_dom gate) st''
            end
        end
    end
  else (Some (Py.ret line), st).

(** The loop [for _ in range(depth)] of [Circuit.random]. *)
Fixpoint random_layers (fuel : nat) (depth : nat) (n_qubits : nat)
    (gateset : option (list gateset_item)) (result : Circuit)
    (st : rng R) : option (Py.M Circuit) * rng R :=
  match depth with
  | O => (Some (Py.ret result), st)
  | Datatypes.S depth' =>
      match random_line fuel n_qubits gateset (Id 0) 0 st with
      | (None, st') => (None, st')
      | (Some (Error e), st') => (Some (Error e), st')
      | (Some (Ok line), st') =>
          match Diagram_then result line with
          | Error e => (Some (Error e), st')
          | Ok result' =>
              random_layers fuel depth' n_qubits gateset result' st'
          end
      end
  end.

(** [Circuit.random(n_qubits, depth, gateset, seed)], run from the state
    [st] of the generator; [fuel] bounds the turns of each [while]
    loop. *)
Definition random (fuel : nat) (n_qubits : nat) (depth : nat)
    (gateset : option (list gateset_item)) (seed : option int)
    (st : rng R) : option (Py.M Circuit) * rng R :=
  let st0 := match seed with
             | Some seed => rand_seed R seed
             | None => st
             end in
  if n_qubits =? 1
  then
    let (a, st1) := rand_random R st0 in
    let (b, st2) := rand_random R st1 in
    let (c, st3) := rand_random R st2 in
    (Some (let* r := Diagram_then (as_circuit (Rx a))
                                  (as_circuit (Rz b)) in
           Diagram_then r (as_circuit (Rx c))),
     st3)
  else random_layers fuel depth n_qubits gateset (Id n_qubits) st0.

End random.

(** *** Cups and caps *)

(** [[f.dagger() for f in boxes]] *)
Fixpoint daggers (bs : list Box) : Py.M (list Box) :=
  match bs with
  | [] => Py.ret []
  | b :: bs' =>
      let* b' := dagger b in
      let* bs'' := daggers bs' in
      Py.ret (b' :: bs'')
  end.

(** Modelled from the spec: the base class [Diagram] is missing; the
    dagger of a diagram reverses the order of the layers, takes the dagger
    of each box and swaps domain and codomain. *)
Definition Diagram_dagger (self : Circuit) : Py.M Circuit :=
  let* bs := daggers (rev (boxes self)) in
  Py.ret (mkCircuit (cod self) (dom self) bs (rev (offsets self))).

(** [cup = CX >> H @ sqrt(2) @ Id(1) >> Bra(0, 0)] in [Circuit.cups] *)
Definition cup : Py.M Obj :=
  let* c :=
    then_ (OfBox CX)
          (tensor (tensor (OfBox H) (OfBox (sqrt 2))) (OfCircuit (Id 1))) in
  then_ c (OfBox (Bra [0%Z; 0%Z])).

(** The loop [for i in range(1, len(left) + 1)] of [Circuit.cups]. *)
Fixpoint cups_loop (indices : list nat) (left : PRO) (cup : Obj)
    (result : Obj) : Py.M Obj :=
  match indices with
  | [] => Py.ret result
  | i :: indices' =>
      let* result' :=
        then_ result
              (tensor (tensor (OfCircuit (Id (left - i))) cup)
                      (OfCircuit (Id (left - i)))) in
      cups_loop indices' left cup result'
  end.

(** [Circuit.cups(left, right)], for two arguments that are [PRO]s. *)
Definition cups (left right : PRO) : Py.M Obj :=
  let result := OfCircuit (Id (PRO_tensor left right)) in
  let* cup := cup in
  cups_loop (seq 1 left) left cup result.

(** [Circuit.caps(left, right)] *)
Definition caps (left right : PRO) : Py.M Circuit :=
  let* c := cups left right in
  Diagram_dagger (circuit_of c).

End circuit.
End circuit.

(** ** [discopy/tk.py] *)

Module tk.
Section tk.
Context {N : Numeric}.

(** *** The circuits of [discopy.quantum]

    The module [discopy.quantum], from which [tk.py] imports its circuits
    and boxes, is absent. *)

(** The two generating objects [bit] and [qubit]. *)
Inductive Ob : Type :=
| bit
| qubit.

#[local] Instance Ob_eq_dec : EqDecision Ob.
Proof. solve_decision. Defined.

Definition Ty : Type := list Ob.

(** [x ** n] *)
Definition pow (x : Ob) (n : nat) : Ty := repeat x n.

(** Modelled from the spec: the boxes of [discopy.quantum] are missing;
    these are the kinds of box that [tk.py] builds or tests for:
    measurements, basis states and effects, rotations, the named gates of
    the list [gates], and scalars. *)
Inductive Box : Type :=
| Measure
| Bra (bitstring : list int)
| Ket (bitstring : list int)
| Rx (phase : Q)
| Rz (phase : Q)
| CRz (phase : Q)
| QuantumGate (name : string) (n_qubits : nat)
| scalar (x : num).

Definition box_dom (b : Box) : Ty :=
  match b with
  | Measure => [qubit]
  | Bra bitstring => pow qubit (length bitstring)
  | Ket _ => []
  | Rx _ | Rz _ => [qubit]
  | CRz _ => [qubit; qubit]
  | QuantumGate _ n => pow qubit n
  | scalar _ => []
  end.

Definition box_cod (b : Box) : Ty :=
  match b with
  | Measure => [bit]
  | Bra _ => []
  | Ket bitstring => pow qubit (length bitstring)
  | Rx _ | Rz _ => [qubit]
  | CRz _ => [qubit; qubit]
  | QuantumGate _ n => pow qubit n
  | scalar _ => []
  end.

Definition name (b : Box) : string :=
  match b with
  | Measure => "Measure"
  | Bra bitstring =>
      "Bra(" ++ String.concat ", " (map pretty bitstring) ++ ")"
  | Ket bitstring =>
      "Ket(" ++ String.concat ", " (map pretty bitstring) ++ ")"
  | Rx phase => "Rx(" ++ str_float phase ++ ")"
  | Rz phase => "Rz(" ++ str_float phase ++ ")"
  | CRz phase => "CRz(" ++ str_float phase ++ ")"
  | QuantumGate name _ => name
  | scalar _ => "scalar"
  end.

(** Modelled from the spec: the class [Circuit] of [discopy.quantum] is
    missing; a circuit is an ordered sequence of layers, each a box between
    a left and a right block of identity wires. *)
Record Circuit : Type := mkCircuit {
  dom : Ty;
  cod : Ty;
  layers : list (Ty * Box * Ty);
}.

Definition Id (t : Ty) : Circuit := mkCircuit t t [].

Definition of_box (b : Box) : Circuit :=
  mkCircuit (box_dom b) (box_cod b) [([], b, [])].

(** Modelled from the spec: composing two circuits requires the codomain of
    the first to equal the domain of the second. *)
Definition then_ (self other : Circuit) : Py.M Circuit :=
  if bool_decide (cod self = dom other)
  then Py.ret (mkCircuit (dom self) (cod other)
                         (layers self ++ layers other))
  else Py.raise Py.AxiomError.

(** Modelled from the spec: tensoring is always legal; the layers of the
    first operand come first, widened on the right by the domain of the
    second, then those of the second, widened on the left by the codomain
    of the first. *)
Definition tensor (self other : Circuit) : Circuit :=
  mkCircuit (dom self ++ dom other)%list (cod self ++ cod other)%list
    (map (fun l => (l.1.1, l.1.2, (l.2 ++ dom other)%list)) (layers self)
     ++ map (fun l => ((cod self ++ l.1.1)%list, l.1.2, l.2))
            (layers other)).

(** The position that a bound [k] of a slice denotes in [t], with Python's
    reading of a negative bound. *)
Definition index_of (t : Ty) (k : int) : nat :=
  if (k <? 0)%Z then length t - Z.to_nat (- k) else Z.to_nat k.

(** [t[start:stop]] *)
Definition slice (t : Ty) (start stop : int) : Ty :=
  drop (index_of t start) (take (index_of t stop) t).

(** [t[:stop]] *)
Definition slice_to (t : Ty) (stop : int) : Ty :=
  take (index_of t stop) t.

(** [t[start:]] *)
Definition slice_from (t : Ty) (start : int) : Ty :=
  drop (index_of t start) t.

(** What [tk.py] takes from [discopy.quantum] without this file saying
    what it is: the list [gates] of the named gates, [Circuit.swap], and
    the dagger [circuit[::-1]]. *)
Class QuantumBase : Type := {
  gates : list Box;
  Circuit_swap : Ty -> Ty -> Circuit;
  Circuit_dagger : Circuit -> Circuit;
}.

Context {QB : QuantumBase}.

(** *** [TketCircuit] *)

(** [class TketCircuit(tk.Circuit)]: a pytket circuit extended with post
    selection and a scalar. *)
Record TketCircuit : Type := mkTketCircuit {
  base : pytket.Circuit;
  post_selection : gmap BinNums.Z BinNums.Z;
  scalar_ : num;
}.

(** [TketCircuit.n_bits] *)
Definition n_bits (self : TketCircuit) : nat := pytket.n_bits (base self).

Definition n_qubits (self : TketCircuit) : nat :=
  pytket.n_qubits (base self).

(** [TketCircuit.__init__] with its defaults. *)
Definition TketCircuit_init (n_qubits n_bits : nat) : TketCircuit :=
  mkTketCircuit (pytket.Circuit_init n_qubits n_bits) ∅ one.

(** [TketCircuit.scale] *)
Definition scale (self : TketCircuit) (number : num) : TketCircuit :=
  mkTketCircuit (base self) (post_selection self)
                (mul (scalar_ self) number).

(** [TketCircuit.post_select] *)
Definition post_select (self : TketCircuit)
    (post_selection' : gmap BinNums.Z BinNums.Z) : TketCircuit :=
  mkTketCircuit (base self) (post_selection' ∪ post_selection self)
                (scalar_ self).

(** Calling an instruction method of the underlying pytket circuit. *)
Definition call (self : TketCircuit) (name : string) (params : list Q)
    (qubits bits : list int) : Py.M TketCircuit :=
  let* b := pytket.call (base self) name params qubits bits in
  Py.ret (mkTketCircuit b (post_selection self) (scalar_ self)).

(** *** The names of the module *)

(** The names bound at the top level of [tk.py] by its imports, its class
    and its functions.  None of them denotes a number or a mapping.  (The
    names that [from pytket import *] adds are those of pytket's public
    interface; [souce], [post_selection] and [scal] are not among them.) *)
Definition globals : list string :=
  ["warn"; "tk"; "Bit"; "Qubit"; "probs_from_counts"; "messages";
   "Quiver"; "np"; "Dim"; "Tensor"; "Circuit"; "CircuitFunctor"; "Id";
   "Bits"; "Bra"; "Ket"; "BitsAndQubits"; "Swap"; "Ob"; "bit"; "qubit";
   "Discard"; "Measure"; "gates"; "SWAP"; "X"; "Rx"; "Rz"; "CRz";
   "scalar"; "TketCircuit"; "to_tk"; "from_tk"; "get_counts"].

(** Reading a name that is not a local variable. *)
Definition global (x : string) : Py.M unit :=
  if existsb (String.eqb x) globals
  then Py.ret tt
  else Py.raise (Py.NameError x).

(** *** [to_tk]: adding a gate *)

(** [add_gate], local to [to_tk]; [tk_circ] is the circuit under
    construction, that the source mutates. *)
Definition add_gate (tk_circ : TketCircuit) (qubits : list int)
    (left : Ty) (box : Box) (right : Ty) : Py.M TketCircuit :=
  let offset := count_occ Ob_eq_dec left qubit in
  let* i_qubits :=
    (fix items (js : list nat) : Py.M (list int) :=
       match js with
       | [] => Py.ret []
       | j :: js' =>
           let* q := Py.getitem qubits (offset + j) in
           let* qs := items js' in
           Py.ret (q :: qs)
       end) (seq 0 (length (box_dom box))) in
  match box with
  | Rx phase | Rz phase =>
      call tk_circ (substring 0 2 (name box)) [(2 * phase)%Q] i_qubits []
  | CRz phase =>
      call tk_circ (substring 0 3 (name box)) [(2 * phase)%Q] i_qubits []
  | _ =>
      if pytket.hasattr (name box)
      then call tk_circ (name box) [] i_qubits []
      else Py.raise Py.NotImplementedError
  end.

(** *** [from_tk] *)

(** [box_from_tk], local to [from_tk] *)
Definition box_from_tk (tk_gate : pytket.Command) : Py.M Box :=
  let name' := pytket.op_type tk_gate in
  if String.eqb name' "Measure" then Py.ret Measure
  else if String.eqb name' "Rx"
  then let* p := Py.getitem (pytket.op_params tk_gate) 0 in
       Py.ret (Rx (p / 2)%Q)
  else if String.eqb name' "Rz"
  then let* p := Py.getitem (pytket.op_params tk_gate) 0 in
       Py.ret (Rz (p / 2)%Q)
  else if String.eqb name' "CRz"
  then let* p := Py.getitem (pytket.op_params tk_gate) 0 in
       Py.ret (CRz (p / 2)%Q)
  else
    match find (fun gate => String.eqb name' (name gate)) gates with
    | Some gate => Py.ret gate
    | None => Py.raise Py.NotImplementedError
    end.

(** The loop of [make_units_adjacent] over [tk_gate.qubits[1:]]; [rest]
    are the qubits still to visit and [i] is the index of the first of
    them.  When [source < target] fails, the [elif] reads the name
    [souce]. *)
Fixpoint adjacent_loop (rest : list int) (i : int) (offset : int)
    (swaps : Circuit) : Py.M (int * Circuit) :=
  match rest with
  | [] => Py.ret (offset, swaps)
  | source :: rest' =>
      let target := (offset + i + 1)%Z in
      if (source <? target)%Z
      then
        let left := slice_to (cod swaps) source in
        let right := slice_from (cod swaps) target in
        let swap :=
          Circuit_swap (slice (cod swaps) source (source + 1)%Z)
                       (slice (cod swaps) (source + 1)%Z target) in
        let offset' :=
          if (source <=? offset)%Z then (offset - 1)%Z else offset in
        let* swaps' :=
          then_ swaps (tensor (tensor (Id left) swap) (Id right)) in
        adjacent_loop rest' (i + 1)%Z offset' swaps'
      else
        let* _ := global "souce" in
        Py.raise Py.TypeError
  end.

(** [make_units_adjacent], local to [from_tk] *)
Definition make_units_adjacent (n_qubits n_bits : nat)
    (tk_gate : pytket.Command) : Py.M (int * Circuit) :=
  let* offset := Py.getitem (pytket.qubits tk_gate) 0 in
  adjacent_loop (tail (pytket.qubits tk_gate)) 0%Z offset
                (Id (pow qubit n_qubits ++ pow bit n_bits)%list).

(** One turn of the loop of [from_tk] over the commands.  A measurement
    with a post-selected bit reads the name [post_selection], which is an
    attribute of [tk_circuit] but no variable. *)
Definition from_tk_step (tk_circuit : TketCircuit) (circuit : Circuit)
    (tk_gate : pytket.Command) : Py.M Circuit :=
  let* box := box_from_tk tk_gate in
  let* box :=
    match box with
    | Measure =>
        let* b := Py.getitem (pytket.bits tk_gate) 0 in
        if bool_decide (is_Some (post_selection tk_circuit !! b))
        then let* _ := global "post_selection" in Py.raise Py.TypeError
        else Py.raise Py.NotImplementedError
    | _ => Py.ret box
    end in
  let* r := make_units_adjacent (n_qubits tk_circuit) (n_bits tk_circuit)
                                tk_gate in
  let offset := r.1 in
  let swaps := r.2 in
  let left := slice_to (cod circuit) offset in
  let right :=
    slice_from (cod circuit) (offset + Z.of_nat (length (box_dom box)))%Z in
  let* c1 := then_ circuit swaps in
  let* c2 := then_ c1 (tensor (tensor (Id left) (of_box box)) (Id right)) in
  then_ c2 (Circuit_dagger swaps).

(** The loop [for tk_gate in tk_circuit.get_commands()] of [from_tk]. *)
Fixpoint from_tk_loop (tk_circuit : TketCircuit) (circuit : Circuit)
    (tk_gates : list pytket.Command) : Py.M Circuit :=
  match tk_gates with
  | [] => Py.ret circuit
  | tk_gate :: tk_gates' =>
      let* circuit' := from_tk_step tk_circuit circuit tk_gate in
      from_tk_loop tk_circuit circuit' tk_gates'
  end.

(** [from_tk]; after the loop, a scalar other than 1 reads the name
    [scal]. *)
Definition from_tk (tk_circuit : TketCircuit) : Py.M Circuit :=
  let circuit :=
    Id (pow qubit (n_qubits tk_circuit)
        ++ pow bit (n_bits tk_circuit))%list in
  let* circuit :=
    from_tk_loop tk_circuit circuit
                 (pytket.get_commands (base tk_circuit)) in
  if num_eqb (scalar_ tk_circuit) one
  then Py.ret circuit
  else let* _ := global "scal" in Py.raise Py.TypeError.

(** *** [TketCircuit.rename_units] *)

(** The units [Qubit(i)] and [Bit(i)] of the two default registers of a
    pytket circuit. *)
Inductive UnitID : Type :=
| Qubit (index : int)
| Bit (index : int).

#[local] Instance UnitID_eq_dec : EqDecision UnitID.
Proof. solve_decision. Defined.

(** [unit.index[0]] *)
Definition index (unit : UnitID) : int :=
  match unit with
  | Qubit i | Bit i => i
  end.

(** A renaming is a dict from units to units: the list of its items, in
    the order of insertion.  [renaming.get(unit, unit)] *)
Definition renamed (renaming : list (UnitID * UnitID)) (unit : UnitID)
    : UnitID :=
  match find (fun item => bool_decide (item.1 = unit)) renaming with
  | Some item => item.2
  | None => unit
  end.

(** Modelled from the spec: the physical-circuit SDK is external; it
    offers dynamic register growth with index renaming.  Renaming
    replaces, in every command, each unit that is a key of the renaming
    by the unit it is mapped to. *)
Definition Circuit_rename_units (self : pytket.Circuit)
    (renaming : list (UnitID * UnitID)) : pytket.Circuit :=
  pytket.mkCircuit (pytket.n_qubits self) (pytket.n_bits self)
    (map (fun c =>
            pytket.mkCommand (pytket.op_type c) (pytket.op_params c)
              (map (fun i => index (renamed renaming (Qubit i)))
                   (pytket.qubits c))
              (map (fun i => index (renamed renaming (Bit i)))
                   (pytket.bits c)))
         (pytket.commands self)).

(** [bits_to_rename] in [TketCircuit.rename_units]: the items of the
    renaming whose key is a bit with a post-selection. *)
Definition bits_to_rename (self : TketCircuit)
    (renaming : list (UnitID * UnitID)) : list (UnitID * UnitID) :=
  List.filter
    (fun item =>
       match item.1 with
       | Bit i => bool_decide (is_Some (post_selection self !! i))
       | Qubit _ => false
       end)
    renaming.

(** [TketCircuit.rename_units] *)
Definition rename_units (self : TketCircuit)
    (renaming : list (UnitID * UnitID)) : TketCircuit :=
  let olds := bits_to_rename self renaming in
  let post_selection_renaming : gmap BinNums.Z BinNums.Z :=
    fold_left
      (fun m item =>
         match post_selection self !! index item.1 with
         | Some value => <[index item.2 := value]> m
         | None => m
         end)
      olds ∅ in
  let deleted :=
    fold_left (fun m item => delete (index item.1) m) olds
              (post_selection self) in
  mkTketCircuit (Circuit_rename_units (base self) renaming)
                (post_selection_renaming ∪ deleted) (scalar_ self).

(** *** [to_tk] *)

(** Modelled from the spec: register growth by [number] qubits. *)
Definition add_blank_wires (self : TketCircuit) (number : nat)
    : TketCircuit :=
  mkTketCircuit
    (pytket.mkCircuit (n_qubits self + number) (n_bits self)
                      (pytket.commands (base self)))
    (post_selection self) (scalar_ self).

(** Modelled from the spec: register growth by one bit. *)
Definition add_bit (self : TketCircuit) (unit : UnitID) : TketCircuit :=
  mkTketCircuit
    (pytket.mkCircuit (n_qubits self) (n_bits self + 1)
                      (pytket.commands (base self)))
    (post_selection self) (scalar_ self).

(** [l[i]] for an integer [i], with Python's reading of a negative
    index. *)
Definition getitem_int {A} (l : list A) (i : int) : Py.M A :=
  if (i <? 0)%Z
  then
    if (- i <=? Z.of_nat (length l))%Z
    then Py.getitem l (length l - Z.to_nat (- i))
    else Py.raise Py.IndexError
  else Py.getitem l (Z.to_nat i).

(** [l[-k:]] for a count [k]: the last [k] items, and the whole list when
    [k] is 0. *)
Definition last_items {A} (l : list A) (k : nat) : list A :=
  if k =? 0 then l else drop (length l - k) l.

(** Modelled from the spec: the gate [X] of [discopy.quantum] is missing;
    it is the named gate on one qubit that pytket calls [X]. *)
Definition X : Box := QuantumGate "X" 1.

(** [x_gates] in [remove_ket1]:
    [Id(0).tensor] of [X if x else Id(1)] for the bits [x]. *)
Definition x_gates (bitstring : list int) : Circuit :=
  fold_left
    (fun c x => tensor c (if (x =? 0)%Z then Id [qubit] else of_box X))
    bitstring (Id []).

(** [remove_ket1], local to [to_tk]; a box stands for the circuit of its
    one layer. *)
Definition remove_ket1 (box : Box) : Py.M Circuit :=
  match box with
  | Ket bitstring =>
      then_ (of_box (Ket (repeat 0%Z (length bitstring))))
            (x_gates bitstring)
  | _ => Py.ret (of_box box)
  end.

(** Modelled from the spec: [CircuitFunctor] of [discopy.quantum] is
    missing; a functor that is the identity on objects maps a circuit to
    the composite of the images of its layers, the image of a layer being
    the image of its box between the identities on its two sides. *)
Fixpoint functor_layers (ar : Box -> Py.M Circuit)
    (layers : list (Ty * Box * Ty)) (result : Circuit) : Py.M Circuit :=
  match layers with
  | [] => Py.ret result
  | layer :: layers' =>
      let left := layer.1.1 in
      let box := layer.1.2 in
      let right := layer.2 in
      let* image := ar box in
      let* result' :=
        then_ result (tensor (tensor (Id left) image) (Id right)) in
      functor_layers ar layers' result'
  end.

(** [CircuitFunctor(ob=lambda x: x, ar=ar)(circuit)] *)
Definition CircuitFunctor (ar : Box -> Py.M Circuit) (circuit : Circuit)
    : Py.M Circuit :=
  functor_layers ar (layers circuit) (Id (dom circuit)).

(** [prepare_qubits], local to [to_tk]; it returns the new list of
    qubits, together with the circuit under construction. *)
Definition prepare_qubits (tk_circ : TketCircuit) (qubits : list int)
    (left : Ty) (box : Box) (right : Ty)
    : Py.M (TketCircuit * list int) :=
  let width := Z.of_nat (length (box_cod box)) in
  let* start :=
    match qubits with
    | [] => Py.ret (Z.of_nat (n_qubits tk_circ))
    | _ =>
        let* q :=
          getitem_int qubits
            (Z.of_nat (count_occ Ob_eq_dec left qubit) - 1)%Z in
        Py.ret (q + 1)%Z
    end in
  let renaming :=
    map (fun i => (Qubit i, Qubit (i + width)%Z))
        (Py.range start (Z.of_nat (n_qubits tk_circ))) in
  let tk_circ := rename_units tk_circ renaming in
  let tk_circ := add_blank_wires tk_circ (length (box_cod box)) in
  Py.ret (tk_circ,
          (take (count_occ Ob_eq_dec left qubit) qubits
           ++ Py.range start (start + width)%Z
           ++ last_items qubits (count_occ Ob_eq_dec right qubit))%list).

(** The loop [for j, _ in enumerate(box.dom)] of [measure_qubits]. *)
Fixpoint measure_qubits_loop (js : list nat) (tk_circ : TketCircuit)
    (qubits bits : list int) (left : Ty) (box : Box) (right : Ty)
    : Py.M (TketCircuit * list int) :=
  match js with
  | [] => Py.ret (tk_circ, bits)
  | j :: js' =>
      let i_bit := Z.of_nat (n_bits tk_circ) in
      let* i_qubit :=
        Py.getitem qubits (count_occ Ob_eq_dec left qubit + j) in
      let tk_circ := add_bit tk_circ (Bit i_bit) in
      let* tk_circ := call tk_circ "Measure" [] [i_qubit] [i_bit] in
      let* tk_circ :=
        match box with
        | Bra bitstring =>
            let* value := Py.getitem bitstring j in
            Py.ret (post_select tk_circ {[i_bit := value]})
        | _ => Py.ret tk_circ
        end in
      let bits :=
        match box with
        | Measure =>
            (take (count_occ Ob_eq_dec left bit + j) bits
             ++ [i_bit]
             ++ last_items bits (count_occ Ob_eq_dec right bit))%list
        | _ => bits
        end in
      measure_qubits_loop js' tk_circ qubits bits left box right
  end.

(** [measure_qubits], local to [to_tk]; it returns the new list of bits,
    together with the circuit under construction. *)
Definition measure_qubits (tk_circ : TketCircuit) (qubits bits : list int)
    (left : Ty) (box : Box) (right : Ty)
    : Py.M (TketCircuit * list int) :=
  measure_qubits_loop (seq 0 (length (box_dom box))) tk_circ qubits bits
                      left box right.

(** The arrays of the named gates of [discopy.quantum], which [tk.py]
    reads for a gate without wires. *)
Class GateArrays : Type := {
  gate_array : string -> nat -> Py.M (list num);
}.

Context {GA : GateArrays}.

(** One turn of the loop [for left, box, right in circuit.layers] of
    [to_tk], on the circuit under construction and the lists [bits] and
    [qubits].  The classes [Bits], [Discard] and [Swap] of
    [discopy.quantum] are not among the kinds of box of [Box]: the
    branches of the loop for them have no counterpart here. *)
Definition to_tk_layer (state : TketCircuit * list int * list int)
    (layer : Ty * Box * Ty) : Py.M (TketCircuit * list int * list int) :=
  let tk_circ := state.1.1 in
  let bits := state.1.2 in
  let qubits := state.2 in
  let left := layer.1.1 in
  let box := layer.1.2 in
  let right := layer.2 in
  match box with
  | Ket _ =>
      let* r := prepare_qubits tk_circ qubits left box right in
      Py.ret (r.1, bits, r.2)
  | Measure | Bra _ =>
      let* r := measure_qubits tk_circ qubits bits left box right in
      Py.ret (r.1, r.2,
              (take (count_occ Ob_eq_dec left qubit) qubits
               ++ last_items qubits
                    (count_occ Ob_eq_dec right qubit))%list)
  | scalar x => Py.ret (scale tk_circ x, bits, qubits)
  | QuantumGate name O =>
      let* a := gate_array name 0 in
      let* x := Py.getitem a 0 in
      Py.ret (scale tk_circ x, bits, qubits)
  | _ =>
      let* tk_circ' := add_gate tk_circ qubits left box right in
      Py.ret (tk_circ', bits, qubits)
  end.

(** The loop [for left, box, right in circuit.layers] of [to_tk]. *)
Fixpoint to_tk_layers (layers : list (Ty * Box * Ty))
    (state : TketCircuit * list int * list int)
    : Py.M (TketCircuit * list int * list int) :=
  match layers with
  | [] => Py.ret state
  | layer :: layers' =>
      let* state' := to_tk_layer state layer in
      to_tk_layers layers' state'
  end.

(** [to_tk] for a circuit without input wires whose output wires are all
    bits: the two tests on the open wires fail, and what remains is the
    functor of [remove_ket1] followed by the loop over the layers, from
    [TketCircuit()] and two empty lists. *)
Definition to_tk_closed (circuit : Circuit) : Py.M TketCircuit :=
  let* circuit := CircuitFunctor remove_ket1 circuit in
  let* state :=
    to_tk_layers (layers circuit) (TketCircuit_init 0 0, [], []) in
  Py.ret state.1.1.

End tk.
End tk.

(** ** Instances for running the definitions *)

Module examples.
#[export] Existing Instance Z_numeric.

#[export] Instance Z_bits : BitArith Z_numeric.
Proof. split; reflexivity. Qed.

(** Modelled from the spec: the rewriting operations of the base class are
    missing; here every layer is a slice of its own, and two neighbouring
    layers are interchanged when their boxes occupy disjoint wire ranges.
    The body of the [except] clause of [move_ket] is never run. *)
#[export] Instance layerwise : circuit.DiagramBase := {|
  circuit.foliation d :=
    Py.ret (map (fun k => circuit.Diagram_slice d k (k + 1))
                (seq 0 (length (circuit.boxes d))));
  circuit.interchange d i j :=
    if bool_decide (0 <= j /\ j + 1 = i
                    /\ i < Z.of_nat (length (circuit.boxes d)))%Z
    then
      let k := Z.to_nat j in
      let* box0 := Py.getitem (circuit.boxes d) k in
      let* box1 := Py.getitem (circuit.boxes d) (k + 1) in
      let* off0 := Py.getitem (circuit.offsets d) k in
      let* off1 := Py.getitem (circuit.offsets d) (k + 1) in
      if (off0 + Z.of_nat (circuit.box_cod box0) <=? off1)%Z
      then Py.ret (circuit.mkCircuit (circuit.dom d) (circuit.cod d)
             (take k (circuit.boxes d) ++ [box1; box0]
                ++ drop (k + 2) (circuit.boxes d))%list
             (take k (circuit.offsets d)
                ++ [(off1 - Z.of_nat (circuit.box_cod box0)
                     + Z.of_nat (circuit.box_dom box0))%Z; off0]
                ++ drop (k + 2) (circuit.offsets d))%list)
      else if (off1 + Z.of_nat (circuit.box_dom box1) <=? off0)%Z
      then Py.ret (circuit.mkCircuit (circuit.dom d) (circuit.cod d)
             (take k (circuit.boxes d) ++ [box1; box0]
                ++ drop (k + 2) (circuit.boxes d))%list
             (take k (circuit.offsets d)
                ++ [off1; (off0 - Z.of_nat (circuit.box_dom box1)
                           + Z.of_nat (circuit.box_cod box1))%Z]
                ++ drop (k + 2) (circuit.offsets d))%list)
      else Py.raise Py.InterchangerError
    else Py.raise Py.IndexError;
  circuit.swap_layer _ _ := Py.raise Py.NotImplementedError;
|}.

(** A stand-in for [discopy.quantum]: the named gates of [circuit.py], a
    swap as one box, and a dagger that reverses the layers. *)
#[export] Instance quantum : tk.QuantumBase := {|
  tk.gates :=
    [tk.QuantumGate "SWAP" 2; tk.QuantumGate "CX" 2; tk.QuantumGate "H" 1;
     tk.QuantumGate "S" 1; tk.QuantumGate "T" 1; tk.QuantumGate "X" 1;
     tk.QuantumGate "Y" 1; tk.QuantumGate "Z" 1];
  tk.Circuit_swap left right :=
    tk.mkCircuit (left ++ right)%list (right ++ left)%list
      [([], tk.QuantumGate "SWAP" (length left + length right), [])];
  tk.Circuit_dagger c :=
    tk.mkCircuit (tk.cod c) (tk.dom c) (rev (tk.layers c));
|}.

(** A stand-in for the generator of the module [random]: the state counts
    the calls, the n-th draw is [1 / (n + 2)]. *)
Definition counting : RandomSource := {|
  rng := nat;
  rand_seed seed := Z.to_nat seed;
  rand_random st := (1 # Pos.of_nat (st + 2), Datatypes.S st);
  rand_choice n st := (st mod n, Datatypes.S st);
|}.

(** A rotation followed by a measurement whose bit is not post-selected. *)
Definition measured : tk.TketCircuit :=
  tk.mkTketCircuit
    (pytket.mkCircuit 1 1
       [pytket.mkCommand "Rx" [1%Q] [0%Z] [];
        pytket.mkCommand "Measure" [] [0%Z] [0%Z]])
    ∅ one.

(** The circuit of the docstring of [Circuit.from_tk]. *)
Definition docstring_circuit : circuit.Circuit :=
  circuit.mkCircuit 2 2
    [circuit.Rz (1 # 2); circuit.Rx (1 # 4); circuit.CX] [0; 1; 0]%Z.

(** Three scalar boxes, [sqrt(4)], [sqrt(9)] and [sqrt(25)], on one
    wire. *)
Definition three_scalars : circuit.Circuit :=
  circuit.mkCircuit 1 1
    [circuit.sqrt 4; circuit.sqrt 9; circuit.sqrt 25] [0; 1; 0]%Z.

(** [X >> X >> Ket(0) @ Id(1)] *)
Definition ket_below : circuit.Circuit :=
  circuit.mkCircuit 1 2 [circuit.X; circuit.X; circuit.Ket [0%Z]]
                    [0; 0; 0]%Z.

(** [Ket(0) @ sqrt(4) @ Ket(1) @ sqrt(9) >> CX >> Id(1) @ Ket(0) @ Id(1)],
    the circuit of the docstring of [Circuit.normalize] with other
    scalars. *)
Definition kets_and_scalars : circuit.Circuit :=
  circuit.mkCircuit 0 3
    [circuit.Ket [0%Z]; circuit.sqrt 4; circuit.Ket [1%Z]; circuit.sqrt 9;
     circuit.CX; circuit.Ket [0%Z]]
    [0; 1; 1; 2; 0; 1]%Z.

(** A [CX] whose target is two wires before its control. *)
Definition swapped_cx : pytket.Circuit :=
  pytket.mkCircuit 3 0 [pytket.mkCommand "CX" [] [2; 0]%Z []].

(** What [Circuit.to_tk] returns for the circuit of the docstring of
    [Circuit.from_tk]. *)
Definition docstring_tk_circuit : pytket.Circuit :=
  pytket.mkCircuit 2 0
    [pytket.mkCommand "Rz" [1 # 2] [0%Z] [];
     pytket.mkCommand "Rx" [1 # 4] [1%Z] [];
     pytket.mkCommand "CX" [] [0; 1]%Z []].

(** A stand-in for the arrays of the named gates of [discopy.quantum]:
    none is recorded. *)
#[export] Instance no_arrays : tk.GateArrays := {|
  tk.gate_array _ _ := Py.raise (Py.AttributeError "array");
|}.

(** A circuit under construction with two bits and the values expected
    of the bits 0 and 2. *)
Definition selected : tk.TketCircuit :=
  tk.mkTketCircuit
    (pytket.mkCircuit 1 3
       [pytket.mkCommand "Measure" [] [0%Z] [0%Z];
        pytket.mkCommand "Measure" [] [0%Z] [2%Z]])
    {[0%Z := 1%Z; 2%Z := 0%Z]} one.

(** The layers of [CX >> Id(1) @ Rz(0.25) >> scalar(3)] on two
    qubits. *)
Definition two_qubit_gates : list (tk.Ty * tk.Box * tk.Ty) :=
  [([], tk.QuantumGate "CX" 2, []);
   ([tk.qubit], tk.Rz (1 # 4), []);
   ([], tk.scalar 3%Z, [tk.qubit; tk.qubit])].

(** Two instructions, each on one qubit, in a register of two qubits and
    one bit. *)
Definition one_qubit_gates : tk.TketCircuit :=
  tk.mkTketCircuit
    (pytket.mkCircuit 2 1
       [pytket.mkCommand "Rx" [1%Q] [1%Z] [];
        pytket.mkCommand "H" [] [0%Z] []])
    ∅ one.

End examples.

(** ** Statements *)

Section statements.
Context {N : Numeric}.
Import circuit.

(** The gates that [Gate.__init__] constructs with [n] wires, directly or
    from the constructors of [Rz] and [Rx]. *)
Inductive constructed : Box -> nat -> Prop :=
| constructed_Gate name n array data _dagger g :
    Gate_init name n array data _dagger = Ok g -> constructed g n
| constructed_Rz phase : constructed (Rz phase) 1
| constructed_Rx phase : constructed (Rx phase) 1.

(** A box with [n] input and [n] output wires, which is the one-layer
    circuit with itself at offset 0. *)
Definition square (g : Box) (n : nat) : Prop :=
  box_dom g = n /\ box_cod g = n
  /\ as_circuit g = mkCircuit n n [g] [0%Z].

Definition is_rotation (g : Box) : Prop :=
  (exists p, g = Rx p) \/ (exists p, g = Rz p).

(** [g] is a gate that [Circuit.random] can draw from the gateset: one of
    its gates, or a rotation when the gateset has the class. *)
Definition from_gateset (gateset : list gateset_item) (g : Box) : Prop :=
  In (AGate g) gateset
  \/ (In ClassRx gateset /\ exists p, g = Rx p)
  \/ (In ClassRz gateset /\ exists p, g = Rz p).

(** The gate set of [Circuit.from_tk]: the eight named gates of the
    module and the rotations. *)
Definition supported (g : Box) : Prop :=
  In g [SWAP; CX; H; S; T; X; Y; Z] \/ is_rotation g.

(** The command that [Circuit.to_tk] adds for a gate at an offset. *)
Definition tk_command (layer : Box * int) : pytket.Command :=
  let (gate, off) := layer in
  pytket.mkCommand
    (match gate with Rx _ => "Rx" | Rz _ => "Rz" | _ => name gate end)
    (match gate with Rx p | Rz p => [p] | _ => [] end)
    (map (fun i => (off + Z.of_nat i)%Z) (seq 0 (box_dom gate)))
    [].

(** The number that a scalar box stands for: the first entry of the array
    of a gate without wires, such as [sqrt] builds. *)
Definition scalar_value (b : Box) : option num :=
  match b with
  | Gate _ n _ _ _ =>
      if n =? 0
      then match array b with
           | Ok (v :: _) => Some v
           | _ => None
           end
      else None
  | _ => None
  end.

(** What the first loop of [normalize] is to yield when every box is a
    scalar: the boxes are removed from the first on, and their values
    multiplied into the scalar. *)
Fixpoint scalar_yields (n : PRO) (bs : list Box) (os : list int)
    (vs : list num) (scalar : num) : list yielded :=
  match bs, os, vs with
  | _ :: bs', _ :: os', v :: vs' =>
      Pair (mkCircuit n n bs' os') (mul scalar v)
      :: scalar_yields n bs' os' vs' (mul scalar v)
  | _, _, _ => []
  end.

(** The vector with [k] zeros, a one, and [m] zeros. *)
Definition unit_vector (k m : nat) : list num :=
  (repeat zero k ++ one :: repeat zero m)%list.

(** The lists of zeros and ones. *)
Definition bit_valued (l : list num) : Prop :=
  Forall (fun v => v = zero \/ v = one) l.

(** The rows of a matrix with one column. *)
Definition column_of (v : list num) : list (list num) :=
  map (fun a => [a]) v.

(** The foliation of a diagram without boxes has no box either. *)
Definition foliation_of_identity (D : DiagramBase) : Prop :=
  forall d, boxes d = [] ->
    exists slices, foliation d = Ok slices
                   /\ concat (map boxes (tail slices)) = [].

(** The circuit [tk_circ] after one more command. *)
Definition with_command (tk_circ : tk.TketCircuit) (c : pytket.Command)
    : tk.TketCircuit :=
  tk.mkTketCircuit
    (pytket.mkCircuit (tk.n_qubits tk_circ) (tk.n_bits tk_circ)
       (pytket.commands (tk.base tk_circ) ++ [c]))
    (tk.post_selection tk_circ) (tk.scalar_ tk_circ).

(** The position of the one in the array of [Ket(bitstring)]: the bits
    read as a binary number, the first bit the most significant, any bit
    other than 0 counting as 1. *)
Definition bit_index (bitstring : list int) : nat :=
  fold_left (fun k bit => 2 * k + (if (bit =? 0)%Z then 0 else 1))
            bitstring 0.

(** Which bits of a bitstring are other than 0. *)
Definition pattern (bitstring : list int) : list bool :=
  map (fun bit => negb (bit =? 0)%Z) bitstring.

(** The commands that [Circuit.from_tk] can translate: at least one
    qubit, and either a rotation with a parameter or the name of one of
    the eight gates. *)
Definition accepted (c : pytket.Command) : Prop :=
  pytket.qubits c <> []
  /\ (((pytket.op_type c = "Rx" \/ pytket.op_type c = "Rz")
       /\ pytket.op_params c <> [])
      \/ In (pytket.op_type c)
            ["SWAP"; "CX"; "H"; "S"; "T"; "X"; "Y"; "Z"]).

(** Exchanging the wires at the positions [j] and [j + 1], which is what
    a [SWAP] at offset [j] does to the wires. *)
Definition swap_wires {A} (j : int) (wires : list A) : list A :=
  match wires !! Z.to_nat j, wires !! Datatypes.S (Z.to_nat j) with
  | Some a, Some b =>
      <[Datatypes.S (Z.to_nat j) := a]> (<[Z.to_nat j := b]> wires)
  | _, _ => wires
  end.

(** A box without wires. *)
Definition zero_width (b : Box) : bool :=
  (box_dom b =? 0) && (box_cod b =? 0).

(** The layers that are left when the first [k] boxes without wires are
    taken out. *)
Fixpoint drop_scalars (k : nat) (layers : list (Box * int))
    : list (Box * int) :=
  match layers with
  | [] => []
  | l :: layers' =>
      match k with
      | O => l :: layers'
      | Datatypes.S k' =>
          if zero_width l.1 then drop_scalars k' layers'
          else l :: drop_scalars k layers'
      end
  end.

(** The values of the scalar boxes of a list of boxes, in order. *)
Definition scalars_of (bs : list Box) : list num :=
  flat_map (fun b => match scalar_value b with
                     | Some v => [v]
                     | None => []
                     end) bs.

(** The layers that [remove_ket1] puts after the all-zero ket: an [X]
    on the wire of each bit other than 0. *)
Definition flip_layers (bitstring : list int)
    : list (tk.Ty * tk.Box * tk.Ty) :=
  flat_map
    (fun p : nat * int =>
       if (p.2 =? 0)%Z then []
       else [(tk.pow tk.qubit p.1, tk.X,
              tk.pow tk.qubit (length bitstring - 1 - p.1))])
    (combine (seq 0 (length bitstring)) bitstring).

(** The layers of gates that [to_tk] translates on a register of [n]
    qubits: a rotation, a gate with wires that is named after a pytket
    method, or a scalar, between qubit wires. *)
Definition gate_layer (n : nat) (layer : tk.Ty * tk.Box * tk.Ty) : Prop :=
  (layer.1.1 ++ tk.box_dom layer.1.2 ++ layer.2)%list = tk.pow tk.qubit n
  /\ match layer.1.2 with
     | tk.Rx _ | tk.Rz _ | tk.CRz _ | tk.scalar _ => True
     | tk.QuantumGate name (Datatypes.S _) => pytket.hasattr name = true
     | _ => False
     end.

(** The command that [to_tk] adds for a layer of [gate_layer] when the
    qubits of the register are [0], ..., [n - 1] in this order: the gate
    on the qubits from the number of wires on its left on, a rotation
    with twice its phase. *)
Definition layer_commands (layer : tk.Ty * tk.Box * tk.Ty)
    : list pytket.Command :=
  let offset := Z.of_nat (length layer.1.1) in
  match layer.1.2 with
  | tk.Rx p => [pytket.mkCommand "Rx" [(2 * p)%Q] [offset] []]
  | tk.Rz p => [pytket.mkCommand "Rz" [(2 * p)%Q] [offset] []]
  | tk.CRz p =>
      [pytket.mkCommand "CRz" [(2 * p)%Q] [offset; (offset + 1)%Z] []]
  | tk.QuantumGate name (Datatypes.S k) =>
      [pytket.mkCommand name []
         (Py.range offset (offset + Z.of_nat (Datatypes.S k))%Z) []]
  | _ => []
  end.

(** The number of a layer that is a scalar. *)
Definition layer_scalars (layer : tk.Ty * tk.Box * tk.Ty) : list num :=
  match layer.1.2 with
  | tk.scalar x => [x]
  | _ => []
  end.

(** What holds of the line under construction in [Circuit.random]: it
    has [width] input and output wires, an offset for each box, boxes of
    the gateset alone, and the widths of the boxes add up to [width]. *)
Definition tiles (gs : list gateset_item) (line : Circuit) (width : nat)
    : Prop :=
  dom line = width /\ cod line = width
  /\ length (boxes line) = length (offsets line)
  /\ Forall (from_gateset gs) (boxes line)
  /\ list_sum (map box_dom (boxes line)) = width.

End statements.

(** ** Gates are square boxes *)

Section gates.
Context {N : Numeric}.
Import circuit.

Lemma Gate_init_inv name n array data _dagger g :
  Gate_init name n array data _dagger = Ok g ->
  g = Gate name n array data _dagger
  /\ (forall a, array = Some a -> length a = 4 ^ n).
Proof.
  unfold Gate_init. destruct array as [a|]; simpl.
  - destruct (Nat.eqb_spec (length a) (4 ^ n)) as [E|E]; simpl.
    + intros [= <-]. split; [reflexivity|]. now intros a' [= <-].
    + discriminate.
  - intros [= <-]. split; [reflexivity | discriminate].
Qed.

Lemma square_Gate name n array data _dagger :
  square (Gate name n array data _dagger) n.
Proof. repeat split. Qed.

(** C10: a gate constructed with [n] wires has [n] input and [n] output
    wires and is the one-layer circuit holding itself at offset 0; what
    [dagger] returns for it is again such a gate, with the same [n]; and
    [dagger] does return whenever the gate has an array. *)
Theorem gate_square (g : Box) (n : nat) :
  constructed g n ->
  square g n
  /\ (forall g', dagger g = Ok g' -> constructed g' n /\ square g' n)
  /\ (forall a, array g = Ok a -> exists g', dagger g = Ok g').
Proof.
  intros Hg. destruct Hg as [name n arr data dg g Hinit | phase | phase].
  - apply Gate_init_inv in Hinit as [-> Hlen]. split; [|split].
    + apply square_Gate.
    + intros g' Hd. simpl in Hd.
      destruct arr as [a|]; simpl in Hd; [|discriminate].
      split.
      * eapply constructed_Gate with (array := Some a). exact Hd.
      * apply (Gate_init_inv _ _ (Some a)) in Hd as [-> _].
        apply square_Gate.
    + intros a Ha. simpl. destruct arr as [a'|]; simpl in *; [|discriminate].
      unfold Gate_init. rewrite (Hlen a' eq_refl), Nat.eqb_refl.
      eexists; reflexivity.
  - split; [|split].
    + repeat split.
    + intros g' [= <-]. split; [constructor | repeat split].
    + intros a _. eexists; reflexivity.
  - split; [|split].
    + repeat split.
    + intros g' [= <-]. split; [constructor | repeat split].
    + intros a _. eexists; reflexivity.
Qed.

(** A gate built without an array has no dagger: reading [self.array]
    fails. *)
Lemma dagger_without_array name n data _dagger :
  dagger (Gate name n None data _dagger)
  = Error (Py.AttributeError "_array").
Proof. reflexivity. Qed.

End gates.

(** ** Tensoring basis boxes *)

Section basis_tensor.
Context {N : Numeric}.
Import circuit.

(** C8, as amended: two kets fuse into the ket of the concatenated
    bitstring, and so do two bras; with any other operand the tensor is the
    ordinary one of circuits, the basis box at offset 0 followed by the
    layers of the operand shifted by the codomain width of the box, so that
    it has two layers exactly when the operand has one. *)
Theorem basis_tensor (x y : list int) (other : Obj) :
  tensor (OfBox (Ket x)) (OfBox (Ket y)) = OfBox (Ket (x ++ y))
  /\ tensor (OfBox (Bra x)) (OfBox (Bra y)) = OfBox (Bra (x ++ y))
  /\ ((forall z, other <> OfBox (Ket z)) ->
      tensor (OfBox (Ket x)) other
      = OfCircuit
          (mkCircuit (dom (circuit_of other))
             (length x + cod (circuit_of other))
             (Ket x :: boxes (circuit_of other))
             (0%Z :: map (fun n => (n + Z.of_nat (length x))%Z)
                         (offsets (circuit_of other)))))
  /\ ((forall z, other <> OfBox (Bra z)) ->
      tensor (OfBox (Bra x)) other
      = OfCircuit
          (mkCircuit (length x + dom (circuit_of other))
             (cod (circuit_of other))
             (Bra x :: boxes (circuit_of other))
             (0%Z :: map (fun n => (n + 0)%Z)
                         (offsets (circuit_of other)))))
  /\ (forall b c, In b [Ket x; Bra x] ->
      tensor (OfBox b) other = OfCircuit c ->
      length (boxes c) = 2 <-> length (boxes (circuit_of other)) = 1).
Proof.
  split; [reflexivity|]. split; [reflexivity|].
  split; [|split].
  - intros Hk. destruct other as [[ | z | | | ] | c]; try reflexivity.
    now elim (Hk z).
  - intros Hb. destruct other as [[ | | z | | ] | c]; try reflexivity.
    now elim (Hb z).
  - intros b c [<- | [<- | []]] Ht;
      destruct other as [[ | | | | ] | c']; simpl in Ht;
      try discriminate; injection Ht as <-; simpl; lia.
Qed.

End basis_tensor.

(** ** Random one-qubit circuits *)

Section random.
Context {N : Numeric}.
Import circuit.
Variable R : RandomSource.

(** C9, as amended: for one qubit, [Circuit.random] returns
    [Rx(a) >> Rz(b) >> Rx(c)] where [a], [b] and [c] are the next three
    draws of the generator (seeded first when a seed is given), whatever
    the depth and the gateset; the gates of the result are rotations, so
    that one of them comes from the gateset only if the gateset has [Rx],
    [Rz] or a rotation gate. *)
Theorem random_one_qubit (fuel depth : nat)
    (gateset : option (list gateset_item)) (seed : option int)
    (st : rng R) :
  let st0 := match seed with
             | Some seed => rand_seed R seed
             | None => st
             end in
  let a := (rand_random R st0).1 in
  let st1 := (rand_random R st0).2 in
  let b := (rand_random R st1).1 in
  let st2 := (rand_random R st1).2 in
  let c := (rand_random R st2).1 in
  let st3 := (rand_random R st2).2 in
  let result := mkCircuit 1 1 [Rx a; Rz b; Rx c] [0%Z; 0%Z; 0%Z] in
  random R fuel 1 depth gateset seed st = (Some (Ok result), st3)
  /\ (forall fuel' depth' gateset',
       random R fuel' 1 depth' gateset' seed st
       = random R fuel 1 depth gateset seed st)
  /\ (forall g, In g (boxes result) -> is_rotation g)
  /\ (forall gs g, In g (boxes result) -> from_gateset gs g ->
       In ClassRx gs \/ In ClassRz gs
       \/ exists r, In (AGate r) gs /\ is_rotation r).
Proof.
  intros st0 a st1 b st2 c st3 result.
  assert (Hrun : forall fuel depth gateset,
             random R fuel 1 depth gateset seed st
             = (Some (Ok result), st3)).
  { intros f d gsx. unfold random. simpl. fold st0.
    subst a st1 b st2 c st3 result.
    destruct (rand_random R st0) as [a' s1]; simpl.
    destruct (rand_random R s1) as [b' s2]; simpl.
    destruct (rand_random R s2) as [c' s3]; simpl.
    reflexivity. }
  assert (Hrot : forall g, In g (boxes result) -> is_rotation g).
  { intros g [<- | [<- | [<- | []]]]; [left | right | left]; eexists;
      reflexivity. }
  split; [apply Hrun|]. split; [intros; now rewrite !Hrun|].
  split; [exact Hrot|].
  intros gs g Hin [Hg | [[Hx _] | [Hz _]]]; auto.
  right; right. exists g. split; [exact Hg | now apply Hrot].
Qed.

End random.

(** ** The translation of [discopy/tk.py] *)

Section tk_translation.
Context {N : Numeric} {QB : tk.QuantumBase}.

Lemma global_unbound (x : string) :
  existsb (String.eqb x) tk.globals = false ->
  tk.global x = Error (Py.NameError x).
Proof. unfold tk.global. now intros ->. Qed.

(** C3, as amended: [add_gate] of [tk.py] emits a rotation with twice the
    phase of the box and [box_from_tk] halves the parameter, so that the
    two undo each other; [Circuit.to_tk] and [Circuit.from_tk] of
    [circuit.py] both pass the phase on as it is. *)
Theorem rotation_phase_conversion (p q : Q) :
  (forall tk_circ qubits left right,
     let offset := count_occ tk.Ob_eq_dec left tk.qubit in
     tk.add_gate tk_circ qubits left (tk.Rx p) right
     = (let* i := Py.getitem qubits offset in
        Py.ret (with_command tk_circ
                  (pytket.mkCommand "Rx" [(2 * p)%Q] [i] [])))
     /\ tk.add_gate tk_circ qubits left (tk.Rz p) right
       = (let* i := Py.getitem qubits offset in
          Py.ret (with_command tk_circ
                    (pytket.mkCommand "Rz" [(2 * p)%Q] [i] [])))
     /\ tk.add_gate tk_circ qubits left (tk.CRz p) right
       = (let* i := Py.getitem qubits offset in
          let* j := Py.getitem qubits (offset + 1) in
          Py.ret (with_command tk_circ
                    (pytket.mkCommand "CRz" [(2 * p)%Q] [i; j] []))))
  /\ (forall params qubits bits,
       tk.box_from_tk (pytket.mkCommand "Rx" (q :: params) qubits bits)
       = Ok (tk.Rx (q / 2)%Q)
       /\ tk.box_from_tk (pytket.mkCommand "Rz" (q :: params) qubits bits)
         = Ok (tk.Rz (q / 2)%Q)
       /\ tk.box_from_tk (pytket.mkCommand "CRz" (q :: params) qubits bits)
         = Ok (tk.CRz (q / 2)%Q))
  /\ ((2 * p / 2 == p)%Q /\ (2 * (q / 2) == q)%Q)
  /\ (forall tk_circuit off,
       circuit.to_tk_loop [(circuit.Rx p, off)] tk_circuit
       = Ok (pytket.mkCircuit (pytket.n_qubits tk_circuit)
               (pytket.n_bits tk_circuit)
               (pytket.commands tk_circuit
                  ++ [pytket.mkCommand "Rx" [p] [off] []]))
       /\ circuit.to_tk_loop [(circuit.Rz p, off)] tk_circuit
         = Ok (pytket.mkCircuit (pytket.n_qubits tk_circuit)
                 (pytket.n_bits tk_circuit)
                 (pytket.commands tk_circuit
                    ++ [pytket.mkCommand "Rz" [p] [off] []])))
  /\ (forall params qubits bits,
       circuit.gates_from_tk
         (pytket.mkCommand "Rx" (q :: params) qubits bits)
       = Ok (circuit.Rx q)
       /\ circuit.gates_from_tk
           (pytket.mkCommand "Rz" (q :: params) qubits bits)
         = Ok (circuit.Rz q)).
Proof.
  split; [|split; [|split; [|split]]].
  - intros tk_circ qubits left right offset.
    unfold tk.add_gate; simpl. fold offset. rewrite Nat.add_0_r.
    repeat split;
      destruct (Py.getitem qubits offset); try reflexivity;
      destruct (Py.getitem qubits (offset + 1)); reflexivity.
  - intros; repeat split; reflexivity.
  - split; field.
  - intros; simpl. rewrite Z.add_0_r. split; reflexivity.
  - intros; split; reflexivity.
Qed.

(** When a later qubit of an instruction is not below its target, the
    second test of [make_units_adjacent] is evaluated and reads the name
    [souce]; this includes the qubits that are adjacent already. *)
Lemma adjacent_loop_souce (source : int) (rest : list int)
    (i offset : int) (swaps : tk.Circuit) :
  (offset + i + 1 <= source)%Z ->
  tk.adjacent_loop (source :: rest) i offset swaps
  = Error (Py.NameError "souce").
Proof.
  intros H. simpl.
  destruct (Z.ltb_spec source (offset + i + 1)) as [H'|_]; [lia|].
  reflexivity.
Qed.

(** C6: there is a physical circuit, with a two-qubit instruction whose
    second qubit lies beyond the wire next to the first, on which
    [from_tk] fails with a [NameError] for the name [souce]. *)
Theorem from_tk_souce_undefined :
  exists (tk_circuit : tk.TketCircuit) (tk_gate : pytket.Command)
         (offset source : int),
    In tk_gate (pytket.get_commands (tk.base tk_circuit))
    /\ pytket.qubits tk_gate = [offset; source]
    /\ (offset + 1 < source)%Z
    /\ tk.from_tk tk_circuit = Error (Py.NameError "souce").
Proof.
  exists (tk.mkTketCircuit
            (pytket.mkCircuit 3 0
               [pytket.mkCommand "CRz" [1%Q] [0%Z; 2%Z] []])
            ∅ one).
  exists (pytket.mkCommand "CRz" [1%Q] [0%Z; 2%Z] []), 0%Z, 2%Z.
  split; [now left|]. split; [reflexivity|]. split; [lia|].
  reflexivity.
Qed.

Lemma from_tk_loop_app tk_circuit circuit pre post :
  tk.from_tk_loop tk_circuit circuit (pre ++ post)
  = (let* circuit' := tk.from_tk_loop tk_circuit circuit pre in
     tk.from_tk_loop tk_circuit circuit' post).
Proof.
  revert circuit. induction pre as [|g pre IH]; intros circuit; simpl.
  - reflexivity.
  - destruct (tk.from_tk_step tk_circuit circuit g); simpl;
      [apply IH | reflexivity].
Qed.

Lemma box_from_tk_Measure (tk_gate : pytket.Command) :
  pytket.op_type tk_gate = "Measure" ->
  tk.box_from_tk tk_gate = Ok tk.Measure.
Proof. unfold tk.box_from_tk. now intros ->. Qed.

(** C4, as amended: a measurement whose bit has no recorded post-selection
    is not lowered: [from_tk] raises [NotImplementedError] when it reaches
    it. *)
Theorem unconstrained_measure_rejected (tk_circuit : tk.TketCircuit)
    (pre post : list pytket.Command) (tk_gate : pytket.Command)
    (b : int) (circuit : tk.Circuit) :
  pytket.get_commands (tk.base tk_circuit) = (pre ++ tk_gate :: post)%list ->
  pytket.op_type tk_gate = "Measure" ->
  pytket.bits tk_gate !! 0 = Some b ->
  tk.post_selection tk_circuit !! b = None ->
  tk.from_tk_loop tk_circuit
    (tk.Id (tk.pow tk.qubit (tk.n_qubits tk_circuit)
            ++ tk.pow tk.bit (tk.n_bits tk_circuit))%list) pre
  = Ok circuit ->
  tk.from_tk_step tk_circuit circuit tk_gate
  = Error Py.NotImplementedError
  /\ tk.from_tk tk_circuit = Error Py.NotImplementedError.
Proof.
  intros Hc Hm Hb Hp Hpre.
  assert (Hstep : tk.from_tk_step tk_circuit circuit tk_gate
                  = Error Py.NotImplementedError).
  { unfold tk.from_tk_step. rewrite (box_from_tk_Measure _ Hm). simpl.
    unfold Py.getitem. rewrite Hb. simpl. rewrite Hp. reflexivity. }
  split; [exact Hstep|].
  unfold tk.from_tk. rewrite Hc, from_tk_loop_app, Hpre. simpl.
  now rewrite Hstep.
Qed.

(** A measurement whose bit has a recorded post-selection fails too, on
    the name [post_selection]. *)
Lemma constrained_measure_name_error (tk_circuit : tk.TketCircuit)
    (tk_gate : pytket.Command) (b v : int) (circuit : tk.Circuit) :
  pytket.op_type tk_gate = "Measure" ->
  pytket.bits tk_gate !! 0 = Some b ->
  tk.post_selection tk_circuit !! b = Some v ->
  tk.from_tk_step tk_circuit circuit tk_gate
  = Error (Py.NameError "post_selection").
Proof.
  intros Hm Hb Hp.
  unfold tk.from_tk_step. rewrite (box_from_tk_Measure _ Hm). simpl.
  unfold Py.getitem. rewrite Hb. simpl. rewrite Hp. reflexivity.
Qed.

End tk_translation.

(** ** The translation of [circuit.py] *)

Section circuit_translation.
Context {N : Numeric} {D : circuit.DiagramBase}.
Import circuit.

Lemma combine_fst_snd {A B} (l : list A) (l' : list B) :
  length l = length l' ->
  map fst (combine l l') = l /\ map snd (combine l l') = l'.
Proof.
  revert l'. induction l as [|a l IH]; intros [|b l']; simpl;
    try discriminate; auto.
  intros [= E]. destruct (IH _ E) as [-> ->]. auto.
Qed.

Lemma call_supported (tk_circuit : pytket.Circuit) (gate : Box)
    (off : int) :
  supported gate ->
  match gate with
  | Rx phase =>
      pytket.call tk_circuit "Rx" [phase]
        (pytket.qubits (tk_command (gate, off))) []
  | Rz phase =>
      pytket.call tk_circuit "Rz" [phase]
        (pytket.qubits (tk_command (gate, off))) []
  | _ => pytket.call tk_circuit (name gate) []
           (pytket.qubits (tk_command (gate, off))) []
  end
  = Ok (pytket.mkCircuit (pytket.n_qubits tk_circuit)
          (pytket.n_bits tk_circuit)
          (pytket.commands tk_circuit ++ [tk_command (gate, off)])).
Proof.
  intros [Hin | [[p ->] | [p ->]]]; [|reflexivity..].
  simpl in Hin.
  repeat (destruct Hin as [<- | Hin]; [reflexivity|]). destruct Hin.
Qed.

Lemma to_tk_loop_supported (layers : list (Box * int))
    (tk_circuit : pytket.Circuit) :
  Forall (fun l => supported l.1) layers ->
  to_tk_loop layers tk_circuit
  = Ok (pytket.mkCircuit (pytket.n_qubits tk_circuit)
          (pytket.n_bits tk_circuit)
          (pytket.commands tk_circuit ++ map tk_command layers)).
Proof.
  intros Hs. revert tk_circuit.
  induction Hs as [|[gate off] layers Hg _ IH]; intros tk_circuit.
  - simpl. rewrite app_nil_r. now destruct tk_circuit.
  - cbn [to_tk_loop].
    pose proof (call_supported tk_circuit gate off Hg) as Hc.
    cbn [tk_command pytket.qubits] in Hc. rewrite Hc. cbn [Py.bind].
    rewrite IH. cbn [pytket.n_qubits pytket.n_bits pytket.commands map].
    now rewrite <- app_assoc.
Qed.

Lemma from_tk_command_supported (gate : Box) (off : int)
    (gates : list Box) (offsets : list int) :
  supported gate ->
  Py.getitem (pytket.qubits (tk_command (gate, off))) 0 = Ok off
  /\ swaps_loop (tail (pytket.qubits (tk_command (gate, off)))) 0%Z off
                gates offsets
    = (off, gates, offsets)
  /\ gates_from_tk (tk_command (gate, off)) = Ok gate.
Proof.
  assert (Hadj : forall gs os,
             swaps_loop [(off + Z.of_nat 1)%Z] 0 off gs os
             = (off, gs, os)).
  { intros gs os. cbn [swaps_loop].
    destruct (Z.eqb_spec (off + Z.of_nat 1) (off + 0 + 1)) as [_|Hne];
      [reflexivity | lia]. }
  intros [Hin | [[p ->] | [p ->]]].
  - simpl in Hin.
    repeat (destruct Hin as [<- | Hin];
            [cbn [tk_command pytket.qubits box_dom SWAP CX H S T X Y Z
                    seq map tail Py.getitem];
             rewrite Z.add_0_r;
             repeat split; try reflexivity; apply Hadj|]).
    destruct Hin.
  - cbn. rewrite Z.add_0_r. repeat split.
  - cbn. rewrite Z.add_0_r. repeat split.
Qed.

Lemma from_tk_loop_supported (layers : list (Box * int))
    (gates : list Box) (offsets : list int) :
  Forall (fun l => supported l.1) layers ->
  from_tk_loop (map tk_command layers) gates offsets
  = Ok ((gates ++ map fst layers)%list, (offsets ++ map snd layers)%list).
Proof.
  intros Hs. revert gates offsets.
  induction Hs as [|[gate off] layers Hg _ IH]; intros gates offsets.
  - simpl. now rewrite !app_nil_r.
  - cbn [map from_tk_loop].
    destruct (from_tk_command_supported gate off gates offsets Hg)
      as (H1 & H2 & H3).
    rewrite H1. cbn [Py.bind]. rewrite H2, H3.
    cbn [Py.bind]. rewrite IH. cbn [map fst snd].
    now rewrite <- !app_assoc.
Qed.

(** C1: for a circuit of the supported gate set, translating to pytket
    and back returns the circuit itself; hence what [normalize] yields for
    the circuit that comes back, and the way it ends, are those of the
    circuit one started from. *)
Theorem to_tk_from_tk_roundtrip (c : Circuit) :
  Forall supported (boxes c) ->
  length (boxes c) = length (offsets c) ->
  cod c = dom c ->
  (let* tk_circuit := to_tk c in from_tk tk_circuit) = Ok c
  /\ (forall c', (let* tk_circuit := to_tk c in from_tk tk_circuit) = Ok c' ->
       forall fuel, normalize fuel c' = normalize fuel c).
Proof.
  intros Hs Hlen Hcod.
  assert (Hrt : (let* tk_circuit := to_tk c in from_tk tk_circuit) = Ok c).
  { destruct (combine_fst_snd _ _ Hlen) as [Hfst Hsnd].
    assert (Hl : Forall (fun l : Box * int => supported l.1)
                        (combine (boxes c) (offsets c))).
    { apply List.Forall_forall. intros l Hl.
      assert (Hb : In l.1 (map fst (combine (boxes c) (offsets c))))
        by now apply List.in_map.
      rewrite Hfst in Hb.
      now apply (proj1 (List.Forall_forall _ _) Hs). }
    unfold to_tk, gates. rewrite (to_tk_loop_supported _ _ Hl).
    cbn [Py.bind]. unfold from_tk, pytket.get_commands.
    cbn [pytket.commands pytket.Circuit_init app pytket.n_qubits].
    rewrite (from_tk_loop_supported _ _ _ Hl). cbn [Py.bind Py.ret fst snd app].
    rewrite Hfst, Hsnd. destruct c as [d cd bs os]; simpl in *.
    now subst cd. }
  split; [exact Hrt|].
  intros c' Hc' fuel. rewrite Hrt in Hc'. now injection Hc' as <-.
Qed.

End circuit_translation.

(** ** Normalization *)

Section normalization.
Context {N : Numeric} {D : circuit.DiagramBase}.
Import circuit.

Lemma scalar_value_inv (b : Box) (v : num) :
  scalar_value b = Some v ->
  box_dom b = 0 /\ box_cod b = 0 /\ exists a, array b = Ok (v :: a).
Proof.
  unfold scalar_value. destruct b as [nm n arr data dg| | | |];
    try discriminate.
  destruct (Nat.eqb_spec n 0) as [->|]; [|discriminate].
  destruct (array _) as [[|v' a]|]; try discriminate.
  intros [= ->]. eauto.
Qed.

Lemma width_scalars (bs : list Box) (vs : list num) (w : PRO) :
  Forall2 (fun b v => scalar_value b = Some v) bs vs ->
  fold_left (fun w b => w - box_dom b + box_cod b) bs w = w.
Proof.
  intros H. induction H as [|b v bs vs Hb _ IH]; simpl; [reflexivity|].
  apply scalar_value_inv in Hb as (-> & -> & _).
  now rewrite Nat.sub_0_r, Nat.add_0_r.
Qed.

Lemma remove_scalars_first (n c : PRO) (b : Box) (v : num)
    (bs : list Box) (vs : list num) (o : int) (os : list int) :
  scalar_value b = Some v ->
  Forall2 (fun b v => scalar_value b = Some v) bs vs ->
  length os = length bs ->
  remove_scalars (mkCircuit n c (b :: bs) (o :: os))
  = Ok (mkCircuit n n bs os, Some v).
Proof.
  intros Hb Hbs Hlen.
  pose proof (scalar_value_inv _ _ Hb) as (Hd & Hc & a & Ha).
  unfold remove_scalars. cbn [boxes remove_scalars_from].
  rewrite Hd, Hc. cbn [Nat.eqb andb].
  unfold Diagram_then, Diagram_slice, width_at.
  cbn [dom cod boxes offsets length Nat.add Nat.sub firstn skipn fold_left].
  rewrite Hd, Hc, Nat.sub_0_r, Nat.add_0_r, Nat.eqb_refl.
  rewrite firstn_all, (width_scalars _ _ _ Hbs).
  rewrite !Nat.sub_0_r. cbn [skipn]. rewrite firstn_all.
  rewrite <- Hlen, firstn_all. cbn [Py.ret Py.bind app].
  rewrite Ha. reflexivity.
Qed.

Lemma scalars_loop_scalars (bs : list Box) (vs : list num) :
  Forall2 (fun b v => scalar_value b = Some v) bs vs ->
  forall (fuel : nat) (n c : PRO) (os : list int) (scalar : num),
    length os = length bs ->
    length bs < fuel ->
    scalars_loop fuel (mkCircuit n c bs os) scalar
    = (scalar_yields n bs os vs scalar,
       Ok (mkCircuit n (match bs with [] => c | _ => n end) [] [])).
Proof.
  intros H. induction H as [|b v bs vs Hb Hbs IH];
    intros fuel n c os scalar Hlen Hfuel.
  - destruct fuel as [|fuel]; [simpl in Hfuel; lia|].
    destruct os; [|discriminate]. reflexivity.
  - destruct fuel as [|fuel]; [simpl in Hfuel; lia|].
    destruct os as [|o os]; [discriminate|]. injection Hlen as Hlen.
    cbn [scalars_loop].
    rewrite (remove_scalars_first n c b v bs vs o os Hb Hbs Hlen).
    rewrite (IH fuel n n os (mul scalar v) Hlen) by (simpl in Hfuel; lia).
    cbn [scalar_yields]. now destruct bs.
Qed.

Lemma scalar_yields_length (n : PRO) (bs : list Box) (os : list int)
    (vs : list num) (scalar : num) :
  length os = length bs -> length vs = length bs ->
  length (scalar_yields n bs os vs scalar) = length bs.
Proof.
  revert os vs scalar.
  induction bs as [|b bs IH]; intros [|o os] [|v vs] scalar; simpl;
    try discriminate; auto.
Qed.

Lemma scalar_yields_lookup (n : PRO) (bs : list Box) (os : list int)
    (vs : list num) (scalar : num) (k : nat) :
  length os = length bs -> length vs = length bs -> k < length bs ->
  scalar_yields n bs os vs scalar !! k
  = Some (Pair (mkCircuit n n (drop (Datatypes.S k) bs)
                  (drop (Datatypes.S k) os))
               (fold_left mul (take (Datatypes.S k) vs) scalar)).
Proof.
  revert os vs scalar k.
  induction bs as [|b bs IH]; intros [|o os] [|v vs] scalar k; simpl;
    try discriminate; try lia.
  intros [= Ho] [= Hv] Hk. destruct k as [|k]; simpl.
  - now rewrite !drop_0.
  - rewrite IH by lia. reflexivity.
Qed.

Lemma global_box : global "box" = Error (Py.NameError "box").
Proof. reflexivity. Qed.

Lemma global_InterchangerError :
  global "InterchangerError" = Error (Py.NameError "InterchangerError").
Proof. reflexivity. Qed.

(** The second loop of [normalize] yields nothing, whatever it is run
    on. *)
Lemma kets_loop_yields_nothing (fuel : nat) (slices : list Circuit)
    (_diagram : Circuit) (i : int) :
  (kets_loop fuel slices _diagram i).1 = [].
Proof.
  destruct fuel; cbn [kets_loop];
    destruct (i <? Z.of_nat (length (boxes _diagram)))%Z;
    rewrite ?global_box; reflexivity.
Qed.

(** C5: when every box of a diagram is a scalar box, [normalize] yields
    once for each box, the k-th time the diagram without its first k boxes
    together with the product of their values; the last pair holds the
    identity diagram and the product of all the values; nothing else is
    yielded, and the generator is then exhausted (provided that the
    foliation of a diagram without boxes has no box). *)
Theorem normalize_scalars (self : Circuit) (values : list num)
    (fuel : nat) :
  Forall2 (fun b v => scalar_value b = Some v) (boxes self) values ->
  length (offsets self) = length (boxes self) ->
  exists ys e,
    normalize fuel self = (ys, e)
    /\ length ys = length (boxes self)
    /\ (forall k, k < length (boxes self) ->
         ys !! k
         = Some (Pair (mkCircuit (dom self) (dom self)
                         (drop (Datatypes.S k) (boxes self))
                         (drop (Datatypes.S k) (offsets self)))
                      (fold_left mul (take (Datatypes.S k) values) one)))
    /\ (boxes self <> [] ->
        last ys = Some (Pair (Id (dom self)) (fold_left mul values one)))
    /\ (foliation_of_identity D -> e = Py.StopIteration).
Proof.
  intros Hv Hlen. destruct self as [n c bs os]; simpl in *.
  pose proof (Forall2_length _ _ _ Hv) as Hlv.
  pose proof (scalars_loop_scalars bs values Hv (Datatypes.S (length bs))
                n c os one Hlen (Nat.lt_succ_diag_r _)) as Hloop.
  set (d := mkCircuit n (match bs with [] => c | _ => n end) [] []) in *.
  assert (Hk : forall k, k < length bs ->
             scalar_yields n bs os values one !! k
             = Some (Pair (mkCircuit n n (drop (Datatypes.S k) bs)
                             (drop (Datatypes.S k) os))
                          (fold_left mul (take (Datatypes.S k) values) one))).
  { intros k Hk. apply scalar_yields_lookup; auto. }
  assert (Hrun : exists e,
             normalize fuel (mkCircuit n c bs os)
             = (scalar_yields n bs os values one, e)
             /\ (foliation_of_identity D -> e = Py.StopIteration)).
  { unfold normalize. cbn [boxes]. rewrite Hloop.
    destruct (foliation d) as [slices|e'] eqn:Hs.
    - pose proof (kets_loop_yields_nothing fuel slices
                    (flatten_tail d slices) 0%Z) as Hno.
      destruct (kets_loop fuel slices (flatten_tail d slices) 0%Z)
        as [ys' e'] eqn:Hkets.
      cbn [fst] in Hno. subst ys'. rewrite app_nil_r.
      exists e'. split; [reflexivity|].
      intros Hfol. destruct (Hfol d eq_refl) as (slices' & Hs' & Hempty).
      rewrite Hs in Hs'. injection Hs' as <-.
      unfold flatten_tail in Hkets. rewrite Hempty in Hkets.
      destruct fuel; cbn in Hkets; change (Z.of_nat 0) with 0%Z in Hkets;
        cbn in Hkets; congruence.
    - exists (Py.Raises e'). split; [reflexivity|].
      intros Hfol. destruct (Hfol d eq_refl) as (slices' & Hs' & _).
      congruence. }
  destruct Hrun as (e & Hrun & He).
  exists (scalar_yields n bs os values one), e.
  split; [exact Hrun|]. split; [apply scalar_yields_length; auto|].
  split; [exact Hk|]. split; [|exact He].
  intros Hne. rewrite last_lookup, scalar_yields_length by auto.
  destruct bs as [|b bs]; [congruence|]. cbn [length Nat.pred].
  rewrite Hk by (simpl; lia).
  rewrite !drop_ge, take_ge by (simpl in *; lia). reflexivity.
Qed.

(** C2: once the scalars are removed, if the foliation has a box beyond
    its first slice then [normalize] raises [NameError] for the name [box]
    before its second loop yields anything.  [move_ket] itself returns the
    diagram it was given when the interchange is legal, and raises
    [NameError] for the name [InterchangerError] when it is not. *)
Theorem kets_loop_name_error (fuel : nat) (self diagram : Circuit)
    (ys : list yielded) (slices : list Circuit) :
  scalars_loop (Datatypes.S (length (boxes self))) self one
  = (ys, Ok diagram) ->
  foliation diagram = Ok slices ->
  0 < length (concat (map boxes (tail slices))) ->
  normalize (Datatypes.S fuel) self = (ys, Py.Raises (Py.NameError "box"))
  /\ (forall d i d',
       interchange d i (i - 1)%Z = Ok d' ->
       move_ket d i = Ok (d, (i - 1)%Z))
  /\ (forall d i e,
       interchange d i (i - 1)%Z = Error e ->
       move_ket d i = Error (Py.NameError "InterchangerError")).
Proof.
  intros Hloop Hs Hlen. split; [|split].
  - unfold normalize. rewrite Hloop, Hs.
    cbn [kets_loop flatten_tail boxes].
    destruct (Z.ltb_spec 0 (Z.of_nat (length (concat (map boxes (tail slices))))))
      as [_|Hge]; [|lia].
    rewrite global_box. now rewrite app_nil_r.
  - intros d i d' Hi. unfold move_ket. now rewrite Hi.
  - intros d i e Hi. unfold move_ket. rewrite Hi.
    now rewrite global_InterchangerError.
Qed.

End normalization.

(** ** Evaluation of basis states *)

Section evaluation.
Context {N : Numeric} {B : BitArith N}.
Import circuit.

Lemma bit_valued_zeros (k : nat) : bit_valued (repeat zero k).
Proof. induction k; constructor; auto. Qed.

Lemma bit_valued_unit (k m : nat) : bit_valued (unit_vector k m).
Proof.
  unfold unit_vector. apply Forall_app. split.
  - apply bit_valued_zeros.
  - constructor; [now right | apply bit_valued_zeros].
Qed.

Lemma bit_valued_column (l : list num) :
  bit_valued l -> Forall bit_valued (column_of l).
Proof.
  induction 1 as [|v l Hv _ IH]; constructor; [|exact IH].
  constructor; [exact Hv | constructor].
Qed.

Lemma mul_one_bits (l : list num) :
  bit_valued l ->
  map (mul one) l = l /\ map (fun a => mul a one) l = l
  /\ map (fun a => add zero (mul one a)) l = l.
Proof.
  induction 1 as [|v l [-> | ->] _ (IH1 & IH2 & IH3)]; cbn [map];
    rewrite ?IH1, ?IH2, ?IH3, ?mul_1_0, ?mul_0_1, ?mul_1_1, ?add_0_0,
      ?add_0_1; auto.
Qed.

Lemma tensor_column (d c d' c' : Dim) (v : list num) (b0 b1 : num) :
  m_array (Matrix_tensor (mkMatrix d c (column_of v))
                         (mkMatrix d' c' [[b0]; [b1]]))
  = column_of (flat_map (fun a => [mul a b0; mul a b1]) v).
Proof.
  unfold Matrix_tensor, column_of. cbn [m_array].
  induction v as [|a v IH]; [reflexivity|].
  cbn [map flat_map app] in *. now rewrite IH.
Qed.

Lemma kron_zeros (b0 b1 : num) (j : nat) :
  (b0 = zero \/ b0 = one) -> (b1 = zero \/ b1 = one) ->
  flat_map (fun a => [mul a b0; mul a b1]) (repeat zero j)
  = repeat zero (2 * j).
Proof.
  intros H0 H1. induction j as [|j IH]; [reflexivity|].
  cbn [repeat flat_map app]. rewrite IH.
  replace (2 * Datatypes.S j) with (Datatypes.S (Datatypes.S (2 * j)))
    by lia.
  cbn [repeat].
  destruct H0 as [-> | ->], H1 as [-> | ->];
    now rewrite ?mul_0_0, ?mul_0_1.
Qed.

Lemma kron_unit_0 (k m : nat) :
  flat_map (fun a => [mul a one; mul a zero]) (unit_vector k m)
  = unit_vector (2 * k) (2 * m + 1).
Proof.
  unfold unit_vector. rewrite flat_map_app. cbn [flat_map app].
  rewrite !kron_zeros, mul_1_1, mul_1_0 by auto.
  replace (2 * m + 1) with (Datatypes.S (2 * m)) by lia. reflexivity.
Qed.

Lemma kron_unit_1 (k m : nat) :
  flat_map (fun a => [mul a zero; mul a one]) (unit_vector k m)
  = unit_vector (2 * k + 1) (2 * m).
Proof.
  unfold unit_vector. rewrite flat_map_app. cbn [flat_map app].
  rewrite !kron_zeros, mul_1_1, mul_1_0 by auto.
  rewrite repeat_app, <- app_assoc. reflexivity.
Qed.

Lemma fold_basis (x : list int) :
  forall (d c : Dim) (k m : nat),
  exists d' c' k' m',
    fold_left (fun matrix bit => Matrix_tensor matrix (basis bit)) x
              (mkMatrix d c (column_of (unit_vector k m)))
    = mkMatrix d' c' (column_of (unit_vector k' m'))
    /\ k' + 1 + m' = (k + 1 + m) * 2 ^ length x.
Proof.
  induction x as [|bit x IH]; intros d c k m.
  - exists d, c, k, m. split; [reflexivity | simpl; lia].
  - cbn [fold_left length].
    assert (Hstep : exists d1 c1 k1 m1,
               Matrix_tensor (mkMatrix d c (column_of (unit_vector k m)))
                             (basis bit)
               = mkMatrix d1 c1 (column_of (unit_vector k1 m1))
               /\ k1 + 1 + m1 = 2 * (k + 1 + m)).
    { unfold basis. destruct (bit =? 0)%Z.
      - exists (d ++ [2])%list, (c ++ [])%list, (2 * k), (2 * m + 1).
        split; [|lia].
        pose proof (tensor_column d c [2] [] (unit_vector k m) one zero)
          as Ht.
        rewrite kron_unit_0 in Ht. rewrite <- Ht. reflexivity.
      - exists (d ++ [2])%list, (c ++ [])%list, (2 * k + 1), (2 * m).
        split; [|lia].
        pose proof (tensor_column d c [2] [] (unit_vector k m) zero one)
          as Ht.
        rewrite kron_unit_1 in Ht. rewrite <- Ht. reflexivity. }
    destruct Hstep as (d1 & c1 & k1 & m1 & -> & H1).
    destruct (IH d1 c1 k1 m1) as (d' & c' & k' & m' & -> & H').
    exists d', c', k', m'. split; [reflexivity|].
    rewrite H', H1. rewrite Nat.pow_succ_r'. lia.
Qed.

Lemma concat_column_of (v : list num) : concat (column_of v) = v.
Proof. induction v as [|a v IH]; simpl; [|rewrite IH]; reflexivity. Qed.

(** The array of a ket is a unit vector with [2 ^ n] entries. *)
Lemma Ket_array_unit (x : list int) :
  exists k m, Ket_array x = unit_vector k m
              /\ k + 1 + m = 2 ^ length x.
Proof.
  destruct (fold_basis x [] [] 0 0) as (d' & c' & k & m & H & Hl).
  exists k, m. split; [|simpl in Hl; lia].
  unfold Ket_array, flatten.
  change [[one]] with (column_of (unit_vector 0 0)).
  rewrite H. cbn [m_array]. apply concat_column_of.
Qed.

Lemma Dim_size_eval_ob (n : nat) : Dim_size (eval_ob n) = 2 ^ n.
Proof.
  unfold eval_ob, Dim_size.
  induction n as [|n IH]; [reflexivity|].
  cbn [repeat fold_right]. rewrite IH, Nat.pow_succ_r'. reflexivity.
Qed.

Lemma rows_of_column (l : list num) :
  map (fun i => firstn 1 (skipn (i * 1) l)) (seq 0 (length l))
  = column_of l.
Proof.
  induction l as [|a l IH]; [reflexivity|].
  cbn [length seq map]. rewrite <- seq_shift, map_map.
  cbn [Nat.mul Nat.add skipn firstn column_of map].
  fold (column_of l). now rewrite IH.
Qed.

Lemma eval_ar_Ket (x : list int) :
  eval_ar (Ket x)
  = Ok (mkMatrix [] (eval_ob (length x)) [Ket_array x]).
Proof.
  destruct (Ket_array_unit x) as (k & m & Hk & Hl).
  assert (Hlen : length (Ket_array x) = 2 ^ length x).
  { rewrite Hk. unfold unit_vector.
    rewrite length_app. cbn [length]. rewrite !repeat_length. lia. }
  unfold eval_ar. cbn [array Py.bind Py.ret box_dom box_cod].
  unfold Matrix_init. rewrite !Dim_size_eval_ob.
  change (2 ^ 0) with 1.
  rewrite Nat.mul_1_l, Hlen, Nat.eqb_refl.
  cbn [seq map Nat.mul skipn]. rewrite <- Hlen, firstn_all. reflexivity.
Qed.

Lemma eval_ar_Bra (x : list int) :
  eval_ar (Bra x)
  = Ok (mkMatrix (eval_ob (length x)) [] (column_of (Ket_array x))).
Proof.
  destruct (Ket_array_unit x) as (k & m & Hk & Hl).
  assert (Hlen : length (Ket_array x) = 2 ^ length x).
  { rewrite Hk. unfold unit_vector.
    rewrite length_app. cbn [length]. rewrite !repeat_length. lia. }
  unfold eval_ar. cbn [array Py.bind Py.ret box_dom box_cod].
  unfold Matrix_init. rewrite !Dim_size_eval_ob.
  change (2 ^ 0) with 1.
  rewrite Nat.mul_1_r, Hlen, Nat.eqb_refl. rewrite <- Hlen.
  rewrite rows_of_column. reflexivity.
Qed.

Lemma layer_without_wires (b : Matrix) :
  Forall bit_valued (m_array b) ->
  Matrix_tensor (Matrix_tensor (Matrix_id (eval_ob 0)) b)
                (Matrix_id (eval_ob 0))
  = mkMatrix (m_dom b ++ [])%list (m_cod b ++ [])%list (m_array b).
Proof.
  intros Hb. unfold Matrix_tensor.
  cbn [Matrix_id eval_ob repeat Dim_size fold_right seq map Nat.eqb
       m_dom m_cod m_array flat_map app].
  f_equal. rewrite app_nil_r.
  induction Hb as [|r rows Hr _ IH]; [reflexivity|].
  cbn [map flat_map app]. rewrite IH. f_equal.
  rewrite app_nil_r.
  destruct (mul_one_bits r Hr) as (-> & H2 & _).
  rewrite <- H2 at 2. clear. induction r; simpl; congruence.
Qed.

Lemma map_nth_all (l : list num) :
  map (fun j => nth j l zero) (seq 0 (length l)) = l.
Proof.
  induction l as [|a l IH]; [reflexivity|].
  cbn [length seq map nth]. rewrite <- seq_shift, map_map.
  cbn [nth]. now rewrite IH.
Qed.

Lemma dot_zeros (j : nat) (l : list num) (acc : num) :
  acc = zero \/ acc = one ->
  fold_left add
    (map (fun p => mul p.1 p.2)
         (combine (repeat zero j ++ l) (repeat zero j ++ l))) acc
  = fold_left add (map (fun p => mul p.1 p.2) (combine l l)) acc.
Proof.
  intros Hacc. induction j as [|j IH]; [reflexivity|].
  cbn [repeat app combine map fold_left fst snd].
  rewrite mul_0_0.
  destruct Hacc as [-> | ->]; now rewrite ?add_0_0, ?add_1_0.
Qed.

Lemma dot_unit (k m : nat) :
  dot (unit_vector k m) (unit_vector k m) = one.
Proof.
  unfold dot, unit_vector. rewrite dot_zeros by auto.
  cbn [combine map fold_left fst snd]. rewrite mul_1_1, add_0_1.
  rewrite <- (app_nil_r (repeat zero m)).
  rewrite dot_zeros by auto. reflexivity.
Qed.

Lemma Matrix_then_row (c : Dim) (row : list num) :
  Dim_size c = length row -> bit_valued row ->
  Matrix_then (Matrix_id (eval_ob 0)) (mkMatrix [] c [row])
  = Ok (mkMatrix [] c [row]).
Proof.
  intros Hc Hrow. unfold Matrix_then.
  cbn [Matrix_id eval_ob repeat Dim_size fold_right seq map Nat.eqb
       m_dom m_cod m_array].
  rewrite bool_decide_eq_true_2 by reflexivity.
  unfold Py.ret. do 2 f_equal. fold (Dim_size c). rewrite Hc.
  f_equal.
  transitivity (map (fun a => add zero (mul one a))
                    (map (fun j => nth j row zero) (seq 0 (length row)))).
  - rewrite map_map. reflexivity.
  - rewrite map_nth_all. now apply mul_one_bits.
Qed.

Lemma Matrix_then_row_column (c : Dim) (row col : list num) :
  Matrix_then (mkMatrix [] c [row]) (mkMatrix c [] (column_of col))
  = Ok (mkMatrix [] [] [[dot row col]]).
Proof.
  unfold Matrix_then. cbn [m_dom m_cod m_array].
  rewrite bool_decide_eq_true_2 by reflexivity.
  cbn [Dim_size fold_right seq map]. unfold column, column_of.
  rewrite map_map. cbn [nth]. now rewrite map_id.
Qed.

(** C7: for every bitstring [x], the circuit [Ket(x) >> Bra(x)] evaluates
    to the matrix without indices whose entry is 1. *)
Theorem ket_bra_eval (x : list int) :
  (let* c := then_ (OfBox (Ket x)) (OfBox (Bra x)) in
   eval (circuit_of c))
  = Ok (mkMatrix [] [] [[one]]).
Proof.
  destruct (Ket_array_unit x) as (k & m & Hk & Hl).
  assert (Hlen : length (Ket_array x) = 2 ^ length x).
  { rewrite Hk. unfold unit_vector.
    rewrite length_app. cbn [length]. rewrite !repeat_length. lia. }
  assert (Hbits : bit_valued (Ket_array x))
    by (rewrite Hk; apply bit_valued_unit).
  unfold then_, Diagram_then.
  cbn [circuit_of as_circuit dom cod box_dom box_cod boxes offsets app].
  rewrite Nat.eqb_refl. cbn [Py.bind Py.ret circuit_of].
  unfold eval. cbn [boxes offsets dom combine eval_layers].
  rewrite eval_ar_Ket. cbn [Py.bind].
  change (Z.to_nat 0) with 0. cbn [Nat.sub Nat.add box_dom box_cod].
  rewrite layer_without_wires by (constructor; [exact Hbits | constructor]).
  cbn [m_dom m_cod m_array app]. rewrite app_nil_r.
  rewrite Matrix_then_row
    by (try exact Hbits; now rewrite Dim_size_eval_ob, Hlen).
  cbn [Py.bind]. rewrite eval_ar_Bra. cbn [Py.bind].
  rewrite Nat.add_0_r, Nat.sub_0_r, Nat.sub_diag.
  rewrite layer_without_wires.
  2:{ cbn [m_array]. now apply bit_valued_column. }
  cbn [m_dom m_cod m_array app]. rewrite app_nil_r.
  rewrite Matrix_then_row_column. cbn [Py.bind].
  cbn [eval_layers Py.ret]. rewrite Hk, dot_unit. reflexivity.
Qed.

End evaluation.

(** ** Daggers of boxes *)

Section daggers.
Context {N : Numeric}.
Import circuit.

Lemma Qopp_opp_eq (p : Q) : (- - p)%Q = p.
Proof. destruct p as [a b]. unfold Qopp. simpl. now rewrite Z.opp_involutive. Qed.

(** X1: the dagger of the dagger of a box is the box: whenever [dagger]
    returns for a box, it returns for the result, and gives back the box
    one started from. *)
Theorem dagger_involutive (b b' : Box) :
  dagger b = Ok b' -> dagger b' = Ok b.
Proof.
  destruct b as [nm n arr data dg | x | x | p | p]; simpl.
  - destruct arr as [a|]; simpl; [|discriminate].
    intros H. apply (Gate_init_inv _ _ (Some a)) in H as [-> Hlen].
    simpl. unfold Gate_init. rewrite (Hlen a eq_refl), Nat.eqb_refl.
    destruct dg as [[|]|]; reflexivity.
  - now intros [= <-].
  - now intros [= <-].
  - intros [= <-]. simpl. now rewrite Qopp_opp_eq.
  - intros [= <-]. simpl. now rewrite Qopp_opp_eq.
Qed.

(** X2: a gate with an array of the right size is its own dagger exactly
    when it was built with [_dagger=None]; otherwise the dagger differs
    from the gate in the flag alone.  So [SWAP], [CX], [H], [X], [Z] and
    the scalars [sqrt(r)] are their own daggers, and [S], [T] and [Y] are
    not. *)
Theorem dagger_self_inverse (name : string) (n : nat) (a : list num)
    (data : option string) (_dagger : option bool) :
  length a = 4 ^ n ->
  (dagger (Gate name n (Some a) data _dagger)
   = Ok (Gate name n (Some a) data (option_map negb _dagger)))
  /\ (dagger (Gate name n (Some a) data _dagger)
      = Ok (Gate name n (Some a) data _dagger) <-> _dagger = None)
  /\ Forall (fun g => dagger g = Ok g) [SWAP; CX; H; X; Z]
  /\ (forall r, dagger (sqrt r) = Ok (sqrt r))
  /\ Forall (fun g => exists g', dagger g = Ok g' /\ g' <> g) [S; T; Y].
Proof.
  intros Hlen.
  assert (Hd : dagger (Gate name n (Some a) data _dagger)
               = Ok (Gate name n (Some a) data (option_map negb _dagger))).
  { simpl. unfold Gate_init. rewrite Hlen, Nat.eqb_refl.
    now destruct _dagger. }
  split; [exact Hd|]. split; [|split; [|split]].
  - rewrite Hd. split.
    + intros [= H]. destruct _dagger as [[|]|]; simpl in H; congruence.
    + now intros ->.
  - repeat constructor.
  - reflexivity.
  - repeat constructor; eexists; (split; [reflexivity | discriminate]).
Qed.

End daggers.

(** ** The arrays of basis states *)

Section basis_arrays.
Context {N : Numeric} {B : BitArith N}.
Import circuit.

Lemma fold_basis_index (x : list int) :
  forall (d c : Dim) (k m : nat),
  exists d' c' m',
    fold_left (fun matrix bit => Matrix_tensor matrix (basis bit)) x
              (mkMatrix d c (column_of (unit_vector k m)))
    = mkMatrix d' c'
        (column_of
           (unit_vector
              (fold_left
                 (fun k bit => 2 * k + (if (bit =? 0)%Z then 0 else 1))
                 x k) m'))
    /\ fold_left (fun k bit => 2 * k + (if (bit =? 0)%Z then 0 else 1)) x k
       + 1 + m' = (k + 1 + m) * 2 ^ length x.
Proof.
  induction x as [|bit x IH]; intros d c k m.
  - exists d, c, m. split; [reflexivity | simpl; lia].
  - cbn [fold_left length].
    assert (Hstep : exists d1 c1 m1,
               Matrix_tensor (mkMatrix d c (column_of (unit_vector k m)))
                             (basis bit)
               = mkMatrix d1 c1
                   (column_of
                      (unit_vector
                         (2 * k + (if (bit =? 0)%Z then 0 else 1)) m1))
               /\ 2 * k + (if (bit =? 0)%Z then 0 else 1) + 1 + m1
                  = 2 * (k + 1 + m)).
    { unfold basis. destruct (bit =? 0)%Z.
      - exists (d ++ [2])%list, (c ++ [])%list, (2 * m + 1).
        split; [|lia].
        pose proof (tensor_column d c [2] [] (unit_vector k m) one zero)
          as Ht.
        rewrite kron_unit_0 in Ht. rewrite Nat.add_0_r, <- Ht. reflexivity.
      - exists (d ++ [2])%list, (c ++ [])%list, (2 * m).
        split; [|lia].
        pose proof (tensor_column d c [2] [] (unit_vector k m) zero one)
          as Ht.
        rewrite kron_unit_1 in Ht. rewrite <- Ht. reflexivity. }
    destruct Hstep as (d1 & c1 & m1 & -> & H1).
    destruct (IH d1 c1 (2 * k + (if (bit =? 0)%Z then 0 else 1)) m1)
      as (d' & c' & m' & -> & H').
    exists d', c', m'. split; [reflexivity|].
    rewrite H', H1. rewrite Nat.pow_succ_r'. lia.
Qed.

Lemma lookup_repeat {A} (a : A) (n i : nat) :
  i < n -> repeat a n !! i = Some a.
Proof.
  revert i. induction n as [|n IH]; intros [|i] Hi; simpl; try lia.
  - reflexivity.
  - apply IH. lia.
Qed.

(** X3: the array of [Ket(x)] has [2 ^ len(x)] entries, all 0 but a 1 at
    the position that the bitstring denotes in binary, the first bit being
    the most significant and any bit other than 0 counting as 1. *)
Theorem Ket_array_index (x : list int) :
  bit_index x < 2 ^ length x
  /\ Ket_array x
     = unit_vector (bit_index x) (2 ^ length x - 1 - bit_index x)
  /\ length (Ket_array x) = 2 ^ length x
  /\ Ket_array x !! bit_index x = Some one
  /\ (forall j, j < 2 ^ length x -> j <> bit_index x ->
        Ket_array x !! j = Some zero).
Proof.
  destruct (fold_basis_index x [] [] 0 0) as (d' & c' & m & H & Hl).
  fold (bit_index x) in H, Hl. simpl in Hl. rewrite Nat.add_0_r in Hl.
  assert (Hk : Ket_array x = unit_vector (bit_index x) m).
  { unfold Ket_array, flatten.
    change [[one]] with (column_of (unit_vector 0 0)).
    rewrite H. cbn [m_array]. apply concat_column_of. }
  replace (2 ^ length x - 1 - bit_index x) with m by lia.
  split; [lia|]. split; [exact Hk|]. rewrite Hk. unfold unit_vector.
  split; [|split].
  - rewrite length_app. cbn [length]. rewrite !repeat_length. lia.
  - rewrite lookup_app_r by (rewrite repeat_length; lia).
    rewrite repeat_length, Nat.sub_diag. reflexivity.
  - intros j Hj Hne. destruct (Nat.lt_ge_cases j (bit_index x)) as [Hlt|Hge].
    + rewrite lookup_app_l by (rewrite repeat_length; lia).
      apply lookup_repeat. lia.
    + rewrite lookup_app_r by (rewrite repeat_length; lia).
      rewrite repeat_length.
      destruct (j - bit_index x) as [|i] eqn:Hi; [lia|].
      cbn [lookup list_lookup]. apply lookup_repeat. lia.
Qed.

Lemma bit_index_pattern (x : list int) :
  forall (y : list int) (k k' : nat),
  length x = length y ->
  fold_left (fun k bit => 2 * k + (if (bit =? 0)%Z then 0 else 1)) x k
  = fold_left (fun k bit => 2 * k + (if (bit =? 0)%Z then 0 else 1)) y k'
  <-> k = k' /\ pattern x = pattern y.
Proof.
  induction x as [|a x IH]; intros [|b y] k k'; simpl; try discriminate.
  - intros _. split; [now intros -> | now intros [-> _]].
  - intros [= Hlen]. rewrite (IH y _ _ Hlen). split.
    + intros [Hk Hp]. rewrite Hp.
      destruct (a =? 0)%Z, (b =? 0)%Z; simpl; split; (lia || reflexivity).
    + intros [-> [= Hab Hp]]. rewrite Hp. split; [|reflexivity].
      destruct (a =? 0)%Z, (b =? 0)%Z; simpl in *; (lia || discriminate).
Qed.

Lemma products_zero_left (j : nat) (l : list num) :
  bit_valued l ->
  Forall (fun p : num * num => mul p.1 p.2 = zero) (combine (repeat zero j) l).
Proof.
  intros Hl. revert j. induction Hl as [|v l Hv _ IH]; intros [|j];
    cbn [repeat combine]; constructor; [|apply IH].
  cbn [fst snd]. destruct Hv as [-> | ->]; [apply mul_0_0 | apply mul_0_1].
Qed.

Lemma products_zero_right (j : nat) (l : list num) :
  bit_valued l ->
  Forall (fun p : num * num => mul p.1 p.2 = zero) (combine l (repeat zero j)).
Proof.
  intros Hl. revert j. induction Hl as [|v l Hv _ IH]; intros [|j];
    cbn [repeat combine]; constructor; [|apply IH].
  cbn [fst snd]. destruct Hv as [-> | ->]; [apply mul_0_0 | apply mul_1_0].
Qed.

Lemma products_units (k : nat) :
  forall k' m m', k <> k' ->
  Forall (fun p : num * num => mul p.1 p.2 = zero)
         (combine (unit_vector k m) (unit_vector k' m')).
Proof.
  unfold unit_vector.
  induction k as [|k IH]; intros [|k'] m m' Hne; [lia| | |];
    cbn [repeat app combine]; constructor; cbn [fst snd].
  - apply mul_1_0.
  - apply products_zero_left. apply (bit_valued_unit k' m').
  - apply mul_0_1.
  - apply products_zero_right. apply (bit_valued_unit k m).
  - apply mul_0_0.
  - apply IH. lia.
Qed.

Lemma dot_orthogonal (u v : list num) :
  Forall (fun p : num * num => mul p.1 p.2 = zero) (combine u v) ->
  dot u v = zero.
Proof.
  unfold dot. induction 1 as [|p l Hp _ IH]; [reflexivity|].
  cbn [map fold_left]. now rewrite Hp, add_0_0.
Qed.

(** X4: [Ket(x) >> Bra(y)] cannot be formed when the two bitstrings differ
    in length; otherwise it evaluates to the number 1 when [x] and [y]
    have their non-zero bits at the same places, and to 0 when they have
    not. *)
Theorem ket_bra_orthogonal (x y : list int) :
  (let* c := then_ (OfBox (Ket x)) (OfBox (Bra y)) in
   eval (circuit_of c))
  = if length x =? length y
    then Ok (mkMatrix [] []
               [[if bool_decide (pattern x = pattern y)
                 then one else zero]])
    else Error Py.AxiomError.
Proof.
  unfold then_, Diagram_then.
  cbn [circuit_of as_circuit dom cod box_dom box_cod boxes offsets app].
  destruct (Nat.eqb_spec (length x) (length y)) as [Hxy|Hxy];
    [|reflexivity].
  destruct (Ket_array_index x) as (_ & Hx & Hlen & _).
  destruct (Ket_array_index y) as (_ & Hy & _).
  assert (Hbits : bit_valued (Ket_array x))
    by (rewrite Hx; apply bit_valued_unit).
  assert (Hbits' : bit_valued (Ket_array y))
    by (rewrite Hy; apply bit_valued_unit).
  cbn [Py.bind Py.ret circuit_of].
  unfold eval. cbn [boxes offsets dom combine eval_layers].
  rewrite eval_ar_Ket. cbn [Py.bind].
  change (Z.to_nat 0) with 0. cbn [Nat.sub Nat.add box_dom box_cod].
  rewrite layer_without_wires by (constructor; [exact Hbits | constructor]).
  cbn [m_dom m_cod m_array app]. rewrite app_nil_r.
  rewrite Matrix_then_row
    by (try exact Hbits; now rewrite Dim_size_eval_ob, Hlen).
  cbn [Py.bind]. rewrite eval_ar_Bra. cbn [Py.bind].
  rewrite Nat.add_0_r, Nat.sub_0_r, Hxy, Nat.sub_diag.
  rewrite layer_without_wires.
  2:{ cbn [m_array]. now apply bit_valued_column. }
  cbn [m_dom m_cod m_array app]. rewrite app_nil_r.
  rewrite Matrix_then_row_column. cbn [Py.bind].
  cbn [eval_layers Py.ret]. do 4 f_equal.
  rewrite Hx, Hy. rewrite Hxy.
  pose proof (bit_index_pattern x y 0 0 Hxy) as Hp.
  fold (bit_index x) (bit_index y) in Hp.
  destruct (decide (pattern x = pattern y)) as [E|E].
  - rewrite bool_decide_eq_true_2 by exact E.
    replace (bit_index x) with (bit_index y) by (symmetry; now apply Hp).
    apply dot_unit.
  - rewrite bool_decide_eq_false_2 by exact E.
    apply dot_orthogonal, products_units. intros Hk. apply E.
    now apply Hp.
Qed.

End basis_arrays.

(** ** From pytket to circuits *)

Section reverse_translation.
Context {N : Numeric}.
Import circuit.

Lemma gates_from_tk_supported (tk_gate : pytket.Command) (g : Box) :
  gates_from_tk tk_gate = Ok g -> supported g.
Proof.
  unfold gates_from_tk.
  destruct (String.eqb _ "Rx").
  { destruct (Py.getitem _ 0); [|discriminate].
    intros [= <-]. right; left. now eexists. }
  destruct (String.eqb _ "Rz").
  { destruct (Py.getitem _ 0); [|discriminate].
    intros [= <-]. right; right. now eexists. }
  destruct (find _ _) as [gate|] eqn:Hf; [|discriminate].
  intros [= <-]. left. now apply List.find_some in Hf as [Hin _].
Qed.

Lemma gates_from_tk_accepts (tk_gate : pytket.Command) :
  (exists g, gates_from_tk tk_gate = Ok g)
  <-> (((pytket.op_type tk_gate = "Rx" \/ pytket.op_type tk_gate = "Rz")
        /\ pytket.op_params tk_gate <> [])
       \/ In (pytket.op_type tk_gate)
             ["SWAP"; "CX"; "H"; "S"; "T"; "X"; "Y"; "Z"]).
Proof.
  destruct tk_gate as [nm ps qs bs]. unfold gates_from_tk.
  cbn [pytket.op_type pytket.op_params].
  destruct (String.eqb_spec nm "Rx") as [->|Hx].
  { destruct ps as [|p ps]; cbn; split.
    - intros [g [=]].
    - intros [[_ H] | H]; [congruence|].
      repeat (destruct H as [[=] | H]). destruct H.
    - intros _. left. split; [now left | discriminate].
    - intros _. now eexists. }
  destruct (String.eqb_spec nm "Rz") as [->|Hz].
  { destruct ps as [|p ps]; cbn; split.
    - intros [g [=]].
    - intros [[_ H] | H]; [congruence|].
      repeat (destruct H as [[=] | H]). destruct H.
    - intros _. left. split; [now right | discriminate].
    - intros _. now eexists. }
  cbn [find name SWAP CX H S T X Y Z].
  repeat match goal with
         | |- context [String.eqb nm ?s] =>
             destruct (String.eqb_spec nm s) as [->|?];
             [split; [intros _; right; cbn; auto 12
                     | intros _; now eexists]|]
         end.
  split; [intros [g [=]]|].
  intros [[[?|?] _] | H]; [congruence..|].
  cbn in H. intuition congruence.
Qed.

Lemma map_const_repeat {A B} (b : B) (l : list A) :
  map (fun _ => b) l = repeat b (length l).
Proof. induction l; simpl; congruence. Qed.

Lemma swaps_loop_appends (rest : list int) :
  forall (i i_0 : int) (gates : list Box) (offsets : list int),
  exists i_0' k so,
    swaps_loop rest i i_0 gates offsets
    = (i_0', (gates ++ repeat SWAP k)%list, (offsets ++ so)%list)
    /\ length so = k.
Proof.
  induction rest as [|qubit rest IH]; intros i i_0 gates offsets.
  - exists i_0, 0, []. cbn. now rewrite !app_nil_r.
  - cbn [swaps_loop]. destruct (qubit =? i_0 + i + 1)%Z.
    { exists i_0, 0, []. cbn. now rewrite !app_nil_r. }
    destruct (qubit <? i_0 + i + 1)%Z.
    + match goal with
      | |- context [swaps_loop rest ?i' ?j ?g ?o] =>
          destruct (IH i' j g o) as (i_0' & k & so & -> & Hk)
      end.
      exists i_0', (length (Py.range qubit (i_0 + i)) + k),
        (Py.range qubit (i_0 + i) ++ so)%list.
      split.
      * now rewrite map_const_repeat, repeat_app, !app_assoc.
      * rewrite length_app. lia.
    + match goal with
      | |- context [swaps_loop rest ?i' ?j ?g ?o] =>
          destruct (IH i' j g o) as (i_0' & k & so & -> & Hk)
      end.
      exists i_0', (length (Py.range 0 (qubit - i_0 + i - 1)) + k),
        (map (fun j => (qubit - j - 1)%Z)
             (Py.range 0 (qubit - i_0 + i - 1)) ++ so)%list.
      split.
      * now rewrite map_const_repeat, repeat_app, !app_assoc.
      * rewrite length_app, length_map. lia.
Qed.

Lemma from_tk_loop_invariants (tk_gates : list pytket.Command) :
  forall (gates : list Box) (offsets : list int) r,
  from_tk_loop tk_gates gates offsets = Ok r ->
  length gates = length offsets ->
  Forall supported gates ->
  length r.1 = length r.2
  /\ Forall supported r.1
  /\ length gates + length tk_gates <= length r.1.
Proof.
  induction tk_gates as [|tk_gate tk_gates IH]; intros gates offsets r.
  - intros [= <-] Hlen Hs. cbn. split; [exact Hlen|]. split; [exact Hs|lia].
  - cbn [from_tk_loop].
    destruct (Py.getitem (pytket.qubits tk_gate) 0) as [i_0|];
      [|discriminate].
    cbn [Py.bind].
    destruct (swaps_loop_appends (tail (pytket.qubits tk_gate)) 0%Z i_0
                gates offsets) as (i_0' & k & so & -> & Hk).
    destruct (gates_from_tk tk_gate) as [gate|] eqn:Hg; [|discriminate].
    cbn [Py.bind]. intros Hr Hlen Hs.
    apply IH in Hr.
    + destruct Hr as (H1 & H2 & H3). split; [exact H1|].
      split; [exact H2|].
      rewrite !length_app in H3. cbn [length] in *. lia.
    + rewrite !length_app, repeat_length. cbn [length]. lia.
    + apply Forall_app. split; [apply Forall_app; split|].
      * exact Hs.
      * clear. induction k; constructor; [|assumption].
        left. now left.
      * constructor; [|constructor].
        now apply gates_from_tk_supported in Hg.
Qed.

Lemma from_tk_loop_accepts (tk_gates : list pytket.Command) :
  forall (gates : list Box) (offsets : list int),
  (exists r, from_tk_loop tk_gates gates offsets = Ok r)
  <-> Forall accepted tk_gates.
Proof.
  induction tk_gates as [|tk_gate tk_gates IH]; intros gates offsets.
  - split; [constructor | intros _; now eexists].
  - cbn [from_tk_loop]. rewrite List.Forall_cons_iff.
    unfold accepted at 1. rewrite <- gates_from_tk_accepts.
    destruct (pytket.qubits tk_gate) as [|i_0 qs] eqn:Hq.
    { cbn. split; [intros [r [=]] | intros [[[]] _]; reflexivity]. }
    cbn [Py.getitem lookup list_lookup Py.bind tail].
    destruct (swaps_loop_appends qs 0%Z i_0 gates offsets)
      as (i_0' & k & so & -> & _).
    destruct (gates_from_tk tk_gate) as [gate|] eqn:Hg; cbn [Py.bind].
    + rewrite IH. split.
      * intros H. split; [|exact H]. split; [discriminate | now eexists].
      * now intros [_ H].
    + split; [intros [r [=]] | intros [[_ [g [=]]] _]].
Qed.

(** X5: [Circuit.from_tk] returns a circuit exactly when every command
    has a qubit and is either an [Rx] or [Rz] with a parameter or named
    after one of the gates [SWAP], [CX], [H], [S], [T], [X], [Y], [Z]; it
    raises [IndexError] or [NotImplementedError] otherwise. *)
Theorem from_tk_accepts (tk_circuit : pytket.Circuit) :
  ((exists c, from_tk tk_circuit = Ok c)
   <-> Forall accepted (pytket.get_commands tk_circuit))
  /\ (forall e, from_tk tk_circuit = Error e ->
        e = Py.IndexError \/ e = Py.NotImplementedError).
Proof.
  split.
  - rewrite <- (from_tk_loop_accepts _ [] []). unfold from_tk.
    destruct (from_tk_loop _ [] []) as [r|e]; cbn.
    + split; intros _; now eexists.
    + split; intros [? [=]].
  - unfold from_tk.
    assert (H : forall tk_gates gates offsets e,
               from_tk_loop tk_gates gates offsets = Error e ->
               e = Py.IndexError \/ e = Py.NotImplementedError).
    { clear. induction tk_gates as [|g gs IH]; intros gates offsets e;
        cbn [from_tk_loop]; [discriminate|].
      unfold Py.getitem at 1.
      destruct (pytket.qubits g !! 0) as [i_0|]; cbn [Py.bind];
        [|intros [= <-]; now left].
      destruct (swaps_loop _ _ _ _ _) as [[i_0' gs'] os'].
      unfold gates_from_tk.
      destruct (String.eqb _ "Rx").
      { unfold Py.getitem. destruct (pytket.op_params g !! 0);
          cbn [Py.bind]; [apply IH | intros [= <-]; now left]. }
      destruct (String.eqb _ "Rz").
      { unfold Py.getitem. destruct (pytket.op_params g !! 0);
          cbn [Py.bind]; [apply IH | intros [= <-]; now left]. }
      destruct (find _ _); cbn [Py.bind];
        [apply IH | intros [= <-]; now right]. }
    intros e. destruct (from_tk_loop _ [] []) as [r|e'] eqn:Hl; cbn;
      [discriminate|].
    intros [= <-]. eapply H, Hl.
Qed.

(** X6: a circuit that [Circuit.from_tk] returns has as many input as
    output wires, the number of qubits of the pytket circuit; it has an
    offset for each gate and at least one gate for each command, all of
    them among the eight named gates and the rotations; and
    [Circuit.to_tk] translates it back without an error, one command for
    each gate. *)
Theorem from_tk_invariants (tk_circuit : pytket.Circuit) (c : Circuit) :
  from_tk tk_circuit = Ok c ->
  dom c = pytket.n_qubits tk_circuit
  /\ cod c = pytket.n_qubits tk_circuit
  /\ length (boxes c) = length (offsets c)
  /\ length (pytket.get_commands tk_circuit) <= length (boxes c)
  /\ Forall supported (boxes c)
  /\ exists tk_circuit',
       to_tk c = Ok tk_circuit'
       /\ pytket.n_qubits tk_circuit' = pytket.n_qubits tk_circuit
       /\ length (pytket.get_commands tk_circuit') = length (boxes c).
Proof.
  unfold from_tk.
  destruct (from_tk_loop _ [] []) as [r|] eqn:Hl; [|discriminate].
  cbn. intros [= <-]. cbn [dom cod boxes offsets].
  apply from_tk_loop_invariants in Hl as (H1 & H2 & H3);
    [|reflexivity|constructor].
  repeat (split; [assumption || reflexivity|]).
  destruct (combine_fst_snd _ _ H1) as [Hfst Hsnd].
  assert (Hs : Forall (fun l : Box * int => supported l.1)
                      (combine r.1 r.2)).
  { apply List.Forall_forall. intros l Hin.
    assert (Hb : In l.1 (map fst (combine r.1 r.2)))
      by now apply List.in_map.
    rewrite Hfst in Hb. now apply (proj1 (List.Forall_forall _ _) H2). }
  unfold to_tk, gates. cbn [boxes offsets dom].
  rewrite (to_tk_loop_supported _ _ Hs). eexists. split; [reflexivity|].
  cbn. split; [reflexivity|].
  rewrite length_map, length_combine. lia.
Qed.

(** X7: for a pytket circuit without bits whose commands are those that
    [Circuit.to_tk] adds for gates of the supported set, [Circuit.from_tk]
    gives the circuit of these gates, without any [SWAP] added, and
    [Circuit.to_tk] then gives back the pytket circuit. *)
Theorem from_tk_to_tk_roundtrip (tk_circuit : pytket.Circuit)
    (layers : list (Box * int)) :
  Forall (fun l => supported l.1) layers ->
  pytket.commands tk_circuit = map tk_command layers ->
  pytket.n_bits tk_circuit = 0 ->
  from_tk tk_circuit
  = Ok (mkCircuit (pytket.n_qubits tk_circuit) (pytket.n_qubits tk_circuit)
          (map fst layers) (map snd layers))
  /\ (let* c := from_tk tk_circuit in to_tk c) = Ok tk_circuit.
Proof.
  intros Hs Hc Hb.
  assert (Hf : from_tk tk_circuit
               = Ok (mkCircuit (pytket.n_qubits tk_circuit)
                       (pytket.n_qubits tk_circuit)
                       (map fst layers) (map snd layers))).
  { unfold from_tk, pytket.get_commands. rewrite Hc.
    now rewrite (from_tk_loop_supported _ _ _ Hs). }
  split; [exact Hf|]. rewrite Hf. cbn [Py.bind].
  unfold to_tk, gates. cbn [boxes offsets dom].
  assert (Hz : combine (map fst layers) (map snd layers) = layers).
  { clear. induction layers as [|[g o] l IH]; simpl; congruence. }
  rewrite Hz, (to_tk_loop_supported _ _ Hs). cbn.
  destruct tk_circuit as [n b cs]; cbn in *. now subst.
Qed.

End reverse_translation.

(** ** The swaps that [Circuit.from_tk] adds *)

Section routing.
Context {N : Numeric}.
Import circuit.

Lemma swap_wires_spec {A} (k : nat) (w : list A) :
  Datatypes.S k < length w ->
  length (swap_wires (Z.of_nat k) w) = length w
  /\ swap_wires (Z.of_nat k) w !! k = w !! Datatypes.S k
  /\ swap_wires (Z.of_nat k) w !! Datatypes.S k = w !! k
  /\ (forall i, i <> k -> i <> Datatypes.S k ->
        swap_wires (Z.of_nat k) w !! i = w !! i).
Proof.
  intros Hk. unfold swap_wires. rewrite Nat2Z.id.
  destruct (lookup_lt_is_Some_2 w k) as [a Ha]; [lia|].
  destruct (lookup_lt_is_Some_2 w (Datatypes.S k)) as [b Hb]; [lia|].
  rewrite Ha, Hb. split; [now rewrite !length_insert|].
  split; [|split].
  - rewrite list_lookup_insert_ne by lia.
    rewrite list_lookup_insert. now rewrite decide_True by (split; lia).
  - rewrite list_lookup_insert.
    now rewrite decide_True by (rewrite length_insert; split; lia).
  - intros i H1 H2. now rewrite !list_lookup_insert_ne by lia.
Qed.

(** Swaps at the offsets [p], [p + 1], ..., [p + len - 1], in this order,
    carry the wire at [p] to [p + len]. *)
Lemma swaps_upwards {A} (len : nat) :
  forall (p : nat) (w : list A),
  p + len < length w ->
  let w' :=
    fold_left (fun w j => swap_wires j w)
      (map (fun k => (Z.of_nat p + Z.of_nat k)%Z) (seq 0 len)) w in
  length w' = length w
  /\ w' !! (p + len) = w !! p
  /\ (0 < len -> w' !! (p + len - 1) = w !! (p + len)).
Proof.
  induction len as [|len IH]; intros p w Hp.
  - cbn. rewrite Nat.add_0_r. split; [reflexivity|].
    split; [reflexivity | lia].
  - cbn [seq map fold_left]. rewrite <- seq_shift, map_map.
    rewrite Z.add_0_r.
    destruct (swap_wires_spec p w) as (Hl & H1 & H2 & H3); [lia|].
    rewrite (map_ext _ (fun k => (Z.of_nat (Datatypes.S p) + Z.of_nat k)%Z))
      by (intros; lia).
    destruct (IH (Datatypes.S p) (swap_wires (Z.of_nat p) w))
      as (Hl' & H1' & H2'); [rewrite Hl; lia|].
    cbn zeta in *. split; [congruence|]. split.
    + replace (p + Datatypes.S len) with (Datatypes.S p + len) by lia.
      now rewrite H1'.
    + intros _. destruct len as [|len].
      * cbn. rewrite Nat.add_1_r. cbn. rewrite Nat.sub_0_r. exact H1.
      * replace (p + Datatypes.S (Datatypes.S len) - 1)
          with (Datatypes.S p + Datatypes.S len - 1) by lia.
        rewrite H2' by lia. rewrite H3 by lia. f_equal. lia.
Qed.

(** Swaps at the offsets [q - 1], [q - 2], ..., [q - len], in this order,
    carry the wire at [q] to [q - len] and leave the wires before
    [q - len] where they are. *)
Lemma swaps_downwards {A} (len : nat) :
  forall (q : nat) (w : list A),
  len <= q -> q < length w ->
  let w' :=
    fold_left (fun w j => swap_wires j w)
      (map (fun k => (Z.of_nat q - Z.of_nat k - 1)%Z) (seq 0 len)) w in
  length w' = length w
  /\ w' !! (q - len) = w !! q
  /\ (forall i, i < q - len -> w' !! i = w !! i).
Proof.
  induction len as [|len IH]; intros q w Hq Hw.
  - cbn. rewrite Nat.sub_0_r. auto.
  - cbn [seq map fold_left]. rewrite <- seq_shift, map_map.
    destruct q as [|q]; [lia|].
    replace (Z.of_nat (Datatypes.S q) - Z.of_nat 0 - 1)%Z
      with (Z.of_nat q) by lia.
    destruct (swap_wires_spec q w) as (Hl & H1 & H2 & H3); [lia|].
    rewrite (map_ext _ (fun k => (Z.of_nat q - Z.of_nat k - 1)%Z))
      by (intros; lia).
    destruct (IH q (swap_wires (Z.of_nat q) w))
      as (Hl' & H1' & H2'); [lia | rewrite Hl; lia|].
    cbn zeta in *. split; [congruence|]. split.
    + replace (Datatypes.S q - Datatypes.S len) with (q - len) by lia.
      now rewrite H1'.
    + intros i Hi. rewrite H2' by lia. apply H3; lia.
Qed.

Lemma lookup_range (n : nat) (i : nat) :
  i < n -> Py.range 0 (Z.of_nat n) !! i = Some (Z.of_nat i).
Proof.
  intros Hi. unfold Py.range.
  rewrite Z.sub_0_r, Nat2Z.id.
  change (map ?f ?l) with (f <$> l). rewrite list_lookup_fmap.
  rewrite (proj2 (lookup_seq 0 n i i)) by (split; [reflexivity | lia]).
  reflexivity.
Qed.

(** X8: for a gate on the two qubits [a] and [b] of a register of [n]
    qubits, the loop of [Circuit.from_tk] adds [SWAP] gates alone, [a - b]
    of them when [b] lies before [a] and [b - a - 1] when it lies after;
    carried out on the wires in this order, they bring the wire [a] to the
    offset at which the gate is then placed and the wire [b] next to it,
    on the right. *)
Theorem from_tk_swaps_make_adjacent (n : nat) (a b : int)
    (gates : list Box) (offsets : list int) :
  (0 <= a < Z.of_nat n)%Z -> (0 <= b < Z.of_nat n)%Z -> a <> b ->
  exists i_0 so,
    swaps_loop [b] 0%Z a gates offsets
    = (i_0, (gates ++ repeat SWAP (length so))%list, (offsets ++ so)%list)
    /\ length so = Z.to_nat (if (b <? a)%Z then a - b else b - a - 1)
    /\ i_0 = (if (b <? a)%Z then a - 1 else a)%Z
    /\ let wires :=
         fold_left (fun w j => swap_wires j w) so
                   (Py.range 0 (Z.of_nat n)) in
       wires !! Z.to_nat i_0 = Some a
       /\ wires !! Datatypes.S (Z.to_nat i_0) = Some b.
Proof.
  intros Ha Hb Hab. cbn [swaps_loop]. rewrite Z.add_0_r.
  destruct (Z.eqb_spec b (a + 1)) as [E|E].
  { exists a, []. rewrite !app_nil_r.
    destruct (Z.ltb_spec b a) as [?|_]; [lia|].
    split; [reflexivity|]. split; [cbn; lia|]. split; [reflexivity|].
    cbn [fold_left]. rewrite !lookup_range by lia.
    split; f_equal; lia. }
  destruct (Z.ltb_spec b (a + 1)) as [L|L].
  - destruct (Z.ltb_spec b a) as [_|?]; [|lia].
    destruct (Z.leb_spec b a) as [_|?]; [|lia].
    assert (Hr : Py.range b a
                 = map (fun k => (Z.of_nat (Z.to_nat b) + Z.of_nat k)%Z)
                       (seq 0 (Z.to_nat (a - b)))).
    { unfold Py.range. apply map_ext. intros; lia. }
    exists (a - 1)%Z, (Py.range b a).
    rewrite map_const_repeat. split; [reflexivity|].
    rewrite Hr, length_map, length_seq.
    split; [reflexivity|]. split; [reflexivity|].
    destruct (swaps_upwards (Z.to_nat (a - b)) (Z.to_nat b)
                (Py.range 0 (Z.of_nat n))) as (_ & H1 & H2).
    { unfold Py.range. rewrite length_map, length_seq. lia. }
    cbn zeta in *.
    replace (Z.to_nat b + Z.to_nat (a - b)) with (Z.to_nat a) in * by lia.
    replace (Datatypes.S (Z.to_nat (a - 1))) with (Z.to_nat a) by lia.
    replace (Z.to_nat (a - 1)) with (Z.to_nat a - 1) by lia.
    rewrite H1, H2 by lia. rewrite !lookup_range by lia.
    split; f_equal; lia.
  - destruct (Z.ltb_spec b a) as [?|_]; [lia|].
    assert (Hr : map (fun j => (b - j - 1)%Z) (Py.range 0 (b - a + 0 - 1))
                 = map (fun k => (Z.of_nat (Z.to_nat b) - Z.of_nat k - 1)%Z)
                       (seq 0 (Z.to_nat (b - a - 1)))).
    { unfold Py.range. rewrite map_map.
      replace (b - a + 0 - 1 - 0)%Z with (b - a - 1)%Z by lia.
      apply map_ext. intros; lia. }
    exists a, (map (fun j => (b - j - 1)%Z) (Py.range 0 (b - a + 0 - 1))).
    rewrite map_const_repeat, length_map. split; [reflexivity|].
    split; [unfold Py.range; rewrite length_map, length_seq; lia|].
    split; [reflexivity|]. rewrite Hr.
    destruct (swaps_downwards (Z.to_nat (b - a - 1)) (Z.to_nat b)
                (Py.range 0 (Z.of_nat n))) as (_ & H1 & H2).
    { lia. }
    { unfold Py.range. rewrite length_map, length_seq. lia. }
    cbn zeta in *.
    replace (Z.to_nat b - Z.to_nat (b - a - 1))
      with (Datatypes.S (Z.to_nat a)) in * by lia.
    rewrite H1, H2 by lia. rewrite !lookup_range by lia.
    split; f_equal; lia.
Qed.

End routing.

(** ** What [Circuit.to_tk] refuses *)

Section forward_translation.
Context {N : Numeric}.
Import circuit.

Lemma to_tk_loop_app (pre post : list (Box * int))
    (tk_circuit : pytket.Circuit) :
  to_tk_loop (pre ++ post) tk_circuit
  = (let* tk_circuit' := to_tk_loop pre tk_circuit in
     to_tk_loop post tk_circuit').
Proof.
  revert tk_circuit. induction pre as [|[gate off] pre IH];
    intros tk_circuit; [reflexivity|].
  cbn [app to_tk_loop].
  destruct gate; (destruct (pytket.call _ _ _ _ _); cbn [Py.bind];
                  [apply IH | reflexivity]).
Qed.

(** X9: [Circuit.to_tk] has no translation for basis states, effects and
    scalars: on a circuit whose first box outside the supported gates is a
    [Ket], a [Bra] or a [sqrt], it raises [AttributeError] for the name of
    that box. *)
Theorem to_tk_rejects_basis (c : Circuit) (pre post : list (Box * int))
    (b : Box) (off : int) :
  combine (gates c) (offsets c) = (pre ++ (b, off) :: post)%list ->
  Forall (fun l => supported l.1) pre ->
  (exists x, b = Ket x) \/ (exists x, b = Bra x) \/ (exists r, b = sqrt r) ->
  to_tk c = Error (Py.AttributeError (name b)).
Proof.
  intros Hc Hpre Hb. unfold to_tk. rewrite Hc, to_tk_loop_app.
  rewrite (to_tk_loop_supported _ _ Hpre). cbn [Py.bind to_tk_loop].
  destruct Hb as [[x ->] | [[x ->] | [r ->]]]; reflexivity.
Qed.

End forward_translation.

(** ** Random tilings *)

Section random_tiling.
Context {N : Numeric}.
Import circuit.
Variable R : RandomSource.

Lemma choice_In {A} (l : list A) (st st' : rng R) (a : A) :
  choice R l st = (Ok a, st') -> In a l.
Proof.
  unfold choice. destruct l as [|a0 l]; [discriminate|].
  destruct (rand_choice R _ st) as [k s]. unfold Py.getitem.
  destruct (_ !! k) as [a'|] eqn:Hk; [|discriminate].
  intros [= <- _]. apply list_elem_of_In.
  eapply list_elem_of_lookup_2, Hk.
Qed.

Lemma random_line_tiles (gs : list gateset_item) (n_qubits : nat)
    (fuel : nat) :
  Forall (fun item => forall g, item = AGate g -> box_dom g = box_cod g)
         gs ->
  forall (line : Circuit) (n_affected : nat) (st st' : rng R)
         (line' : Circuit),
  tiles gs line n_affected ->
  random_line R fuel n_qubits (Some gs) line n_affected st
  = (Some (Ok line'), st') ->
  exists width, n_qubits <= width /\ tiles gs line' width.
Proof.
  intros Hsq. induction fuel as [|fuel IH];
    intros line n_affected st st' line' Hl; cbn [random_line];
    destruct (Nat.ltb_spec n_affected n_qubits) as [Hlt|Hge];
    try discriminate;
    try (intros [= <- _]; exists n_affected; now split).
  set (candidates := if 1 <? n_qubits - n_affected then gs
                     else List.filter fits_one_qubit gs).
  destruct (choice R candidates st) as [[item|e] s] eqn:Hch;
    [|discriminate].
  assert (Hin : In item gs).
  { apply choice_In in Hch. subst candidates.
    destruct (1 <? _); [exact Hch|].
    now apply List.filter_In in Hch as [Hch _]. }
  assert (Hstep : forall gate, from_gateset gs gate ->
                    box_dom gate = box_cod gate ->
                    tiles gs (Diagram_tensor line (as_circuit gate))
                          (n_affected + box_dom gate)).
  { intros gate Hg Hd. destruct Hl as (H1 & H2 & H3 & H4 & H5).
    unfold tiles, Diagram_tensor, PRO_tensor.
    cbn [dom cod boxes offsets as_circuit].
    rewrite H1, H2, <- Hd.
    rewrite !length_app, length_map, map_app, list_sum_app, H3, H5.
    cbn [length map list_sum].
    repeat (split; [lia || reflexivity|]).
    split; [|cbn; lia].
    apply Forall_app. split; [exact H4|].
    constructor; [exact Hg | constructor]. }
  destruct item as [| | g].
  - destruct (rand_random R s) as [p s'].
    apply IH, Hstep; [|reflexivity].
    right; left. split; [exact Hin | now eexists].
  - destruct (rand_random R s) as [p s'].
    apply IH, Hstep; [|reflexivity].
    right; right. split; [exact Hin | now eexists].
  - apply IH, Hstep; [now left|].
    apply (proj1 (List.Forall_forall _ _) Hsq _ Hin). reflexivity.
Qed.

Lemma random_layers_tiles (gs : list gateset_item) (n_qubits : nat)
    (fuel : nat) :
  Forall (fun item => forall g, item = AGate g -> box_dom g = box_cod g)
         gs ->
  forall (depth : nat) (result : Circuit) (st st' : rng R) (c : Circuit)
         (total : nat),
  dom result = n_qubits -> cod result = n_qubits ->
  length (boxes result) = length (offsets result) ->
  Forall (from_gateset gs) (boxes result) ->
  list_sum (map box_dom (boxes result)) = total ->
  random_layers R fuel depth n_qubits (Some gs) result st
  = (Some (Ok c), st') ->
  dom c = n_qubits /\ cod c = n_qubits
  /\ length (boxes c) = length (offsets c)
  /\ Forall (from_gateset gs) (boxes c)
  /\ list_sum (map box_dom (boxes c)) = total + depth * n_qubits.
Proof.
  intros Hsq. induction depth as [|depth IH];
    intros result st st' c total H1 H2 H3 H4 H5; cbn [random_layers].
  - intros [= <- _]. repeat (split; [assumption|]). lia.
  - destruct (random_line R fuel n_qubits (Some gs) (Id 0) 0 st)
      as [[[line|e]|] s] eqn:Hline; try discriminate.
    apply random_line_tiles in Hline as (width & Hw & Hl); [|exact Hsq|].
    2:{ repeat split. constructor. }
    destruct Hl as (L1 & L2 & L3 & L4 & L5).
    unfold Diagram_then. rewrite H2, L1.
    destruct (Nat.eqb_spec n_qubits width) as [<-|]; [|discriminate].
    cbn [Py.ret]. intros Hrec.
    apply (IH _ _ _ _ (total + n_qubits)) in Hrec; cbn [dom cod boxes offsets].
    + destruct Hrec as (R1 & R2 & R3 & R4 & R5).
      repeat (split; [assumption|]). lia.
    + exact H1.
    + exact L2.
    + rewrite !length_app. lia.
    + apply Forall_app. now split.
    + rewrite map_app, list_sum_app. lia.
Qed.

(** X10: for a number of qubits other than 1 and a gateset of boxes with
    as many input as output wires, a circuit that [Circuit.random] returns
    has [n_qubits] input and output wires and an offset for each gate;
    every gate comes from the gateset; and the widths of the gates add up
    to [depth * n_qubits], each of the [depth] lines covering every wire
    once. *)
Theorem random_tiling (fuel n_qubits depth : nat)
    (gs : list gateset_item) (seed : option int) (st st' : rng R)
    (c : Circuit) :
  n_qubits <> 1 ->
  Forall (fun item => forall g, item = AGate g -> box_dom g = box_cod g)
         gs ->
  random R fuel n_qubits depth (Some gs) seed st = (Some (Ok c), st') ->
  dom c = n_qubits /\ cod c = n_qubits
  /\ length (boxes c) = length (offsets c)
  /\ Forall (from_gateset gs) (boxes c)
  /\ list_sum (map box_dom (boxes c)) = depth * n_qubits.
Proof.
  intros Hn Hsq. unfold random.
  destruct (Nat.eqb_spec n_qubits 1) as [?|_]; [contradiction|].
  intros Hr.
  apply (random_layers_tiles gs n_qubits fuel Hsq _ _ _ _ _ 0) in Hr;
    try reflexivity; [exact Hr | constructor].
Qed.

Lemma random_layers_no_qubits (fuel depth : nat)
    (gateset : option (list gateset_item)) (st : rng R) :
  random_layers R fuel depth 0 gateset (Id 0) st = (Some (Ok (Id 0)), st).
Proof.
  induction depth as [|depth IH]; [reflexivity|].
  cbn [random_layers]. destruct fuel; cbn; exact IH.
Qed.

(** X11: the edge cases of [Circuit.random] for a number of qubits other
    than 1.  With depth 0, and with no qubit at all, it returns the
    identity, whatever the gateset, and draws nothing.  With two qubits at
    least and a positive depth, it raises [TypeError] for the default
    gateset [None] and [IndexError] for an empty gateset. *)
Theorem random_edge_cases (fuel n_qubits depth : nat)
    (gateset : option (list gateset_item)) (seed : option int)
    (st : rng R) :
  n_qubits <> 1 ->
  let st0 := match seed with
             | Some seed => rand_seed R seed
             | None => st
             end in
  random R fuel n_qubits 0 gateset seed st = (Some (Ok (Id n_qubits)), st0)
  /\ random R fuel 0 depth gateset seed st = (Some (Ok (Id 0)), st0)
  /\ (2 <= n_qubits ->
      random R (Datatypes.S fuel) n_qubits (Datatypes.S depth) None seed st
      = (Some (Error Py.TypeError), st0)
      /\ random R (Datatypes.S fuel) n_qubits (Datatypes.S depth) (Some [])
                seed st
         = (Some (Error Py.IndexError), st0)).
Proof.
  intros Hn st0. unfold random. fold st0.
  destruct (Nat.eqb_spec n_qubits 1) as [?|_]; [contradiction|].
  split; [reflexivity|]. split; [apply random_layers_no_qubits|].
  intros H2. cbn [random_layers random_line].
  destruct (Nat.ltb_spec 0 n_qubits) as [_|?]; [|lia].
  split; [reflexivity|].
  destruct (1 <? n_qubits - 0); reflexivity.
Qed.

End random_tiling.

(** ** Removing the scalars of any diagram *)

Section scalar_removal.
Context {N : Numeric} {D : circuit.DiagramBase}.
Import circuit.

Lemma remove_scalars_from_none (diagram : Circuit) (l : list Box) :
  forall i,
  Forall (fun b => zero_width b = false) l ->
  remove_scalars_from diagram l i = Ok (diagram, None).
Proof.
  induction l as [|b l IH]; intros i Hl; [reflexivity|].
  apply List.Forall_cons_iff in Hl as [Hb Hl]. cbn [remove_scalars_from].
  unfold zero_width in Hb. rewrite Hb. now apply IH.
Qed.

Lemma remove_scalars_from_first (diagram : Circuit) (pre : list Box)
    (b : Box) (post : list Box) :
  forall i,
  Forall (fun b => zero_width b = false) pre ->
  zero_width b = true ->
  remove_scalars_from diagram (pre ++ b :: post) i
  = (let* d := Diagram_then
                 (Diagram_slice diagram 0 (i + length pre))
                 (Diagram_slice diagram (i + length pre + 1)
                    (length (boxes diagram))) in
     let* a := array b in
     let* number := Py.getitem a 0 in
     Py.ret (d, Some number)).
Proof.
  induction pre as [|b' pre IH]; intros i Hpre Hb.
  - cbn [app remove_scalars_from length]. unfold zero_width in Hb.
    rewrite Hb, Nat.add_0_r. reflexivity.
  - apply List.Forall_cons_iff in Hpre as [Hb' Hpre].
    cbn [app remove_scalars_from length]. unfold zero_width in Hb'.
    rewrite Hb'. rewrite IH by assumption.
    now replace (Datatypes.S i + length pre)
      with (i + Datatypes.S (length pre)) by lia.
Qed.

Lemma first_scalar (L : list (Box * int)) :
  Forall (fun l : Box * int => zero_width l.1 = false) L
  \/ exists pre l post,
       L = (pre ++ l :: post)%list
       /\ Forall (fun l : Box * int => zero_width l.1 = false) pre
       /\ zero_width l.1 = true.
Proof.
  induction L as [|l L IH]; [left; constructor|].
  destruct (zero_width l.1) eqn:Hl.
  - right. exists [], l, L. repeat split; [constructor | exact Hl].
  - destruct IH as [IH | (pre & l' & post & -> & Hpre & Hl')].
    + left. now constructor.
    + right. exists (l :: pre), l', post.
      repeat split; [now constructor | exact Hl'].
Qed.

Lemma width_without_scalar (pre : list (Box * int)) (l : Box * int)
    (post : list (Box * int)) (n : PRO) :
  zero_width l.1 = true ->
  fold_left (fun w b => w - box_dom b + box_cod b)
            (map fst (pre ++ post)) n
  = fold_left (fun w b => w - box_dom b + box_cod b)
              (map fst (pre ++ l :: post)) n.
Proof.
  intros Hl. rewrite !map_app, !fold_left_app. cbn [map fold_left].
  unfold zero_width in Hl. apply andb_prop in Hl as [Hd Hc].
  apply Nat.eqb_eq in Hd, Hc. now rewrite Hd, Hc, Nat.sub_0_r, Nat.add_0_r.
Qed.

Lemma remove_first_scalar (n c : PRO) (pre : list (Box * int))
    (l : Box * int) (post : list (Box * int)) (v : num) :
  Forall (fun l : Box * int => zero_width l.1 = false) pre ->
  scalar_value l.1 = Some v ->
  remove_scalars
    (mkCircuit n c (map fst (pre ++ l :: post)) (map snd (pre ++ l :: post)))
  = Ok (mkCircuit n
          (fold_left (fun w b => w - box_dom b + box_cod b)
                     (map fst (pre ++ l :: post)) n)
          (map fst (pre ++ post)) (map snd (pre ++ post)),
        Some v).
Proof.
  intros Hpre Hv.
  pose proof (scalar_value_inv _ _ Hv) as (Hd & Hc & a & Ha).
  assert (Hz : zero_width l.1 = true)
    by (unfold zero_width; now rewrite Hd, Hc).
  unfold remove_scalars. cbn [boxes]. rewrite map_app. cbn [map].
  rewrite remove_scalars_from_first;
    [|now apply Forall_map | exact Hz].
  rewrite Ha. cbn [Py.bind Py.getitem lookup list_lookup Py.ret].
  unfold Diagram_then, Diagram_slice, width_at.
  cbn [dom cod boxes offsets Nat.add].
  rewrite !length_map, Nat.sub_0_r, !drop_0, take_0.
  rewrite !map_app. cbn [map fold_left].
  rewrite !(cons_middle _ (map _ pre)), !app_assoc.
  rewrite !(drop_app_length' (map _ pre ++ [_])%list)
    by (rewrite length_app, length_map; cbn; lia).
  rewrite !(take_app_length' (map _ pre ++ [_])%list _ (length pre + 1))
    by (rewrite length_app, length_map; cbn; lia).
  rewrite !firstn_all.
  rewrite <- !app_assoc.
  rewrite !(take_app_length' (map _ pre) _ (length pre))
    by now rewrite length_map.
  rewrite !length_app, !length_map. cbn [length].
  replace (length pre + (1 + length post) - (length pre + 1))
    with (length post) by lia.
  rewrite !firstn_all2 by (rewrite ?length_app, !length_map; cbn; lia).
  rewrite !fold_left_app. cbn [fold_left].
  rewrite Hd, Hc, Nat.sub_0_r, Nat.add_0_r, Nat.eqb_refl.
  reflexivity.
Qed.

Lemma drop_scalars_0 (L : list (Box * int)) : drop_scalars 0 L = L.
Proof. now destruct L. Qed.

Lemma drop_scalars_app (k : nat) (pre L : list (Box * int)) :
  Forall (fun l : Box * int => zero_width l.1 = false) pre ->
  drop_scalars k (pre ++ L) = (pre ++ drop_scalars k L)%list.
Proof.
  induction 1 as [|l pre Hl _ IH]; [reflexivity|].
  cbn [app drop_scalars]. destruct k as [|k].
  - now rewrite drop_scalars_0.
  - now rewrite Hl, IH.
Qed.

Lemma scalars_of_app (bs bs' : list Box) :
  scalars_of (bs ++ bs') = (scalars_of bs ++ scalars_of bs')%list.
Proof. unfold scalars_of. apply flat_map_app. Qed.

Lemma scalars_of_none (L : list (Box * int)) :
  Forall (fun l : Box * int => zero_width l.1 = false) L ->
  scalars_of (map fst L) = [].
Proof.
  induction 1 as [|l L Hl _ IH]; [reflexivity|].
  cbn [map]. change (?b :: ?bs) with ([b] ++ bs)%list.
  rewrite scalars_of_app, IH, app_nil_r. unfold scalars_of. cbn.
  destruct (scalar_value l.1) as [v|] eqn:Hv; [|reflexivity].
  apply scalar_value_inv in Hv as (Hd & Hc & _).
  unfold zero_width in Hl. now rewrite Hd, Hc in Hl.
Qed.

Lemma scalars_loop_general (vs : list num) :
  forall (L : list (Box * int)) (n c : PRO) (fuel : nat) (scalar : num),
  Forall (fun l : Box * int =>
            zero_width l.1 = true -> is_Some (scalar_value l.1)) L ->
  scalars_of (map fst L) = vs ->
  length vs < fuel ->
  (scalars_loop fuel (mkCircuit n c (map fst L) (map snd L)) scalar).1
  = map (fun k =>
           Pair (mkCircuit n
                   (fold_left (fun w b => w - box_dom b + box_cod b)
                              (map fst L) n)
                   (map fst (drop_scalars (Datatypes.S k) L))
                   (map snd (drop_scalars (Datatypes.S k) L)))
                (fold_left mul (take (Datatypes.S k) vs) scalar))
        (seq 0 (length vs)).
Proof.
  induction vs as [|v vs IH]; intros L n c fuel scalar HL Hvs Hfuel;
    (destruct fuel as [|fuel]; [cbn in Hfuel; lia|]); cbn [scalars_loop].
  - destruct (first_scalar L)
      as [Hnone | (pre & l & post & -> & Hpre & Hl)].
    + unfold remove_scalars. cbn [boxes].
      rewrite remove_scalars_from_none by now apply Forall_map.
      reflexivity.
    + apply Forall_app in HL as [_ HL].
      apply List.Forall_cons_iff in HL as [Hv _].
      destruct (Hv Hl) as [v Hv'].
      rewrite map_app, scalars_of_app in Hvs. cbn [map] in Hvs.
      change (?b :: ?bs) with ([b] ++ bs)%list in Hvs.
      rewrite scalars_of_app in Hvs. unfold scalars_of at 2 in Hvs.
      cbn [flat_map] in Hvs. rewrite Hv' in Hvs.
      destruct (scalars_of (map fst pre)); discriminate.
  - destruct (first_scalar L)
      as [Hnone | (pre & l & post & -> & Hpre & Hl)].
    { rewrite (scalars_of_none _ Hnone) in Hvs. discriminate. }
    pose proof HL as HL'.
    apply Forall_app in HL as [HLpre HL].
    apply List.Forall_cons_iff in HL as [Hv HLpost].
    destruct (Hv Hl) as [v' Hv'].
    rewrite map_app, scalars_of_app, (scalars_of_none _ Hpre) in Hvs.
    cbn [map app] in Hvs.
    change (?b :: ?bs) with ([b] ++ bs)%list in Hvs.
    rewrite scalars_of_app in Hvs. unfold scalars_of at 1 in Hvs.
    cbn [flat_map] in Hvs. rewrite Hv' in Hvs. cbn [app] in Hvs.
    injection Hvs as -> Hvs.
    rewrite (remove_first_scalar n c pre l post v Hpre Hv').
    specialize (IH (pre ++ post)%list n
                  (fold_left (fun w b => w - box_dom b + box_cod b)
                             (map fst (pre ++ l :: post)) n)
                  fuel (mul scalar v)).
    destruct (scalars_loop fuel _ (mul scalar v)) as [ys r].
    cbn [fst] in *. rewrite IH; cycle 1.
    { apply Forall_app. now split. }
    { now rewrite map_app, scalars_of_app, (scalars_of_none _ Hpre). }
    { cbn in Hfuel. lia. }
    cbn [length seq map]. f_equal.
    + rewrite drop_scalars_app by exact Hpre. cbn [drop_scalars].
      rewrite Hl, drop_scalars_0. reflexivity.
    + rewrite <- seq_shift, map_map. apply map_ext. intros k.
      rewrite (width_without_scalar pre l post n Hl).
      rewrite !drop_scalars_app by exact Hpre.
      cbn [drop_scalars]. rewrite Hl. reflexivity.
Qed.

(** X12: on any diagram whose boxes without wires are gates with an
    array, [normalize] yields once for each of them and nothing else: the
    k-th time the diagram without the first k such boxes, the other boxes
    and their offsets in the order they had, together with the product of
    the values of the boxes taken out. *)
Theorem normalize_removes_scalars (self : Circuit) (fuel : nat) :
  length (offsets self) = length (boxes self) ->
  Forall (fun b => zero_width b = true -> is_Some (scalar_value b))
         (boxes self) ->
  let layers := combine (boxes self) (offsets self) in
  let values := scalars_of (boxes self) in
  (normalize fuel self).1
  = map (fun k =>
           Pair (mkCircuit (dom self)
                   (width_at self (length (boxes self)))
                   (map fst (drop_scalars (Datatypes.S k) layers))
                   (map snd (drop_scalars (Datatypes.S k) layers)))
                (fold_left mul (take (Datatypes.S k) values) one))
        (seq 0 (length values)).
Proof.
  intros Hlen Hs layers values.
  destruct (combine_fst_snd (boxes self) (offsets self) (eq_sym Hlen))
    as [Hfst Hsnd]. fold layers in Hfst, Hsnd.
  assert (HL : Forall (fun l : Box * int =>
                         zero_width l.1 = true -> is_Some (scalar_value l.1))
                      layers).
  { apply List.Forall_forall. intros l Hin.
    assert (Hb : In l.1 (map fst layers)) by now apply List.in_map.
    rewrite Hfst in Hb. now apply (proj1 (List.Forall_forall _ _) Hs). }
  pose proof (scalars_loop_general values layers (dom self) (cod self)
                (Datatypes.S (length (boxes self))) one HL) as Hloop.
  rewrite Hfst, Hsnd in Hloop.
  assert (Hfuel : length values < Datatypes.S (length (boxes self))).
  { subst values. unfold scalars_of. clear.
    induction (boxes self) as [|b bs IH]; cbn; [lia|].
    rewrite length_app. destruct (scalar_value b); cbn; lia. }
  specialize (Hloop eq_refl Hfuel).
  unfold width_at. rewrite firstn_all.
  rewrite <- Hloop. unfold normalize.
  replace (mkCircuit (dom self) (cod self) (boxes self) (offsets self))
    with self by now destruct self.
  destruct (scalars_loop _ self one) as [ys [diagram|e]]; cbn [fst];
    [|reflexivity].
  destruct (foliation diagram) as [slices|e]; [|reflexivity].
  pose proof (kets_loop_yields_nothing fuel slices
                (flatten_tail diagram slices) 0%Z) as Hno.
  destruct (kets_loop _ _ _ _) as [ys' e]. cbn [fst] in *.
  subst ys'. now rewrite app_nil_r.
Qed.

End scalar_removal.

(** ** Cups and caps *)

Section cups_and_caps.
Context {N : Numeric}.
Import circuit.

Lemma cup_layers :
  cup = Ok (OfCircuit (mkCircuit 2 0 [CX; H; sqrt 2; Bra [0%Z; 0%Z]]
                                 [0%Z; 0%Z; 1%Z; 0%Z])).
Proof. reflexivity. Qed.

Lemma cups_loop_layers (n : nat) (len : nat) :
  forall (s : nat) (r : Circuit),
  s + len = n + 1 ->
  cod r = 2 * (n + 1 - s) ->
  cups_loop (seq s len) n
    (OfCircuit (mkCircuit 2 0 [CX; H; sqrt 2; Bra [0%Z; 0%Z]]
                          [0%Z; 0%Z; 1%Z; 0%Z]))
    (OfCircuit r)
  = Ok (OfCircuit
          (mkCircuit (dom r) 0
             (boxes r
                ++ concat (repeat [CX; H; sqrt 2; Bra [0%Z; 0%Z]] len))
             (offsets r
                ++ flat_map
                     (fun i => map (fun o => (o + Z.of_nat (n - i))%Z)
                                   [0%Z; 0%Z; 1%Z; 0%Z])
                     (seq s len)))).
Proof.
  induction len as [|len IH]; intros s r Hs Hr.
  - cbn. rewrite !app_nil_r. destruct r as [d c bs os]; cbn in *.
    do 3 f_equal. lia.
  - cbn [seq cups_loop tensor circuit_of].
    unfold then_, Diagram_then.
    cbn [circuit_of Diagram_tensor dom cod boxes offsets Id app map].
    unfold PRO_tensor. rewrite Hr.
    destruct (Nat.eqb_spec (2 * (n + 1 - s)) (n - s + 2 + (n - s)))
      as [_|Hne]; [|lia].
    cbn [Py.ret Py.bind]. rewrite IH by (cbn [cod]; lia).
    cbn [dom boxes offsets repeat concat flat_map].
    rewrite <- !app_assoc. reflexivity.
Qed.

(** X13: [Circuit.cups(left, right)] for [left = right = n] is the
    circuit from [2 * n] wires to none that consists of [n] cups, each
    the four boxes [CX], [H], [sqrt(2)], [Bra(0, 0)], placed from the
    middle outwards at the offsets [n - 1], ..., [0].  The lengths are
    compared only through the composition: when [left] has no wire the
    result is the identity on [right], and otherwise different lengths
    raise [AxiomError]. *)
Theorem cups_layers (left right n : nat) :
  cups n n
  = Ok (OfCircuit
          (mkCircuit (n + n) 0
             (concat (repeat [CX; H; sqrt 2; Bra [0%Z; 0%Z]] n))
             (flat_map
                (fun i => map (fun o => (o + Z.of_nat (n - i))%Z)
                              [0%Z; 0%Z; 1%Z; 0%Z])
                (seq 1 n))))
  /\ cups 0 right = Ok (OfCircuit (Id right))
  /\ (0 < left -> left <> right -> cups left right = Error Py.AxiomError).
Proof.
  split; [|split].
  - unfold cups. rewrite cup_layers. cbn [Py.bind].
    rewrite (cups_loop_layers n n 1 (Id (PRO_tensor n n)));
      [reflexivity | lia | cbn; unfold PRO_tensor; lia].
  - reflexivity.
  - intros Hl Hne. unfold cups. rewrite cup_layers. cbn [Py.bind].
    destruct left as [|left]; [lia|].
    cbn [seq cups_loop tensor circuit_of].
    unfold then_, Diagram_then.
    cbn [circuit_of Diagram_tensor dom cod boxes offsets Id].
    unfold PRO_tensor.
    destruct (Nat.eqb_spec (Datatypes.S left + right)
                (Datatypes.S left - 1 + 2 + (Datatypes.S left - 1)))
      as [E|_]; [lia | reflexivity].
Qed.

Lemma daggers_caps (n : nat) :
  daggers (concat (repeat [Bra [0%Z; 0%Z]; sqrt 2; H; CX] n))
  = Ok (concat (repeat [Ket [0%Z; 0%Z]; sqrt 2; H; CX] n)).
Proof.
  induction n as [|n IH]; [reflexivity|].
  cbn [repeat concat app daggers]. cbn [dagger Py.bind Py.ret].
  change (dagger (sqrt 2)) with (@Py.ret Box (sqrt 2)).
  change (dagger H) with (@Py.ret Box H).
  change (dagger CX) with (@Py.ret Box CX).
  cbn [Py.bind Py.ret]. now rewrite IH.
Qed.

Lemma rev_concat_repeat {A} (l : list A) (n : nat) :
  rev (concat (repeat l n)) = concat (repeat (rev l) n).
Proof.
  induction n as [|n IH]; [reflexivity|].
  cbn [repeat concat]. rewrite rev_app_distr, IH.
  clear. induction n as [|n IH]; cbn [repeat concat].
  - now rewrite app_nil_r.
  - now rewrite <- app_assoc, IH.
Qed.

(** X14: [Circuit.caps(left, right)] for [left = right = n] is the
    circuit from no wire to [2 * n] that reads [Circuit.cups] backwards:
    [n] caps, each the four boxes [Ket(0, 0)], [sqrt(2)], [H], [CX], at
    the offsets of the cups in reverse order.  It fails as [Circuit.cups]
    does. *)
Theorem caps_layers (left right n : nat) :
  caps n n
  = Ok (mkCircuit 0 (n + n)
          (concat (repeat [Ket [0%Z; 0%Z]; sqrt 2; H; CX] n))
          (rev (flat_map
                  (fun i => map (fun o => (o + Z.of_nat (n - i))%Z)
                                [0%Z; 0%Z; 1%Z; 0%Z])
                  (seq 1 n))))
  /\ caps 0 right = Ok (Id right)
  /\ (0 < left -> left <> right -> caps left right = Error Py.AxiomError).
Proof.
  split; [|split].
  - unfold caps, cups. rewrite cup_layers. cbn [Py.bind].
    rewrite (cups_loop_layers n n 1 (Id (PRO_tensor n n)));
      [|lia | cbn; unfold PRO_tensor; lia].
    cbn [Py.bind circuit_of]. unfold Diagram_dagger.
    cbn [boxes offsets dom cod Id app].
    rewrite rev_concat_repeat. cbn [rev app].
    rewrite daggers_caps. reflexivity.
  - reflexivity.
  - intros Hl Hne. unfold caps, cups. rewrite cup_layers. cbn [Py.bind].
    destruct left as [|left]; [lia|].
    cbn [seq cups_loop tensor circuit_of].
    unfold then_, Diagram_then.
    cbn [circuit_of Diagram_tensor dom cod boxes offsets Id].
    unfold PRO_tensor.
    destruct (Nat.eqb_spec (Datatypes.S left + right)
                (Datatypes.S left - 1 + 2 + (Datatypes.S left - 1)))
      as [E|_]; [lia | reflexivity].
Qed.

End cups_and_caps.

(** ** What [from_tk] of [discopy/tk.py] returns *)

Section tk_reverse_translation.
Context {N : Numeric} {QB : tk.QuantumBase}.

Lemma from_tk_step_not_measure (tk_circuit : tk.TketCircuit)
    (circuit circuit' : tk.Circuit) (tk_gate : pytket.Command) :
  tk.from_tk_step tk_circuit circuit tk_gate = Ok circuit' ->
  pytket.op_type tk_gate <> "Measure".
Proof.
  intros H E. unfold tk.from_tk_step in H.
  rewrite (box_from_tk_Measure _ E) in H. cbn [Py.bind] in H.
  destruct (Py.getitem (pytket.bits tk_gate) 0) as [b|]; cbn [Py.bind] in H;
    [|discriminate].
  destruct (bool_decide _); discriminate.
Qed.

Lemma from_tk_step_ordered (tk_circuit : tk.TketCircuit)
    (circuit circuit' : tk.Circuit) (tk_gate : pytket.Command)
    (q0 q1 : int) (rest : list int) :
  tk.from_tk_step tk_circuit circuit tk_gate = Ok circuit' ->
  pytket.qubits tk_gate = q0 :: q1 :: rest ->
  (q1 <= q0)%Z.
Proof.
  intros H Hq. destruct (Z.le_gt_cases q1 q0) as [|Hgt]; [assumption|].
  exfalso. unfold tk.from_tk_step in H.
  assert (Hm : tk.make_units_adjacent (tk.n_qubits tk_circuit)
                 (tk.n_bits tk_circuit) tk_gate
               = Error (Py.NameError "souce")).
  { unfold tk.make_units_adjacent. rewrite Hq.
    cbn [Py.getitem lookup list_lookup Py.bind tail].
    apply adjacent_loop_souce. lia. }
  rewrite Hm in H.
  destruct (tk.box_from_tk tk_gate) as [box|]; cbn [Py.bind] in H;
    [|discriminate].
  destruct box; cbn [Py.bind Py.ret] in H; try discriminate.
  destruct (Py.getitem (pytket.bits tk_gate) 0) as [b|]; cbn [Py.bind] in H;
    [|discriminate].
  destruct (bool_decide _); discriminate.
Qed.

(** X15: [from_tk] of [discopy/tk.py] never returns for a circuit with a
    measurement, for a circuit whose scalar is not 1, nor for a circuit
    with an instruction whose second qubit has a larger index than its
    first: when it returns a circuit there is no such thing. *)
Theorem from_tk_returns_only_if (tk_circuit : tk.TketCircuit)
    (circuit : tk.Circuit) :
  tk.from_tk tk_circuit = Ok circuit ->
  num_eqb (tk.scalar_ tk_circuit) one = true
  /\ Forall (fun tk_gate =>
               pytket.op_type tk_gate <> "Measure"
               /\ forall q0 q1 rest,
                    pytket.qubits tk_gate = q0 :: q1 :: rest ->
                    (q1 <= q0)%Z)
            (pytket.get_commands (tk.base tk_circuit)).
Proof.
  unfold tk.from_tk. set (start := tk.Id _).
  destruct (tk.from_tk_loop tk_circuit start _) as [c|] eqn:Hl;
    cbn [Py.bind]; [|discriminate].
  destruct (num_eqb _ one); [|discriminate]. intros _.
  split; [reflexivity|].
  revert Hl. generalize start. clear start.
  induction (pytket.get_commands (tk.base tk_circuit)) as [|g gs IH];
    intros start; [constructor|].
  cbn [tk.from_tk_loop].
  destruct (tk.from_tk_step tk_circuit start g) as [c'|] eqn:Hs;
    cbn [Py.bind]; [|discriminate].
  intros Hl. constructor; [|now apply (IH c')].
  split.
  - eapply from_tk_step_not_measure, Hs.
  - intros q0 q1 rest Hq. eapply from_tk_step_ordered; eassumption.
Qed.

Lemma wire_of_qubit (n m : nat) (q : nat) :
  q < n ->
  let t := (tk.pow tk.qubit n ++ tk.pow tk.bit m)%list in
  (take q t ++ tk.qubit :: drop (Datatypes.S q) t)%list = t.
Proof.
  intros Hq t. apply take_drop_middle. subst t.
  rewrite lookup_app_l by (unfold tk.pow; rewrite repeat_length; lia).
  now apply lookup_repeat.
Qed.

Lemma from_tk_step_one_qubit (tk_circuit : tk.TketCircuit)
    (circuit : tk.Circuit) (tk_gate : pytket.Command) (q : int)
    (box : tk.Box) :
  let t := (tk.pow tk.qubit (tk.n_qubits tk_circuit)
            ++ tk.pow tk.bit (tk.n_bits tk_circuit))%list in
  tk.Circuit_dagger (tk.Id t) = tk.Id t ->
  tk.cod circuit = t ->
  pytket.qubits tk_gate = [q] ->
  (0 <= q < Z.of_nat (tk.n_qubits tk_circuit))%Z ->
  tk.box_from_tk tk_gate = Ok box ->
  box <> tk.Measure ->
  tk.box_dom box = [tk.qubit] ->
  tk.box_cod box = [tk.qubit] ->
  tk.from_tk_step tk_circuit circuit tk_gate
  = Ok (tk.mkCircuit (tk.dom circuit) t
          (tk.layers circuit
             ++ [(take (Z.to_nat q) t, box,
                  drop (Datatypes.S (Z.to_nat q)) t)])).
Proof.
  intros t Hdag Hcod Hq Hrange Hbox Hm Hd Hc.
  pose proof (wire_of_qubit (tk.n_qubits tk_circuit)
                (tk.n_bits tk_circuit) (Z.to_nat q) ltac:(lia)) as Hw.
  cbn zeta in Hw. fold t in Hw.
  unfold tk.from_tk_step. rewrite Hbox. cbn [Py.bind].
  replace (match box with
           | tk.Measure => _
           | _ => Py.ret box
           end) with (@Py.ret tk.Box box) by (destruct box; congruence).
  cbn [Py.bind Py.ret].
  unfold tk.make_units_adjacent. rewrite Hq.
  cbn [Py.getitem lookup list_lookup Py.bind tail tk.adjacent_loop Py.ret
       fst snd].
  fold t. rewrite Hdag, Hcod, Hd.
  unfold tk.slice_to, tk.slice_from, tk.index_of.
  destruct (Z.ltb_spec q 0) as [?|_]; [lia|].
  destruct (Z.ltb_spec (q + Z.of_nat (length [tk.qubit])) 0) as [?|_];
    [cbn in *; lia|].
  replace (Z.to_nat (q + Z.of_nat (length [tk.qubit])))
    with (Datatypes.S (Z.to_nat q)) by (cbn; lia).
  assert (H1 : tk.then_ circuit (tk.Id t)
               = Ok (tk.mkCircuit (tk.dom circuit) t (tk.layers circuit))).
  { unfold tk.then_. cbn [tk.cod tk.dom tk.Id tk.layers].
    rewrite Hcod, bool_decide_eq_true_2 by reflexivity.
    now rewrite app_nil_r. }
  rewrite H1. cbn [Py.bind].
  assert (H2 : tk.then_
                 (tk.mkCircuit (tk.dom circuit) t (tk.layers circuit))
                 (tk.tensor
                    (tk.tensor (tk.Id (take (Z.to_nat q) t))
                               (tk.of_box box))
                    (tk.Id (drop (Datatypes.S (Z.to_nat q)) t)))
               = Ok (tk.mkCircuit (tk.dom circuit) t
                       (tk.layers circuit
                          ++ [(take (Z.to_nat q) t, box,
                               drop (Datatypes.S (Z.to_nat q)) t)]))).
  { unfold tk.then_.
    cbn [tk.cod tk.dom tk.Id tk.tensor tk.of_box tk.layers map app fst
         snd].
    rewrite Hd, Hc, <- !app_assoc. cbn [app].
    rewrite Hw, bool_decide_eq_true_2 by reflexivity.
    now rewrite !app_nil_r. }
  rewrite H2. cbn [Py.bind]. unfold tk.then_.
  cbn [tk.cod tk.dom tk.layers tk.Id].
  rewrite bool_decide_eq_true_2 by reflexivity.
  now rewrite !app_nil_r.
Qed.

(** X16: when the dagger of an identity is that identity, [from_tk] of
    [discopy/tk.py] translates a circuit with scalar 1 whose instructions
    each act on one qubit of the register and are not measurements into
    one layer for each instruction, in order: the box of the instruction
    between the wires before its qubit and the wires after it. *)
Theorem from_tk_one_qubit_layers (tk_circuit : tk.TketCircuit) :
  let t := (tk.pow tk.qubit (tk.n_qubits tk_circuit)
            ++ tk.pow tk.bit (tk.n_bits tk_circuit))%list in
  tk.Circuit_dagger (tk.Id t) = tk.Id t ->
  num_eqb (tk.scalar_ tk_circuit) one = true ->
  Forall (fun tk_gate =>
            exists q box,
              pytket.qubits tk_gate = [q]
              /\ (0 <= q < Z.of_nat (tk.n_qubits tk_circuit))%Z
              /\ tk.box_from_tk tk_gate = Ok box
              /\ box <> tk.Measure
              /\ tk.box_dom box = [tk.qubit]
              /\ tk.box_cod box = [tk.qubit])
         (pytket.get_commands (tk.base tk_circuit)) ->
  exists circuit,
    tk.from_tk tk_circuit = Ok circuit
    /\ tk.dom circuit = t /\ tk.cod circuit = t
    /\ Forall2 (fun tk_gate layer =>
                  exists q box,
                    pytket.qubits tk_gate = [q]
                    /\ tk.box_from_tk tk_gate = Ok box
                    /\ layer = (take (Z.to_nat q) t, box,
                                drop (Datatypes.S (Z.to_nat q)) t))
               (pytket.get_commands (tk.base tk_circuit))
               (tk.layers circuit).
Proof.
  intros t Hdag Hscalar Hall. unfold tk.from_tk. fold t.
  rewrite Hscalar.
  assert (Hloop : forall gs start,
             Forall (fun tk_gate =>
                       exists q box,
                         pytket.qubits tk_gate = [q]
                         /\ (0 <= q < Z.of_nat (tk.n_qubits tk_circuit))%Z
                         /\ tk.box_from_tk tk_gate = Ok box
                         /\ box <> tk.Measure
                         /\ tk.box_dom box = [tk.qubit]
                         /\ tk.box_cod box = [tk.qubit]) gs ->
             tk.cod start = t ->
             exists ls,
               tk.from_tk_loop tk_circuit start gs
               = Ok (tk.mkCircuit (tk.dom start) t (tk.layers start ++ ls))
               /\ Forall2 (fun tk_gate layer =>
                             exists q box,
                               pytket.qubits tk_gate = [q]
                               /\ tk.box_from_tk tk_gate = Ok box
                               /\ layer = (take (Z.to_nat q) t, box,
                                           drop (Datatypes.S (Z.to_nat q)) t))
                          gs ls).
  { induction gs as [|g gs IH]; intros start Hgs Hcod.
    - exists []. split; [|constructor]. cbn. rewrite app_nil_r.
      destruct start; cbn in *. now subst.
    - apply List.Forall_cons_iff in Hgs as [Hg Hgs].
      destruct Hg as (q & box & Hq & Hr & Hb & Hm & Hd & Hc).
      cbn [tk.from_tk_loop].
      rewrite (from_tk_step_one_qubit tk_circuit start g q box
                 Hdag Hcod Hq Hr Hb Hm Hd Hc).
      cbn [Py.bind].
      destruct (IH (tk.mkCircuit (tk.dom start) t
                      (tk.layers start
                         ++ [(take (Z.to_nat q) t, box,
                              drop (Datatypes.S (Z.to_nat q)) t)]))
                  Hgs eq_refl) as (ls & Hl & Hf).
      eexists. split.
      + etransitivity; [apply Hl|]. cbn [tk.dom tk.layers].
        rewrite <- app_assoc. reflexivity.
      + constructor; [|exact Hf]. exists q, box. auto. }
  destruct (Hloop _ (tk.Id t) Hall eq_refl) as (ls & -> & Hf).
  cbn [Py.bind]. eexists. split; [reflexivity|].
  cbn. auto.
Qed.

Lemma add_gate_items (qubits : list int) (offset : nat) (js : list nat) :
  (fix items (js : list nat) : Py.M (list int) :=
     match js with
     | [] => Py.ret []
     | j :: js' =>
         let* q := Py.getitem qubits (offset + j) in
         let* qs := items js' in
         Py.ret (q :: qs)
     end) js
  = match mapM (fun j => qubits !! (offset + j)) js with
    | Some qs => Ok qs
    | None => Error Py.IndexError
    end.
Proof.
  induction js as [|j js IH]; [reflexivity|].
  rewrite IH. cbn [mapM]. unfold Py.getitem.
  destruct (qubits !! (offset + j)); cbn; [|reflexivity].
  destruct (mapM _ js); reflexivity.
Qed.

Lemma add_gate_items_take (qubits : list int) (offset k : nat) :
  offset + k <= length qubits ->
  mapM (fun j => qubits !! (offset + j)) (seq 0 k)
  = Some (take k (drop offset qubits)).
Proof.
  intros Hlen. apply mapM_Some. apply Forall2_same_length_lookup. split.
  - rewrite length_seq, length_take, length_drop. lia.
  - intros i j q Hj Hq. apply lookup_seq in Hj as [-> Hi].
    rewrite lookup_take, lookup_drop in Hq.
    destruct (decide (i < k)); [exact Hq | lia].
Qed.

Lemma add_gate_named (tk_circ : tk.TketCircuit) (qubits : list int)
    (left right : tk.Ty) (name : string) (k : nat) :
  count_occ tk.Ob_eq_dec left tk.qubit + k <= length qubits ->
  tk.add_gate tk_circ qubits left (tk.QuantumGate name k) right
  = if pytket.hasattr name
    then Ok (with_command tk_circ
               (pytket.mkCommand name []
                  (take k (drop (count_occ tk.Ob_eq_dec left tk.qubit)
                                qubits)) []))
    else Error Py.NotImplementedError.
Proof.
  intros Hlen. unfold tk.add_gate. rewrite add_gate_items.
  cbn [tk.box_dom tk.name]. unfold tk.pow. rewrite repeat_length.
  rewrite (add_gate_items_take _ _ _ Hlen). cbn [Py.bind].
  destruct (pytket.hasattr name) eqn:Hh; [|reflexivity].
  unfold tk.call, pytket.call. rewrite Hh. reflexivity.
Qed.


End tk_reverse_translation.

(** ** Renaming the units of a [TketCircuit] *)

Section tk_renaming.
Context {N : Numeric}.

Lemma NoDup_map_injective {A B} (f : A -> B) (l : list A) (a b : A) :
  NoDup (map f l) -> In a l -> In b l -> f a = f b -> a = b.
Proof.
  induction l as [|x l IH]; [intros _ []|].
  cbn [map]. intros Hnd Ha Hb Hf.
  apply NoDup_cons in Hnd as [Hx Hnd]. rewrite list_elem_of_In in Hx.
  destruct Ha as [<- | Ha], Hb as [<- | Hb]; auto.
  - elim Hx. rewrite Hf. now apply List.in_map.
  - elim Hx. rewrite <- Hf. now apply List.in_map.
Qed.

Lemma post_selection_renaming_lookup (ps : gmap BinNums.Z BinNums.Z)
    (olds : list (tk.UnitID * tk.UnitID)) :
  forall (acc : gmap BinNums.Z BinNums.Z) (k : int),
  NoDup (map (fun item => tk.index item.2) olds) ->
  Forall (fun item => is_Some (ps !! tk.index item.1)) olds ->
  fold_left
    (fun m item =>
       match ps !! tk.index item.1 with
       | Some value => <[tk.index item.2 := value]> m
       | None => m
       end)
    olds acc !! k
  = match find (fun item => bool_decide (tk.index item.2 = k)) olds with
    | Some item => ps !! tk.index item.1
    | None => acc !! k
    end.
Proof.
  induction olds as [|it olds IH]; intros acc k Hnd Hall; [reflexivity|].
  cbn [map] in Hnd. apply NoDup_cons in Hnd as [Hit Hnd].
  rewrite list_elem_of_In in Hit.
  apply List.Forall_cons_iff in Hall as [[v Hv] Hall].
  cbn [fold_left find]. rewrite Hv, (IH _ _ Hnd Hall).
  destruct (bool_decide_reflect (tk.index it.2 = k)) as [<-|Hne].
  - destruct (find _ olds) as [it'|] eqn:Hf.
    + apply List.find_some in Hf as [Hin Hk].
      apply bool_decide_eq_true in Hk. elim Hit. rewrite <- Hk.
      now apply (List.in_map (fun item => tk.index item.2)).
    + now rewrite lookup_insert_eq.
  - destruct (find _ olds); [reflexivity|].
    now rewrite lookup_insert_ne.
Qed.

Lemma deleted_lookup (olds : list (tk.UnitID * tk.UnitID)) :
  forall (m : gmap BinNums.Z BinNums.Z) (k : int),
  fold_left (fun m item => delete (tk.index item.1) m) olds m !! k
  = if existsb (fun item => bool_decide (tk.index item.1 = k)) olds
    then None else m !! k.
Proof.
  induction olds as [|it olds IH]; intros m k; [reflexivity|].
  cbn [fold_left existsb]. rewrite IH.
  destruct (bool_decide_reflect (tk.index it.1 = k)) as [<-|Hne];
    cbn [orb].
  - destruct (existsb _ olds); [reflexivity|]. apply lookup_delete_eq.
  - destruct (existsb _ olds); [reflexivity|]. now apply lookup_delete_ne.
Qed.

Lemma bits_to_rename_In (self : tk.TketCircuit)
    (renaming : list (tk.UnitID * tk.UnitID)) (item : tk.UnitID * tk.UnitID) :
  In item (tk.bits_to_rename self renaming)
  <-> In item renaming
      /\ exists i, item.1 = tk.Bit i
                   /\ is_Some (tk.post_selection self !! i).
Proof.
  unfold tk.bits_to_rename. rewrite List.filter_In.
  destruct item as [[i|i] new]; cbn [fst].
  - split; [intros [_ [=]] | intros [_ (i' & [=] & _)]].
  - rewrite bool_decide_eq_true. split.
    + intros [Hin Hs]. split; [exact Hin|]. now exists i.
    + intros [Hin (i' & [= <-] & Hs)]. now split.
Qed.

(** X18: [TketCircuit.rename_units] carries the post-selection along with
    the bits: when no two post-selected bits are renamed to the same
    index, the value expected of a renamed bit is found under its new
    index afterwards; an index that no post-selected bit is renamed to
    loses its entry if it is renamed itself and keeps it if it is not.
    The scalar stays as it is. *)
Theorem rename_units_post_selection (self : tk.TketCircuit)
    (renaming : list (tk.UnitID * tk.UnitID)) :
  NoDup (map (fun item => tk.index item.2)
             (tk.bits_to_rename self renaming)) ->
  let result := tk.rename_units self renaming in
  (forall i new value,
     In (tk.Bit i, new) renaming ->
     tk.post_selection self !! i = Some value ->
     tk.post_selection result !! tk.index new = Some value)
  /\ (forall k,
        (forall i new, In (tk.Bit i, new) renaming ->
           is_Some (tk.post_selection self !! i) -> tk.index new <> k) ->
        ((exists new, In (tk.Bit k, new) renaming) ->
         tk.post_selection result !! k = None)
        /\ ((forall new, ~ In (tk.Bit k, new) renaming) ->
            tk.post_selection result !! k = tk.post_selection self !! k))
  /\ tk.scalar_ result = tk.scalar_ self.
Proof.
  intros Hnd result. subst result. unfold tk.rename_units.
  cbn [tk.post_selection tk.scalar_].
  set (olds := tk.bits_to_rename self renaming) in *.
  assert (Hall : Forall (fun item =>
                           is_Some (tk.post_selection self
                                    !! tk.index item.1)) olds).
  { apply List.Forall_forall. intros item Hin.
    apply bits_to_rename_In in Hin as [_ (i & -> & Hs)]. exact Hs. }
  split; [|split; [|reflexivity]].
  - intros i new value Hin Hv.
    assert (Ho : In (tk.Bit i, new) olds).
    { apply bits_to_rename_In. split; [exact Hin|].
      exists i. split; [reflexivity | now rewrite Hv]. }
    apply lookup_union_Some_l.
    rewrite (post_selection_renaming_lookup _ _ _ _ Hnd Hall).
    destruct (find _ olds) as [it|] eqn:Hf.
    + apply List.find_some in Hf as [Hit Hk].
      apply bool_decide_eq_true in Hk.
      assert (it = (tk.Bit i, new))
        by (eapply (NoDup_map_injective _ _ _ _ Hnd); eassumption).
      now subst it.
    + eapply List.find_none in Hf; [|exact Ho].
      cbn [snd] in Hf. now rewrite bool_decide_eq_true_2 in Hf.
  - intros k Hk.
    assert (Hp : fold_left
                   (fun m item =>
                      match tk.post_selection self !! tk.index item.1 with
                      | Some value => <[tk.index item.2 := value]> m
                      | None => m
                      end)
                   olds (∅ : gmap BinNums.Z BinNums.Z) !! k = None).
    { rewrite (post_selection_renaming_lookup _ _ _ _ Hnd Hall).
      destruct (find _ olds) as [it|] eqn:Hf; [|apply lookup_empty].
      apply List.find_some in Hf as [Hit Hk'].
      apply bool_decide_eq_true in Hk'.
      apply bits_to_rename_In in Hit as [Hin (i & Hi & Hs)].
      destruct it as [old new]. cbn [fst snd] in *. subst old.
      now elim (Hk i new Hin Hs). }
    rewrite (lookup_union_r _ _ _ Hp), deleted_lookup.
    split.
    + intros [new Hin].
      destruct (existsb _ olds) eqn:Hex; [reflexivity|].
      destruct (tk.post_selection self !! k) as [v|] eqn:Hv;
        [|reflexivity].
      assert (Ho : In (tk.Bit k, new) olds).
      { apply bits_to_rename_In. split; [exact Hin|].
        exists k. split; [reflexivity | now rewrite Hv]. }
      assert (Ht : existsb
                     (fun item => bool_decide (tk.index item.1 = k)) olds
                   = true).
      { apply List.existsb_exists. exists (tk.Bit k, new).
        split; [exact Ho|]. now apply bool_decide_eq_true_2. }
      congruence.
    + intros Hnot.
      destruct (existsb _ olds) eqn:Hex; [|reflexivity].
      apply List.existsb_exists in Hex as (it & Hit & Hk').
      apply bool_decide_eq_true in Hk'.
      apply bits_to_rename_In in Hit as [Hin (i & Hi & _)].
      destruct it as [old new]. cbn [fst snd] in *. subst old.
      cbn in Hk'. subst i. now elim (Hnot new).
Qed.

End tk_renaming.

(** ** From circuits to pytket in [discopy/tk.py] *)

Section tk_forward_translation.
Context {N : Numeric} {GA : tk.GateArrays}.

Lemma measure_qubits_loop_Bra (qubits : list int) (left right : tk.Ty)
    (bs : list int) (len : nat) :
  forall (s nq n0 : nat) (cmds : list pytket.Command)
         (ps0 : gmap BinNums.Z BinNums.Z) (sc : num) (bits : list int),
  count_occ tk.Ob_eq_dec left tk.qubit + s + len <= length qubits ->
  s + len <= length bs ->
  exists ps,
    tk.measure_qubits_loop (seq s len)
      (tk.mkTketCircuit (pytket.mkCircuit nq n0 cmds) ps0 sc)
      qubits bits left (tk.Bra bs) right
    = Ok (tk.mkTketCircuit
            (pytket.mkCircuit nq (n0 + len)
               (cmds
                ++ map (fun j =>
                          pytket.mkCommand "Measure" []
                            [nth (count_occ tk.Ob_eq_dec left tk.qubit
                                  + s + j) qubits 0%Z]
                            [Z.of_nat (n0 + j)])
                       (seq 0 len)))
            ps sc, bits)
    /\ forall b : int,
         ps !! b
         = if bool_decide (Z.of_nat n0 <= b < Z.of_nat (n0 + len))%Z
           then bs !! (s + Z.to_nat (b - Z.of_nat n0))
           else ps0 !! b.
Proof.
  induction len as [|len IH]; intros s nq n0 cmds ps0 sc bits Hq Hb.
  - exists ps0. cbn. rewrite Nat.add_0_r, app_nil_r. split; [reflexivity|].
    intros b. rewrite bool_decide_eq_false_2 by lia. reflexivity.
  - cbn [seq tk.measure_qubits_loop].
    destruct (lookup_lt_is_Some_2 qubits
                (count_occ tk.Ob_eq_dec left tk.qubit + s)) as [q Hq'];
      [lia|].
    destruct (lookup_lt_is_Some_2 bs s) as [v Hv]; [lia|].
    unfold Py.getitem at 1. rewrite Hq'. cbn [Py.bind].
    unfold tk.call, pytket.call.
    change (pytket.hasattr "Measure") with true.
    cbn [Py.bind Py.ret tk.add_bit tk.base tk.n_qubits tk.n_bits
         tk.post_selection tk.scalar_ pytket.n_qubits pytket.n_bits
         pytket.commands].
    unfold Py.getitem at 1. rewrite Hv. cbn [Py.bind Py.ret].
    unfold tk.post_select.
    cbn [tk.base tk.post_selection tk.scalar_].
    destruct (IH (Datatypes.S s) nq (n0 + 1)
                (cmds ++ [pytket.mkCommand "Measure" [] [q]
                            [Z.of_nat n0]])%list
                ({[Z.of_nat n0 := v]} ∪ ps0) sc bits)
      as (ps & Hloop & Hps); [lia | lia |].
    exists ps. split.
    + rewrite Hloop. replace (n0 + 1 + len) with (n0 + Datatypes.S len)
        by lia.
      rewrite <- app_assoc. cbn [app seq map].
      rewrite <- seq_shift, map_map, !Nat.add_0_r, nth_lookup, Hq'.
      cbn [default]. do 6 f_equal. apply map_ext. intros j.
      replace (count_occ tk.Ob_eq_dec left tk.qubit + Datatypes.S s + j)
        with (count_occ tk.Ob_eq_dec left tk.qubit + s + Datatypes.S j)
        by lia.
      replace (n0 + 1 + j) with (n0 + Datatypes.S j) by lia.
      reflexivity.
    + intros b. rewrite Hps.
      destruct (decide (b = Z.of_nat n0)) as [->|Hne].
      * rewrite bool_decide_eq_false_2 by lia.
        rewrite bool_decide_eq_true_2 by lia.
        rewrite Z.sub_diag. change (Z.to_nat 0) with 0.
        rewrite Nat.add_0_r, Hv.
        apply lookup_union_Some_l, lookup_singleton_eq.
      * rewrite lookup_union_r by now apply lookup_singleton_ne.
        destruct (decide (Z.of_nat (n0 + 1) <= b
                          < Z.of_nat (n0 + 1 + len))%Z) as [Hin|Hout].
        -- rewrite !bool_decide_eq_true_2 by lia. f_equal. lia.
        -- rewrite !bool_decide_eq_false_2 by lia. reflexivity.
Qed.

(** X19: [measure_qubits] of [to_tk].  For an effect [Bra(bs)] it adds,
    for each of its wires in turn, a fresh bit and a [Measure] of the
    qubit found at that wire onto the bit, and records the bit of [bs] as
    the value expected of it; the list of bits is returned as it was.  For
    a [Measure] box it adds the bit and the instruction, records no
    expected value, and puts the bit into the list of bits. *)
Theorem measure_qubits_effect (tk_circ : tk.TketCircuit)
    (qubits bits : list int) (left right : tk.Ty) (bs : list int) :
  let offset := count_occ tk.Ob_eq_dec left tk.qubit in
  (offset + length bs <= length qubits ->
   exists tk_circ',
     tk.measure_qubits tk_circ qubits bits left (tk.Bra bs) right
     = Ok (tk_circ', bits)
     /\ tk.base tk_circ'
        = pytket.mkCircuit (tk.n_qubits tk_circ)
            (tk.n_bits tk_circ + length bs)
            (pytket.commands (tk.base tk_circ)
             ++ map (fun j =>
                       pytket.mkCommand "Measure" []
                         [nth (offset + j) qubits 0%Z]
                         [Z.of_nat (tk.n_bits tk_circ + j)])
                    (seq 0 (length bs)))
     /\ tk.scalar_ tk_circ' = tk.scalar_ tk_circ
     /\ forall b : int,
          tk.post_selection tk_circ' !! b
          = if bool_decide
                 (Z.of_nat (tk.n_bits tk_circ) <= b
                  < Z.of_nat (tk.n_bits tk_circ + length bs))%Z
            then bs !! Z.to_nat (b - Z.of_nat (tk.n_bits tk_circ))
            else tk.post_selection tk_circ !! b)
  /\ (offset < length qubits ->
      tk.measure_qubits tk_circ qubits bits left tk.Measure right
      = Ok (tk.mkTketCircuit
              (pytket.mkCircuit (tk.n_qubits tk_circ)
                 (tk.n_bits tk_circ + 1)
                 (pytket.commands (tk.base tk_circ)
                  ++ [pytket.mkCommand "Measure" []
                        [nth offset qubits 0%Z]
                        [Z.of_nat (tk.n_bits tk_circ)]]))
              (tk.post_selection tk_circ) (tk.scalar_ tk_circ),
            (take (count_occ tk.Ob_eq_dec left tk.bit) bits
             ++ [Z.of_nat (tk.n_bits tk_circ)]
             ++ tk.last_items bits
                  (count_occ tk.Ob_eq_dec right tk.bit))%list)).
Proof.
  intros offset. split.
  - intros Hlen. unfold tk.measure_qubits. cbn [tk.box_dom].
    unfold tk.pow. rewrite repeat_length.
    destruct tk_circ as [[nq n0 cmds] ps0 sc].
    destruct (measure_qubits_loop_Bra qubits left right bs (length bs)
                0 nq n0 cmds ps0 sc bits) as (ps & Hloop & Hps).
    { fold offset. lia. }
    { lia. }
    eexists. split; [exact Hloop|].
    cbn [tk.base tk.scalar_ tk.post_selection tk.n_qubits tk.n_bits
         pytket.n_qubits pytket.n_bits pytket.commands].
    fold offset. split; [|split; [reflexivity | exact Hps]].
    do 2 f_equal. apply map_ext. intros j. now rewrite Nat.add_0_r.
  - intros Hlen. unfold tk.measure_qubits.
    cbn [tk.box_dom length seq tk.measure_qubits_loop].
    fold offset.
    destruct (lookup_lt_is_Some_2 qubits offset) as [q Hq]; [lia|].
    unfold Py.getitem. rewrite Nat.add_0_r, Hq. cbn [Py.bind].
    unfold tk.call, pytket.call.
    change (pytket.hasattr "Measure") with true.
    cbn [Py.bind Py.ret tk.add_bit tk.base tk.n_qubits tk.n_bits
         tk.post_selection tk.scalar_ pytket.n_qubits pytket.n_bits
         pytket.commands].
    now rewrite nth_lookup, Hq, Nat.add_0_r.
Qed.

Lemma widen_flip_layers (n : nat) (ps : list (nat * int)) :
  Forall (fun p => p.1 < n) ps ->
  map (fun l : tk.Ty * tk.Box * tk.Ty =>
         (l.1.1, l.1.2, (l.2 ++ [tk.qubit])%list))
      (flat_map
         (fun p : nat * int =>
            if (p.2 =? 0)%Z then []
            else [(tk.pow tk.qubit p.1, tk.X,
                   tk.pow tk.qubit (n - 1 - p.1))]) ps)
  = flat_map
      (fun p : nat * int =>
         if (p.2 =? 0)%Z then []
         else [(tk.pow tk.qubit p.1, tk.X,
                tk.pow tk.qubit (Datatypes.S n - 1 - p.1))]) ps.
Proof.
  induction 1 as [|p ps Hp _ IH]; [reflexivity|].
  cbn [flat_map]. rewrite map_app, IH. f_equal.
  destruct (p.2 =? 0)%Z; [reflexivity|]. cbn [map fst snd].
  unfold tk.pow. rewrite <- repeat_cons.
  replace (Datatypes.S n - 1 - p.1) with (Datatypes.S (n - 1 - p.1))
    by lia.
  reflexivity.
Qed.

Lemma combine_snoc {A B} (l : list A) (k : list B) (a : A) (b : B) :
  length l = length k ->
  combine (l ++ [a]) (k ++ [b]) = (combine l k ++ [(a, b)])%list.
Proof.
  revert k. induction l as [|x l IH]; intros [|y k]; cbn;
    try discriminate; [reflexivity|].
  intros [= E]. now rewrite IH.
Qed.

Lemma x_gates_layers (x : list int) :
  tk.dom (tk.x_gates x) = tk.pow tk.qubit (length x)
  /\ tk.cod (tk.x_gates x) = tk.pow tk.qubit (length x)
  /\ tk.layers (tk.x_gates x) = flip_layers x.
Proof.
  induction x as [|b x (IH1 & IH2 & IH3)] using rev_ind;
    [repeat split|].
  unfold tk.x_gates. rewrite fold_left_app. cbn [fold_left].
  fold (tk.x_gates x). rewrite length_app. cbn [length].
  rewrite Nat.add_1_r.
  assert (Hcomb : combine (seq 0 (Datatypes.S (length x))) (x ++ [b])
                  = (combine (seq 0 (length x)) x
                     ++ [(length x, b)])%list).
  { rewrite seq_S. apply combine_snoc. now rewrite length_seq. }
  assert (Hlt : Forall (fun p : nat * int => p.1 < length x)
                       (combine (seq 0 (length x)) x)).
  { apply List.Forall_forall. intros [j v] Hin.
    apply in_combine_l, in_seq in Hin. cbn. lia. }
  unfold flip_layers. rewrite length_app. cbn [length].
  rewrite Nat.add_1_r, Hcomb, flat_map_app. cbn [flat_map fst snd].
  rewrite <- (widen_flip_layers _ _ Hlt). fold (flip_layers x).
  unfold tk.tensor. cbn [tk.dom tk.cod tk.layers].
  rewrite IH1, IH2, IH3.
  destruct (b =? 0)%Z;
    cbn [tk.dom tk.cod tk.layers tk.Id tk.of_box tk.box_dom tk.box_cod
         tk.X map app fst snd];
    unfold tk.pow; cbn [repeat]; rewrite <- !repeat_cons;
    (split; [reflexivity|]); (split; [reflexivity|]).
  - now rewrite !app_nil_r.
  - rewrite app_nil_r. do 3 f_equal.
    replace (Datatypes.S (length x) - 1 - length x) with 0 by lia.
    reflexivity.
Qed.

Lemma remove_ket1_Ket (x : list int) :
  tk.remove_ket1 (tk.Ket x)
  = Ok (tk.mkCircuit [] (tk.pow tk.qubit (length x))
          (([], tk.Ket (repeat 0%Z (length x)), []) :: flip_layers x)).
Proof.
  destruct (x_gates_layers x) as (H1 & H2 & H3).
  cbn [tk.remove_ket1]. unfold tk.then_.
  cbn [tk.cod tk.dom tk.of_box tk.box_cod tk.box_dom tk.layers].
  rewrite repeat_length, H1, H2, H3.
  now rewrite bool_decide_eq_true_2 by reflexivity.
Qed.

(** X20: [remove_ket1] of [to_tk] turns [Ket(x)] into the ket of as many
    zeros followed by an [X] on the wire of each bit of [x] other than 0,
    in the order of the bits, and leaves every other box as it is. *)
Theorem remove_ket1_flips (x : list int) (box : tk.Box) :
  tk.remove_ket1 (tk.Ket x)
  = Ok (tk.mkCircuit [] (tk.pow tk.qubit (length x))
          (([], tk.Ket (repeat 0%Z (length x)), []) :: flip_layers x))
  /\ ((forall y, box <> tk.Ket y) ->
      tk.remove_ket1 box = Ok (tk.of_box box)).
Proof.
  split; [apply remove_ket1_Ket|].
  intros Hb. destruct box; try reflexivity. now elim (Hb bitstring).
Qed.

Lemma lookup_range_from (a b : int) (i : nat) :
  i < Z.to_nat (b - a) -> Py.range a b !! i = Some (a + Z.of_nat i)%Z.
Proof.
  intros Hi. unfold Py.range.
  change (map ?f ?l) with (f <$> l). rewrite list_lookup_fmap.
  rewrite (proj2 (lookup_seq 0 _ i i)) by (split; [reflexivity | lia]).
  reflexivity.
Qed.

Lemma take_drop_range (a k n : nat) :
  a + k <= n ->
  take k (drop a (Py.range 0 (Z.of_nat n)))
  = Py.range (Z.of_nat a) (Z.of_nat a + Z.of_nat k).
Proof.
  intros H. apply list_eq. intros i. rewrite lookup_take, lookup_drop.
  destruct (decide (i < k)).
  - rewrite !lookup_range_from by lia. f_equal. lia.
  - symmetry. apply lookup_ge_None. unfold Py.range.
    rewrite length_map, length_seq. lia.
Qed.

Lemma range_one (a : int) : Py.range a (a + 1) = [a].
Proof.
  unfold Py.range. replace (Z.to_nat (a + 1 - a)) with 1 by lia.
  cbn. f_equal. lia.
Qed.

Lemma range_two (a : int) : Py.range a (a + 2) = [a; (a + 1)%Z].
Proof.
  unfold Py.range. replace (Z.to_nat (a + 2 - a)) with 2 by lia.
  cbn. f_equal. lia.
Qed.

Lemma gate_layer_left (n : nat) (layer : tk.Ty * tk.Box * tk.Ty) :
  gate_layer n layer ->
  count_occ tk.Ob_eq_dec layer.1.1 tk.qubit = length layer.1.1
  /\ length layer.1.1 + length (tk.box_dom layer.1.2) <= n
  /\ tk.box_cod layer.1.2 = tk.box_dom layer.1.2
  /\ forall y, layer.1.2 <> tk.Ket y.
Proof.
  intros [Hty Hbox]. split; [|split; [|split]].
  - symmetry in Hty. apply repeat_eq_app in Hty as [Hl _].
    rewrite <- Hl at 1. now apply count_occ_repeat_eq.
  - apply (f_equal (@length _)) in Hty.
    unfold tk.pow in Hty. rewrite !length_app, repeat_length in Hty. lia.
  - destruct layer.1.2; try contradiction; reflexivity.
  - intros y Hy. rewrite Hy in Hbox. exact Hbox.
Qed.

Lemma to_tk_layer_gate (n : nat) (layer : tk.Ty * tk.Box * tk.Ty)
    (nb : nat) (cmds : list pytket.Command)
    (ps : gmap BinNums.Z BinNums.Z) (sc : num) (bits : list int) :
  gate_layer n layer ->
  tk.to_tk_layer
    (tk.mkTketCircuit (pytket.mkCircuit n nb cmds) ps sc, bits,
     Py.range 0 (Z.of_nat n)) layer
  = Ok (tk.mkTketCircuit
          (pytket.mkCircuit n nb (cmds ++ layer_commands layer)) ps
          (fold_left mul (layer_scalars layer) sc),
        bits, Py.range 0 (Z.of_nat n)).
Proof.
  intros Hg. pose proof (gate_layer_left n layer Hg) as (Hc & Hlen & _).
  destruct Hg as [_ Hbox].
  assert (Hr : length (Py.range 0 (Z.of_nat n)) = n).
  { unfold Py.range. rewrite length_map, length_seq. lia. }
  destruct layer as [[left box] right]. cbn [fst snd] in *.
  unfold tk.to_tk_layer, layer_commands, layer_scalars. cbn [fst snd].
  destruct box as [| | |p|p|p|name [|k]|x]; try contradiction.
  - unfold tk.add_gate. rewrite add_gate_items. cbn [tk.box_dom length].
    rewrite Hc, add_gate_items_take by (rewrite Hr; exact Hlen).
    rewrite take_drop_range by exact Hlen.
    rewrite range_one. cbn [Py.bind]. cbn [tk.name].
    unfold tk.call, pytket.call. cbn. reflexivity.
  - unfold tk.add_gate. rewrite add_gate_items. cbn [tk.box_dom length].
    rewrite Hc, add_gate_items_take by (rewrite Hr; exact Hlen).
    rewrite take_drop_range by exact Hlen.
    rewrite range_one. cbn [Py.bind]. cbn [tk.name].
    unfold tk.call, pytket.call. cbn. reflexivity.
  - unfold tk.add_gate. rewrite add_gate_items. cbn [tk.box_dom length].
    rewrite Hc, add_gate_items_take by (rewrite Hr; exact Hlen).
    rewrite take_drop_range by exact Hlen.
    rewrite range_two. cbn [Py.bind]. cbn [tk.name].
    unfold tk.call, pytket.call. cbn. reflexivity.
  - cbn [tk.box_dom] in Hlen. unfold tk.pow in Hlen.
    rewrite repeat_length in Hlen.
    rewrite add_gate_named by (rewrite Hc, Hr; exact Hlen).
    rewrite Hbox, Hc, take_drop_range by exact Hlen. reflexivity.
  - cbn. now rewrite app_nil_r.
Qed.

Lemma to_tk_layers_app (l1 l2 : list (tk.Ty * tk.Box * tk.Ty))
    (state : tk.TketCircuit * list int * list int) :
  tk.to_tk_layers (l1 ++ l2) state
  = (let* state' := tk.to_tk_layers l1 state in
     tk.to_tk_layers l2 state').
Proof.
  revert state. induction l1 as [|l l1 IH]; intros state; [reflexivity|].
  cbn [app tk.to_tk_layers].
  destruct (tk.to_tk_layer state l); cbn [Py.bind]; [apply IH|reflexivity].
Qed.

Lemma to_tk_layers_gates (n : nat) (G : list (tk.Ty * tk.Box * tk.Ty)) :
  forall (nb : nat) (cmds : list pytket.Command)
         (ps : gmap BinNums.Z BinNums.Z) (sc : num) (bits : list int),
  Forall (gate_layer n) G ->
  tk.to_tk_layers G
    (tk.mkTketCircuit (pytket.mkCircuit n nb cmds) ps sc, bits,
     Py.range 0 (Z.of_nat n))
  = Ok (tk.mkTketCircuit
          (pytket.mkCircuit n nb (cmds ++ flat_map layer_commands G)) ps
          (fold_left mul (flat_map layer_scalars G) sc),
        bits, Py.range 0 (Z.of_nat n)).
Proof.
  induction G as [|layer G IH]; intros nb cmds ps sc bits HG.
  - cbn. now rewrite app_nil_r.
  - apply List.Forall_cons_iff in HG as [Hl HG].
    cbn [tk.to_tk_layers]. rewrite (to_tk_layer_gate n layer) by exact Hl.
    cbn [Py.bind]. rewrite IH by exact HG. cbn [flat_map].
    now rewrite fold_left_app, app_assoc.
Qed.

Lemma to_tk_layer_first_ket (n : nat) :
  tk.to_tk_layer (tk.TketCircuit_init 0 0, [], [])
                 ([], tk.Ket (repeat 0%Z n), [])
  = Ok (tk.mkTketCircuit (pytket.mkCircuit n 0 []) ∅ one, [],
        Py.range 0 (Z.of_nat n)).
Proof.
  unfold tk.to_tk_layer, tk.prepare_qubits, tk.rename_units.
  cbn [fst snd tk.box_cod Py.bind Py.ret tk.TketCircuit_init tk.n_qubits
       tk.n_bits tk.base tk.post_selection tk.scalar_
       pytket.Circuit_init pytket.n_qubits pytket.n_bits pytket.commands
       count_occ take app].
  unfold tk.pow. rewrite !repeat_length.
  change (Py.range (Z.of_nat 0) (Z.of_nat 0)) with (@nil BinNums.Z).
  cbn [map tk.bits_to_rename List.filter fold_left tk.add_blank_wires
       tk.Circuit_rename_units tk.base tk.post_selection tk.scalar_
       tk.n_qubits tk.n_bits pytket.n_qubits pytket.n_bits pytket.commands
       Nat.add tk.last_items Nat.eqb].
  rewrite (left_id_L ∅ (∪)).
  change (Z.of_nat 0) with 0%Z. rewrite Z.add_0_l, app_nil_r.
  reflexivity.
Qed.

Lemma to_tk_layer_last_bra (n : nat) (y : list int)
    (cmds : list pytket.Command) (sc : num) :
  length y = n ->
  exists ps,
    tk.to_tk_layer
      (tk.mkTketCircuit (pytket.mkCircuit n 0 cmds) ∅ sc, [],
       Py.range 0 (Z.of_nat n)) ([], tk.Bra y, [])
    = Ok (tk.mkTketCircuit
            (pytket.mkCircuit n n
               (cmds ++ map (fun j =>
                               pytket.mkCommand "Measure" []
                                 [Z.of_nat j] [Z.of_nat j])
                            (seq 0 n)))
            ps sc, [], Py.range 0 (Z.of_nat n))
    /\ forall b : int,
         ps !! b
         = if bool_decide (0 <= b < Z.of_nat n)%Z
           then y !! Z.to_nat b else None.
Proof.
  intros Hy.
  assert (Hr : length (Py.range 0 (Z.of_nat n)) = n).
  { unfold Py.range. rewrite length_map, length_seq. lia. }
  destruct (measure_qubits_loop_Bra (Py.range 0 (Z.of_nat n)) [] [] y n
              0 n 0 cmds ∅ sc []) as (ps & Hloop & Hps).
  { cbn. lia. }
  { lia. }
  exists ps. split.
  - unfold tk.to_tk_layer, tk.measure_qubits.
    cbn [fst snd tk.box_dom]. unfold tk.pow. rewrite repeat_length, Hy.
    rewrite Hloop. cbn [Py.bind Py.ret fst snd count_occ take app
                        tk.last_items Nat.eqb Nat.add].
    do 6 f_equal. apply map_ext_in. intros j Hj. apply in_seq in Hj.
    rewrite nth_lookup, lookup_range by lia. reflexivity.
  - intros b. rewrite Hps. cbn [Nat.add].
    change (Z.of_nat 0) with 0%Z. rewrite Z.sub_0_r.
    destruct (bool_decide _); [reflexivity | apply lookup_empty].
Qed.

Lemma functor_gate_layers (n : nat) (G : list (tk.Ty * tk.Box * tk.Ty)) :
  forall (result : tk.Circuit),
  tk.cod result = tk.pow tk.qubit n ->
  Forall (gate_layer n) G ->
  tk.functor_layers tk.remove_ket1 G result
  = Ok (tk.mkCircuit (tk.dom result) (tk.pow tk.qubit n)
          (tk.layers result ++ G)).
Proof.
  induction G as [|layer G IH]; intros result Hcod HG.
  - cbn. rewrite app_nil_r. destruct result; cbn in *. now subst.
  - apply List.Forall_cons_iff in HG as [Hl HG].
    pose proof (gate_layer_left n layer Hl) as (_ & _ & Hdc & Hk).
    destruct Hl as [Hty _].
    destruct layer as [[left box] right]. cbn [fst snd] in *.
    cbn [tk.functor_layers fst snd].
    replace (tk.remove_ket1 box) with (@Py.ret tk.Circuit (tk.of_box box))
      by (destruct box; try reflexivity; now elim (Hk bitstring)).
    cbn [Py.bind Py.ret]. unfold tk.then_.
    cbn [tk.tensor tk.Id tk.of_box tk.dom tk.cod tk.layers map app fst
         snd].
    rewrite Hcod, Hdc, <- !app_assoc, Hty, !app_nil_r.
    rewrite bool_decide_eq_true_2 by reflexivity.
    cbn [Py.bind Py.ret]. rewrite IH by (reflexivity || exact HG).
    cbn [tk.dom tk.layers]. now rewrite <- app_assoc.
Qed.

Lemma functor_layers_app (ar : tk.Box -> Py.M tk.Circuit)
    (l1 l2 : list (tk.Ty * tk.Box * tk.Ty)) (result : tk.Circuit) :
  tk.functor_layers ar (l1 ++ l2) result
  = (let* result' := tk.functor_layers ar l1 result in
     tk.functor_layers ar l2 result').
Proof.
  revert result. induction l1 as [|l l1 IH]; intros result; [reflexivity|].
  cbn [app tk.functor_layers].
  destruct (ar l.1.2); cbn [Py.bind]; [|reflexivity].
  destruct (tk.then_ _ _); cbn [Py.bind]; [apply IH | reflexivity].
Qed.

Lemma layers_between_nil (L : list (tk.Ty * tk.Box * tk.Ty)) :
  map (fun l : tk.Ty * tk.Box * tk.Ty => (l.1.1, l.1.2, (l.2 ++ [])%list))
      (map (fun l : tk.Ty * tk.Box * tk.Ty =>
              (([] ++ l.1.1)%list, l.1.2, l.2)) L)
  = L.
Proof.
  rewrite map_map. rewrite <- (map_id L) at 2. apply map_ext.
  intros [[a b] c]. cbn. now rewrite app_nil_r.
Qed.

Lemma functor_closed (x y : list int)
    (G : list (tk.Ty * tk.Box * tk.Ty)) :
  length y = length x ->
  Forall (gate_layer (length x)) G ->
  tk.CircuitFunctor tk.remove_ket1
    (tk.mkCircuit [] []
       (([], tk.Ket x, []) :: G ++ [([], tk.Bra y, [])]))
  = Ok (tk.mkCircuit [] []
          (([], tk.Ket (repeat 0%Z (length x)), [])
           :: flip_layers x ++ G ++ [([], tk.Bra y, [])])).
Proof.
  intros Hy HG. unfold tk.CircuitFunctor.
  cbn [tk.layers tk.dom tk.functor_layers fst snd].
  rewrite remove_ket1_Ket. cbn [Py.bind]. unfold tk.then_ at 1.
  cbn [tk.tensor tk.Id tk.dom tk.cod tk.layers map app].
  rewrite bool_decide_eq_true_2 by reflexivity. cbn [Py.bind Py.ret].
  rewrite layers_between_nil, app_nil_r.
  rewrite functor_layers_app.
  rewrite (functor_gate_layers (length x)) by (reflexivity || exact HG).
  cbn [Py.bind tk.dom tk.layers tk.functor_layers fst snd tk.remove_ket1
       Py.ret].
  unfold tk.then_.
  cbn [tk.tensor tk.Id tk.of_box tk.dom tk.cod tk.layers map app fst snd
       tk.box_dom tk.box_cod].
  rewrite app_nil_r, Hy.
  rewrite bool_decide_eq_true_2 by reflexivity.
  cbn [Py.bind Py.ret]. now rewrite app_nil_r, <- app_assoc.
Qed.

Lemma flip_layers_gates (x : list int) :
  Forall (gate_layer (length x)) (flip_layers x)
  /\ flat_map layer_scalars (flip_layers x) = [].
Proof.
  unfold flip_layers.
  assert (H : Forall (fun p : nat * int => p.1 < length x)
                     (combine (seq 0 (length x)) x)).
  { apply List.Forall_forall. intros [j v] Hin.
    apply in_combine_l, in_seq in Hin. cbn. lia. }
  induction H as [|p ps Hp _ [IH1 IH2]]; [split; [constructor|reflexivity]|].
  cbn [flat_map]. destruct (p.2 =? 0)%Z; [now split|].
  split; [|exact IH2]. cbn [app]. constructor; [|exact IH1].
  split; [|reflexivity]. cbn [fst snd tk.box_dom tk.X].
  unfold tk.pow. rewrite <- !repeat_app. f_equal. lia.
Qed.

(** X21: [to_tk] on a closed circuit [Ket(x) >> gates >> Bra(y)] over
    [n] qubits, the gates being rotations, gates named after a pytket
    method, and scalars.  The pytket circuit has [n] qubits and [n] bits;
    its commands are an [X] for each bit of [x] other than 0, then the
    gates in order, each on the qubits at its offset and each rotation
    with twice its phase, then a [Measure] of each qubit onto the bit of
    the same index; the bits of [y] are recorded as the values expected
    of the bits; and the scalar is the product of the scalars. *)
Theorem to_tk_closed_circuit (x y : list int)
    (G : list (tk.Ty * tk.Box * tk.Ty)) :
  length y = length x ->
  Forall (gate_layer (length x)) G ->
  exists tk_circ,
    tk.to_tk_closed
      (tk.mkCircuit [] []
         (([], tk.Ket x, []) :: G ++ [([], tk.Bra y, [])]))
    = Ok tk_circ
    /\ tk.base tk_circ
       = pytket.mkCircuit (length x) (length x)
           (flat_map layer_commands (flip_layers x ++ G)
            ++ map (fun j =>
                      pytket.mkCommand "Measure" []
                        [Z.of_nat j] [Z.of_nat j])
                   (seq 0 (length x)))
    /\ tk.scalar_ tk_circ = fold_left mul (flat_map layer_scalars G) one
    /\ forall b : int,
         tk.post_selection tk_circ !! b
         = if bool_decide (0 <= b < Z.of_nat (length x))%Z
           then y !! Z.to_nat b else None.
Proof.
  intros Hy HG. unfold tk.to_tk_closed.
  rewrite (functor_closed x y G Hy HG). cbn [Py.bind tk.layers].
  cbn [tk.to_tk_layers]. rewrite to_tk_layer_first_ket. cbn [Py.bind].
  rewrite app_assoc, to_tk_layers_app.
  destruct (flip_layers_gates x) as [Hf Hs].
  rewrite (to_tk_layers_gates (length x))
    by (apply Forall_app; split; assumption).
  cbn [Py.bind tk.to_tk_layers app].
  destruct (to_tk_layer_last_bra (length x) y
              (flat_map layer_commands (flip_layers x ++ G))
              (fold_left mul (flat_map layer_scalars (flip_layers x ++ G))
                         one) Hy) as (ps & Hl & Hps).
  rewrite Hl. cbn [Py.bind Py.ret fst]. eexists. split; [reflexivity|].
  cbn [tk.base tk.scalar_ tk.post_selection].
  split; [reflexivity|]. split; [|exact Hps].
  now rewrite flat_map_app, Hs.
Qed.

End tk_forward_translation.

(** ** The theorems at concrete circuits *)

Section concrete.
Import examples.

(** [X] is a gate that [Gate.__init__] constructs, hence square, and so
    is its dagger. *)
Lemma gate_square_X :
  constructed circuit.X 1
  /\ (square circuit.X 1
      /\ (forall g', circuit.dagger circuit.X = Ok g' ->
           constructed g' 1 /\ square g' 1)
      /\ (forall a, circuit.array circuit.X = Ok a ->
           exists g', circuit.dagger circuit.X = Ok g')).
Proof.
  assert (H : constructed circuit.X 1).
  { apply (@constructed_Gate Z_numeric "X" 1 (Some [0; 1; 1; 0]%Z)
                             None None).
    reflexivity. }
  split; [exact H | apply (gate_square circuit.X 1 H)].
Defined.

(** [Ket(0, 1) @ Ket(1, 0)], [Bra(0, 1) @ Bra(1, 0)], and the two boxes
    tensored with [X]. *)
Lemma basis_tensor_X :
  (forall z, circuit.OfBox circuit.X <> circuit.OfBox (circuit.Ket z))
  /\ (forall z, circuit.OfBox circuit.X <> circuit.OfBox (circuit.Bra z))
  /\ circuit.tensor (circuit.OfBox (circuit.Ket [0; 1]%Z))
                    (circuit.OfBox (circuit.Ket [1; 0]%Z))
     = circuit.OfBox (circuit.Ket [0; 1; 1; 0]%Z)
  /\ circuit.tensor (circuit.OfBox (circuit.Bra [0; 1]%Z))
                    (circuit.OfBox (circuit.Bra [1; 0]%Z))
     = circuit.OfBox (circuit.Bra [0; 1; 1; 0]%Z)
  /\ circuit.tensor (circuit.OfBox (circuit.Ket [0; 1]%Z))
                    (circuit.OfBox circuit.X)
     = circuit.OfCircuit
         (circuit.mkCircuit 1 3 [circuit.Ket [0; 1]%Z; circuit.X]
                            [0; 2]%Z)
  /\ circuit.tensor (circuit.OfBox (circuit.Bra [0; 1]%Z))
                    (circuit.OfBox circuit.X)
     = circuit.OfCircuit
         (circuit.mkCircuit 3 1 [circuit.Bra [0; 1]%Z; circuit.X]
                            [0; 0]%Z).
Proof.
  assert (Hk : forall z, circuit.OfBox circuit.X
                         <> circuit.OfBox (circuit.Ket z))
    by (intros z; discriminate).
  assert (Hb : forall z, circuit.OfBox circuit.X
                         <> circuit.OfBox (circuit.Bra z))
    by (intros z; discriminate).
  destruct (basis_tensor [0; 1]%Z [1; 0]%Z (circuit.OfBox circuit.X))
    as (H1 & H2 & H3 & H4 & _).
  split; [exact Hk|]. split; [exact Hb|].
  split; [exact H1|]. split; [exact H2|].
  split; [exact (H3 Hk) | exact (H4 Hb)].
Defined.

(** One qubit, depth 3, the gateset [[CX, H, T]], seed 420. *)
Lemma random_one_qubit_420 :
  circuit.random counting 0 1 3
    (Some [circuit.AGate circuit.CX; circuit.AGate circuit.H;
           circuit.AGate circuit.T])
    (Some 420%Z) 0
  = (Some (Ok (circuit.mkCircuit 1 1
                 [circuit.Rx (1 # 422); circuit.Rz (1 # 423);
                  circuit.Rx (1 # 424)] [0; 0; 0]%Z)), 423).
Proof.
  exact (proj1 (random_one_qubit counting 0 3
                  (Some [circuit.AGate circuit.CX;
                         circuit.AGate circuit.H;
                         circuit.AGate circuit.T])
                  (Some 420%Z) 0)).
Defined.

Lemma unconstrained_measure_rejected_measured :
  tk.from_tk_step measured
    (tk.mkCircuit [tk.qubit; tk.bit] [tk.qubit; tk.bit]
                  [([], tk.Rx (1 / 2)%Q, [tk.bit])])
    (pytket.mkCommand "Measure" [] [0%Z] [0%Z])
  = Error Py.NotImplementedError
  /\ tk.from_tk measured = Error Py.NotImplementedError.
Proof.
  apply (unconstrained_measure_rejected measured
           [pytket.mkCommand "Rx" [1%Q] [0%Z] []] []
           (pytket.mkCommand "Measure" [] [0%Z] [0%Z]) 0%Z);
    reflexivity.
Defined.

Lemma roundtrip_docstring_circuit :
  (let* tk_circuit := circuit.to_tk docstring_circuit in
   circuit.from_tk tk_circuit) = Ok docstring_circuit
  /\ (forall c',
       (let* tk_circuit := circuit.to_tk docstring_circuit in
        circuit.from_tk tk_circuit) = Ok c' ->
       forall fuel,
         circuit.normalize fuel c'
         = circuit.normalize fuel docstring_circuit).
Proof.
  apply (to_tk_from_tk_roundtrip docstring_circuit).
  - constructor; [right; right; eexists; reflexivity|].
    constructor; [right; left; eexists; reflexivity|].
    constructor; [left; simpl; auto|]. constructor.
  - reflexivity.
  - reflexivity.
Defined.

Lemma layerwise_foliation_of_identity : foliation_of_identity layerwise.
Proof.
  intros d Hd. exists []. split; [|reflexivity].
  cbn. now rewrite Hd.
Qed.

Lemma normalize_three_scalars :
  exists ys,
    circuit.normalize 0 three_scalars = (ys, Py.StopIteration)
    /\ length ys = 3
    /\ last ys = Some (circuit.Pair (circuit.Id 1) 30%Z).
Proof.
  destruct (normalize_scalars three_scalars [2; 3; 5]%Z 0)
    as (ys & e & H1 & H2 & _ & H4 & H5).
  - repeat constructor.
  - reflexivity.
  - exists ys. rewrite (H5 layerwise_foliation_of_identity) in H1.
    split; [exact H1|]. split; [exact H2|].
    apply H4. discriminate.
Defined.

Lemma normalize_ket_below :
  circuit.normalize 1 ket_below = ([], Py.Raises (Py.NameError "box"))
  /\ circuit.move_ket ket_below 2 = Ok (ket_below, 1%Z)
  /\ circuit.move_ket ket_below 1
     = Error (Py.NameError "InterchangerError").
Proof.
  destruct (kets_loop_name_error 0 ket_below ket_below []
              [circuit.Diagram_slice ket_below 0 1;
               circuit.Diagram_slice ket_below 1 2;
               circuit.Diagram_slice ket_below 2 3])
    as (H1 & H2 & H3).
  - reflexivity.
  - reflexivity.
  - simpl. lia.
  - split; [exact H1|]. split.
    + eapply H2. reflexivity.
    + eapply H3. reflexivity.
Defined.

Lemma ket_bra_eval_101 :
  (let* c := circuit.then_ (circuit.OfBox (circuit.Ket [1; 0; 1]%Z))
                           (circuit.OfBox (circuit.Bra [1; 0; 1]%Z)) in
   circuit.eval (circuit.circuit_of c))
  = Ok (circuit.mkMatrix [] [] [[1%Z]]).
Proof. exact (@ket_bra_eval Z_numeric Z_bits [1; 0; 1]%Z). Defined.

(** *** Where the claims fail *)

(** [Circuit.to_tk] of [circuit.py] emits [Rz(0.5)] with the parameter
    0.5, not with twice the phase. *)
Lemma circuit_to_tk_keeps_phase :
  ~ (exists t c q,
       circuit.to_tk (circuit.mkCircuit 1 1 [circuit.Rz (1 # 2)] [0%Z])
       = Ok t
       /\ pytket.commands t = [c]
       /\ pytket.op_params c = [q]
       /\ (q == 2 * (1 # 2))%Q).
Proof.
  intros (t & c & q & Ht & Hc & Hq & He).
  vm_compute in Ht. injection Ht as <-.
  cbn in Hc. injection Hc as <-.
  cbn in Hq. injection Hq as <-.
  vm_compute in He. discriminate.
Qed.

(** A measurement without post-selection is not lowered to a [Measure]
    box: [from_tk] raises. *)
Lemma measure_without_post_selection :
  let tk_circuit :=
    tk.mkTketCircuit
      (pytket.mkCircuit 1 1 [pytket.mkCommand "Measure" [] [0%Z] [0%Z]])
      ∅ one in
  tk.from_tk tk_circuit = Error Py.NotImplementedError
  /\ ~ (exists c, tk.from_tk tk_circuit = Ok c).
Proof.
  split; [reflexivity|]. intros (c & Hc). vm_compute in Hc. discriminate.
Qed.

(** [Ket(1) @ Id(1)] has one layer, not two. *)
Lemma ket_tensor_identity_one_layer :
  ~ (exists c,
       circuit.tensor (circuit.OfBox (circuit.Ket [1%Z]))
                      (circuit.OfCircuit (circuit.Id 1))
       = circuit.OfCircuit c
       /\ length (circuit.boxes c) = 2).
Proof.
  intros (c & Hc & Hl). cbn in Hc. injection Hc as <-.
  cbn in Hl. discriminate.
Qed.

(** With the gateset [[Rx]], the one-qubit random circuit has a gate from
    the gateset. *)
Lemma random_one_qubit_has_gateset_gate :
  ~ (forall c st',
       circuit.random counting 0 1 3 (Some [circuit.ClassRx])
                      (Some 420%Z) 0
       = (Some (Ok c), st') ->
       forall g, In g (circuit.boxes c) ->
                 ~ from_gateset [circuit.ClassRx] g).
Proof.
  intros H.
  apply (H (circuit.mkCircuit 1 1
              [circuit.Rx (1 # 422); circuit.Rz (1 # 423);
               circuit.Rx (1 # 424)] [0; 0; 0]%Z)
           423 eq_refl (circuit.Rx (1 # 422))).
  - now left.
  - right. left. split; [now left | eexists; reflexivity].
Qed.

End concrete.

(** ** The further properties at concrete circuits *)

Section concrete_properties.
Import examples.

(** The dagger of the dagger of [Y]. *)
Lemma dagger_involutive_Y :
  circuit.dagger
    (circuit.Gate "Y" 1 (Some [0; -1000; 1000; 0]%Z) None (Some true))
  = Ok circuit.Y.
Proof. apply (@dagger_involutive Z_numeric circuit.Y). reflexivity. Defined.

Lemma dagger_self_inverse_X : circuit.dagger circuit.X = Ok circuit.X.
Proof.
  exact (proj1 (@dagger_self_inverse Z_numeric "X" 1 [0; 1; 1; 0]%Z
                  None None eq_refl)).
Defined.

(** [Ket(1, 1, 0)], as in the docstring of [Ket]. *)
Lemma Ket_array_110 :
  circuit.Ket_array [1; 1; 0]%Z = [0; 0; 0; 0; 0; 0; 1; 0]%Z.
Proof.
  exact (proj1 (proj2 (@Ket_array_index Z_numeric Z_bits [1; 1; 0]%Z))).
Defined.

(** [Ket(1, 0) >> Bra(0, 1)] is 0, and [Ket(2, 0) >> Bra(1, 0)] is 1. *)
Lemma ket_bra_orthogonal_10_01 :
  (let* c := circuit.then_ (circuit.OfBox (circuit.Ket [1; 0]%Z))
                           (circuit.OfBox (circuit.Bra [0; 1]%Z)) in
   circuit.eval (circuit.circuit_of c))
  = Ok (circuit.mkMatrix [] [] [[0%Z]])
  /\ (let* c := circuit.then_ (circuit.OfBox (circuit.Ket [2; 0]%Z))
                              (circuit.OfBox (circuit.Bra [1; 0]%Z)) in
      circuit.eval (circuit.circuit_of c))
     = Ok (circuit.mkMatrix [] [] [[1%Z]]).
Proof.
  split.
  - exact (@ket_bra_orthogonal Z_numeric Z_bits [1; 0]%Z [0; 1]%Z).
  - exact (@ket_bra_orthogonal Z_numeric Z_bits [2; 0]%Z [1; 0]%Z).
Defined.

Lemma from_tk_invariants_swapped_cx :
  circuit.from_tk swapped_cx
  = Ok (circuit.mkCircuit 3 3 [circuit.SWAP; circuit.SWAP; circuit.CX]
                          [0; 1; 1]%Z)
  /\ Forall supported [circuit.SWAP; circuit.SWAP; circuit.CX]
  /\ exists tk_circuit',
       circuit.to_tk
         (circuit.mkCircuit 3 3 [circuit.SWAP; circuit.SWAP; circuit.CX]
                            [0; 1; 1]%Z)
       = Ok tk_circuit'
       /\ pytket.n_qubits tk_circuit' = 3
       /\ length (pytket.get_commands tk_circuit') = 3.
Proof.
  split; [reflexivity|].
  destruct (@from_tk_invariants Z_numeric swapped_cx
              (circuit.mkCircuit 3 3
                 [circuit.SWAP; circuit.SWAP; circuit.CX] [0; 1; 1]%Z)
              eq_refl) as (_ & _ & _ & _ & H5 & H6).
  split; [exact H5 | exact H6].
Defined.

Lemma from_tk_to_tk_roundtrip_docstring :
  circuit.from_tk docstring_tk_circuit = Ok docstring_circuit
  /\ (let* c := circuit.from_tk docstring_tk_circuit in circuit.to_tk c)
     = Ok docstring_tk_circuit.
Proof.
  apply (@from_tk_to_tk_roundtrip Z_numeric docstring_tk_circuit
           [(circuit.Rz (1 # 2), 0%Z); (circuit.Rx (1 # 4), 1%Z);
            (circuit.CX, 0%Z)]).
  - constructor; [right; right; eexists; reflexivity|].
    constructor; [right; left; eexists; reflexivity|].
    constructor; [left; simpl; auto|]. constructor.
  - reflexivity.
  - reflexivity.
Defined.

(** A gate on the qubits 2 and 0 of three: two swaps, at the offsets 0
    and 1, after which the gate is placed at offset 1. *)
Lemma from_tk_swaps_make_adjacent_2_0 :
  exists i_0 so,
    circuit.swaps_loop [0%Z] 0%Z 2%Z [] []
    = (i_0, ([] ++ repeat circuit.SWAP (length so))%list, ([] ++ so)%list)
    /\ length so = Z.to_nat (if (0 <? 2)%Z then 2 - 0 else 0 - 2 - 1)
    /\ i_0 = (if (0 <? 2)%Z then 2 - 1 else 2)%Z
    /\ let wires :=
         fold_left (fun w j => swap_wires j w) so
                   (Py.range 0 (Z.of_nat 3)) in
       wires !! Z.to_nat i_0 = Some 2%Z
       /\ wires !! Datatypes.S (Z.to_nat i_0) = Some 0%Z.
Proof.
  apply (@from_tk_swaps_make_adjacent Z_numeric 3 2%Z 0%Z [] []); lia.
Defined.

(** [Ket(0) @ Id(1) >> ... ] has no translation. *)
Lemma to_tk_rejects_basis_ket :
  circuit.to_tk
    (circuit.mkCircuit 1 2 [circuit.X; circuit.Ket [0%Z]; circuit.H]
                       [0; 0; 1]%Z)
  = Error (Py.AttributeError "Ket(0)").
Proof.
  apply (@to_tk_rejects_basis Z_numeric _ [(circuit.X, 0%Z)]
           [(circuit.H, 1%Z)] (circuit.Ket [0%Z]) 0%Z).
  - reflexivity.
  - constructor; [left; simpl; auto 10 | constructor].
  - left. now eexists.
Defined.

(** Two qubits, depth 2, the gateset [[CX, H, T]], seed 420. *)
Lemma random_tiling_420 :
  circuit.random counting 5 2 2
    (Some [circuit.AGate circuit.CX; circuit.AGate circuit.H;
           circuit.AGate circuit.T])
    (Some 420%Z) 0
  = (Some (Ok (circuit.mkCircuit 2 2
                 [circuit.CX; circuit.H; circuit.H] [0; 0; 1]%Z)), 423)
  /\ Forall (from_gateset [circuit.AGate circuit.CX;
                           circuit.AGate circuit.H;
                           circuit.AGate circuit.T])
            [circuit.CX; circuit.H; circuit.H]
  /\ list_sum (map circuit.box_dom [circuit.CX; circuit.H; circuit.H])
     = 2 * 2.
Proof.
  split; [reflexivity|].
  destruct (@random_tiling Z_numeric counting 5 2 2
              [circuit.AGate circuit.CX; circuit.AGate circuit.H;
               circuit.AGate circuit.T]
              (Some 420%Z) 0 423
              (circuit.mkCircuit 2 2
                 [circuit.CX; circuit.H; circuit.H] [0; 0; 1]%Z))
    as (_ & _ & _ & H4 & H5).
  - lia.
  - repeat constructor; intros g [= <-]; reflexivity.
  - reflexivity.
  - split; [exact H4 | exact H5].
Defined.

Lemma random_edge_cases_2 :
  circuit.random counting 0 2 0 None None 7 = (Some (Ok (circuit.Id 2)), 7)
  /\ circuit.random counting 0 0 1 None None 7
     = (Some (Ok (circuit.Id 0)), 7)
  /\ (2 <= 2 ->
      circuit.random counting 1 2 2 None None 7
      = (Some (Error Py.TypeError), 7)
      /\ circuit.random counting 1 2 2 (Some []) None 7
         = (Some (Error Py.IndexError), 7)).
Proof.
  apply (@random_edge_cases Z_numeric counting 0 2 1 None None 7). lia.
Defined.

(** The two scalars of [kets_and_scalars] are taken out, the kets and the
    gate stay. *)
Lemma normalize_removes_scalars_kets :
  (circuit.normalize 0 kets_and_scalars).1
  = [circuit.Pair
       (circuit.mkCircuit 0 3
          [circuit.Ket [0%Z]; circuit.Ket [1%Z]; circuit.sqrt 9;
           circuit.CX; circuit.Ket [0%Z]]
          [0; 1; 2; 0; 1]%Z) 2%Z;
     circuit.Pair
       (circuit.mkCircuit 0 3
          [circuit.Ket [0%Z]; circuit.Ket [1%Z]; circuit.CX;
           circuit.Ket [0%Z]]
          [0; 1; 0; 1]%Z) 6%Z].
Proof.
  apply (@normalize_removes_scalars Z_numeric layerwise kets_and_scalars 0).
  - reflexivity.
  - repeat constructor; try discriminate; intros _; now eexists.
Defined.

(** [Circuit.cups(PRO(1), PRO(1))], as in the docstring. *)
Lemma cups_layers_1 :
  circuit.cups 1 1
  = Ok (circuit.OfCircuit
          (circuit.mkCircuit 2 0
             [circuit.CX; circuit.H; circuit.sqrt 2;
              circuit.Bra [0; 0]%Z]
             [0; 0; 1; 0]%Z))
  /\ circuit.cups 1 2 = Error Py.AxiomError.
Proof.
  destruct (@cups_layers Z_numeric 1 2 1) as (H1 & _ & H3).
  split; [exact H1 | apply H3; lia].
Defined.

Lemma caps_layers_1 :
  circuit.caps 1 1
  = Ok (circuit.mkCircuit 0 2
          [circuit.Ket [0; 0]%Z; circuit.sqrt 2; circuit.H; circuit.CX]
          [0; 1; 0; 0]%Z)
  /\ circuit.caps 1 2 = Error Py.AxiomError.
Proof.
  destruct (@caps_layers Z_numeric 1 2 1) as (H1 & _ & H3).
  split; [exact H1 | apply H3; lia].
Defined.

Lemma from_tk_returns_only_if_one_qubit_gates :
  num_eqb (tk.scalar_ one_qubit_gates) one = true
  /\ Forall (fun tk_gate =>
               pytket.op_type tk_gate <> "Measure"
               /\ forall q0 q1 rest,
                    pytket.qubits tk_gate = q0 :: q1 :: rest ->
                    (q1 <= q0)%Z)
            (pytket.get_commands (tk.base one_qubit_gates)).
Proof.
  eapply (@from_tk_returns_only_if Z_numeric quantum one_qubit_gates).
  reflexivity.
Defined.

Lemma from_tk_one_qubit_layers_gates :
  exists circuit,
    tk.from_tk one_qubit_gates = Ok circuit
    /\ tk.dom circuit = [tk.qubit; tk.qubit; tk.bit]
    /\ tk.cod circuit = [tk.qubit; tk.qubit; tk.bit]
    /\ Forall2 (fun tk_gate layer =>
                  exists q box,
                    pytket.qubits tk_gate = [q]
                    /\ tk.box_from_tk tk_gate = Ok box
                    /\ layer = (take (Z.to_nat q)
                                     [tk.qubit; tk.qubit; tk.bit], box,
                                drop (Datatypes.S (Z.to_nat q))
                                     [tk.qubit; tk.qubit; tk.bit]))
               (pytket.get_commands (tk.base one_qubit_gates))
               (tk.layers circuit).
Proof.
  apply (@from_tk_one_qubit_layers Z_numeric quantum one_qubit_gates).
  - reflexivity.
  - reflexivity.
  - constructor; [|constructor; [|constructor]].
    + exists 1%Z, (tk.Rx (1 / 2)%Q).
      repeat split; (lia || discriminate || reflexivity).
    + exists 0%Z, (tk.QuantumGate "H" 1).
      repeat split; (lia || discriminate || reflexivity).
Defined.


(** The bit 0 is renamed to 5 and takes its expected value along; the
    bit 1, which has none, is renamed to 6; the bit 2 is not renamed. *)
Lemma rename_units_post_selection_selected :
  let result :=
    tk.rename_units selected
      [(tk.Bit 0, tk.Bit 5); (tk.Bit 1, tk.Bit 6);
       (tk.Qubit 0, tk.Qubit 1)]%Z in
  tk.post_selection result !! 5%Z = Some 1%Z
  /\ tk.post_selection result !! 0%Z = None
  /\ tk.post_selection result !! 2%Z = Some 0%Z.
Proof.
  intros result.
  destruct (@rename_units_post_selection Z_numeric selected
              [(tk.Bit 0, tk.Bit 5); (tk.Bit 1, tk.Bit 6);
               (tk.Qubit 0, tk.Qubit 1)]%Z) as (H1 & H2 & _).
  { cbn. apply NoDup_singleton. }
  split; [|split].
  - apply (H1 0%Z (tk.Bit 5%Z) 1%Z); [now left | reflexivity].
  - apply (H2 0%Z).
    + intros i new [[= <- <-] | [[= <- <-] | [[=] | []]]] _; discriminate.
    + exists (tk.Bit 5%Z). now left.
  - apply (H2 2%Z).
    + intros i new [[= <- <-] | [[= <- <-] | [[=] | []]]] _; discriminate.
    + intros new [[=] | [[=] | [[=] | []]]].
Defined.

(** [Bra(1, 0)] behind one qubit wire, on the register list [[4, 5, 6]]
    of a circuit that has one bit already. *)
Lemma measure_qubits_effect_10 :
  exists tk_circ',
    tk.measure_qubits (tk.TketCircuit_init 7 1) [4; 5; 6]%Z [0%Z]
                      [tk.qubit] (tk.Bra [1; 0]%Z) []
    = Ok (tk_circ', [0%Z])
    /\ tk.base tk_circ'
       = pytket.mkCircuit 7 3
           [pytket.mkCommand "Measure" [] [5%Z] [1%Z];
            pytket.mkCommand "Measure" [] [6%Z] [2%Z]]
    /\ tk.post_selection tk_circ' !! 1%Z = Some 1%Z
    /\ tk.post_selection tk_circ' !! 2%Z = Some 0%Z.
Proof.
  destruct (@measure_qubits_effect Z_numeric (tk.TketCircuit_init 7 1)
              [4; 5; 6]%Z [0%Z] [tk.qubit] [] [1; 0]%Z) as [H _].
  destruct H as (tk_circ' & H1 & H2 & _ & H4); [cbn; lia|].
  exists tk_circ'. split; [exact H1|]. split; [exact H2|].
  split; [exact (H4 1%Z) | exact (H4 2%Z)].
Defined.

Lemma remove_ket1_flips_101 :
  tk.remove_ket1 (tk.Ket [1; 0; 1]%Z)
  = Ok (tk.mkCircuit [] [tk.qubit; tk.qubit; tk.qubit]
          [([], tk.Ket [0; 0; 0]%Z, []);
           ([], tk.X, [tk.qubit; tk.qubit]);
           ([tk.qubit; tk.qubit], tk.X, [])])
  /\ tk.remove_ket1 (tk.Rx 1) = Ok (tk.of_box (tk.Rx 1)).
Proof.
  destruct (@remove_ket1_flips Z_numeric [1; 0; 1]%Z (tk.Rx 1))
    as [H1 H2].
  split; [exact H1 | apply H2; discriminate].
Defined.

(** [Ket(1, 0) >> CX >> Id(1) @ Rz(0.25) >> scalar(3) >> Bra(0, 1)] *)
Lemma to_tk_closed_circuit_10_01 :
  exists tk_circ,
    tk.to_tk_closed
      (tk.mkCircuit [] []
         (([], tk.Ket [1; 0]%Z, [])
          :: two_qubit_gates ++ [([], tk.Bra [0; 1]%Z, [])]))
    = Ok tk_circ
    /\ tk.base tk_circ
       = pytket.mkCircuit 2 2
           [pytket.mkCommand "X" [] [0%Z] [];
            pytket.mkCommand "CX" [] [0; 1]%Z [];
            pytket.mkCommand "Rz" [(2 * (1 # 4))%Q] [1%Z] [];
            pytket.mkCommand "Measure" [] [0%Z] [0%Z];
            pytket.mkCommand "Measure" [] [1%Z] [1%Z]]
    /\ tk.scalar_ tk_circ = 3%Z
    /\ tk.post_selection tk_circ !! 0%Z = Some 0%Z
    /\ tk.post_selection tk_circ !! 1%Z = Some 1%Z.
Proof.
  destruct (@to_tk_closed_circuit Z_numeric no_arrays [1; 0]%Z [0; 1]%Z
              two_qubit_gates) as (tk_circ & H1 & H2 & H3 & H4).
  - reflexivity.
  - repeat constructor.
  - exists tk_circ. split; [exact H1|]. split; [exact H2|].
    split; [exact H3|]. split; [exact (H4 0%Z) | exact (H4 1%Z)].
Defined.

End concrete_properties.
